(** * StyleAI backend: request orchestration and data access

    A shallow embedding of [src/app.py] (the Flask handlers, the completion
    client and the helpers) and of the data-access functions of
    [src/database.py], together with the properties of the written
    specification that concern them.

    Conventions of the embedding.
    - Python [str] values are [string]s; one [ascii] stands for one character
      with code point below 256, so that [str.strip] and [str.lower] are the
      Python functions on that range.  Literals of the source holding
      characters outside the range appear as their UTF-8 encoding.
    - Code that may raise runs in the monad [M]: a state transformer whose
      result is either a value or a raised exception.  [try_except] is
      Python's [try: ... except Exception as e: ...].
    - What lies outside the process (the completion service, the file system,
      the clock, werkzeug and hashlib functions) is a field of [env]. *)

From Stdlib Require Import String Ascii List ZArith Bool Lia Arith.
From Stdlib Require Import Sorting.Sorted.
Import ListNotations.
Open Scope string_scope.
Open Scope nat_scope.

(* ================================================================== *)
(** ** Text primitives of Python used by the source                    *)
(* ================================================================== *)

Module Py.

(** [c.isspace()] for a character below 256: TAB..CR, FS..US, space,
    NEL (0x85) and NBSP (0xA0). *)
Definition isspace (c : ascii) : bool :=
  let n := nat_of_ascii c in
  ((9 <=? n) && (n <=? 13)) || ((28 <=? n) && (n <=? 32))
  || (n =? 133) || (n =? 160).

(** [c.lower()] for a character below 256: A-Z and the Latin-1 capitals
    0xC0-0xDE (without the multiplication sign 0xD7) move up by 32. *)
Definition lower_char (c : ascii) : ascii :=
  let n := nat_of_ascii c in
  if ((65 <=? n) && (n <=? 90))
     || ((192 <=? n) && (n <=? 222) && negb (n =? 215))
  then ascii_of_nat (n + 32) else c.

Fixpoint lower (s : string) : string :=
  match s with
  | EmptyString => EmptyString
  | String c s' => String (lower_char c) (lower s')
  end.

Fixpoint lstrip (s : string) : string :=
  match s with
  | EmptyString => EmptyString
  | String c s' => if isspace c then lstrip s' else s
  end.

Fixpoint rstrip (s : string) : string :=
  match s with
  | EmptyString => EmptyString
  | String c s' =>
      match rstrip s' with
      | EmptyString => if isspace c then EmptyString else String c EmptyString
      | r => String c r
      end
  end.

(** [s.strip()] *)
Definition strip (s : string) : string := lstrip (rstrip s).

(** [c in s] for a one-character needle. *)
Fixpoint contains (c : ascii) (s : string) : bool :=
  match s with
  | EmptyString => false
  | String d s' => Ascii.eqb c d || contains c s'
  end.

(** Position of the last [c]: the text before it and the text after it. *)
Fixpoint rpartition (c : ascii) (s : string) : option (string * string) :=
  match s with
  | EmptyString => None
  | String d s' =>
      match rpartition c s' with
      | Some (a, b) => Some (String d a, b)
      | None => if Ascii.eqb c d then Some (EmptyString, s') else None
      end
  end.

(** [s.rsplit(c, 1)]: two pieces around the last [c], or [s] alone. *)
Definition rsplit1 (c : ascii) (s : string) : list string :=
  match rpartition c s with
  | Some (a, b) => [a; b]
  | None => [s]
  end.

(** [s] begins with [p]. *)
Fixpoint startswith (p s : string) : bool :=
  match p with
  | EmptyString => true
  | String a p' =>
      match s with
      | EmptyString => false
      | String b s' => Ascii.eqb a b && startswith p' s'
      end
  end.

(** [x in xs] for a collection of strings. *)
Definition str_in (x : string) (xs : list string) : bool :=
  existsb (String.eqb x) xs.

(** Truth value of a [str]: non-empty. *)
Definition truthy (s : string) : bool :=
  match s with EmptyString => false | _ => true end.

(** [a or b] on strings. *)
Definition str_or (a b : string) : string := if truthy a then a else b.

End Py.

(* ================================================================== *)
(** ** Helpers of app.py                                               *)
(* ================================================================== *)

Definition ALLOWED : list string := ["png"; "jpg"; "jpeg"; "webp"; "gif"].

(** [ok_file(name)]:
    ["." in name and name.rsplit(".", 1)[1].lower() in ALLOWED].
    The index [[1]] is the only partial step; [None] stands for the
    [IndexError] it would raise. *)
Definition ok_file_checked (name : string) : option bool :=
  if Py.contains "." name then
    match nth_error (Py.rsplit1 "." name) 1 with
    | Some ext => Some (Py.str_in (Py.lower ext) ALLOWED)
    | None => None
    end
  else Some false.

Definition ok_file (name : string) : bool :=
  match ok_file_checked name with
  | Some b => b
  | None => false
  end.

(** *** The two substitutions of [strip_md]

    [re.sub(r"\*\*(.+?)\*\*", r"\1", text)] and
    [re.sub(r"\*(.+?)\*", r"\1", text)] are instances of one scheme: an
    opening delimiter, a lazy non-empty group of characters other than
    newline, a closing delimiter; the match is replaced by the group. *)

Definition newline : ascii := ascii_of_nat 10.

Fixpoint drop (n : nat) (s : string) : string :=
  match n, s with
  | O, _ => s
  | S n', EmptyString => EmptyString
  | S n', String _ s' => drop n' s'
  end.

(** The lazy group [(.+?)] followed by [close], tried at the head of [s]:
    the shortest non-empty run without newline after which [close] stands.
    Returns the group and the text after the closing delimiter. *)
Fixpoint lazy_group (close : string) (s : string) : option (string * string) :=
  match s with
  | EmptyString => None
  | String c s' =>
      if Ascii.eqb c newline then None
      else if Py.startswith close s'
           then Some (String c EmptyString, drop (String.length close) s')
           else match lazy_group close s' with
                | Some (g, rest) => Some (String c g, rest)
                | None => None
                end
  end.

(** A match of [delim (.+?) delim] anchored at the head of [s]. *)
Definition match_here (delim : string) (s : string) : option (string * string) :=
  if Py.startswith delim s
  then lazy_group delim (drop (String.length delim) s)
  else None.

(** [re.sub]: scan from the left; at a match emit the group and go on after
    the match, otherwise emit one character and move by one.  [fuel] bounds
    the number of steps; [String.length s] steps always suffice. *)
Fixpoint re_sub_fuel (fuel : nat) (delim : string) (s : string) : string :=
  match fuel with
  | O => s
  | S fuel' =>
      match s with
      | EmptyString => EmptyString
      | String c s' =>
          match match_here delim s with
          | Some (g, rest) => g ++ re_sub_fuel fuel' delim rest
          | None => String c (re_sub_fuel fuel' delim s')
          end
      end
  end.

Definition re_sub (delim : string) (s : string) : string :=
  re_sub_fuel (String.length s) delim s.

(** [strip_md(text)] *)
Definition strip_md (text : string) : string :=
  let text := re_sub "**" text in
  let text := re_sub "*" text in
  Py.strip text.

(* ================================================================== *)
(** ** Exceptions, results and the monad of effectful code             *)
(* ================================================================== *)

(** The exception classes the source tells apart: [requests.Timeout]
    ([call_text]), [sqlite3.IntegrityError] ([signup], [create_user]); every
    other subclass of [Exception] is [OtherError]. *)
Inductive exn_class : Type := Timeout | IntegrityError | OtherError.

(** A raised exception: its class and [str(e)]. *)
Record exn : Type := Exn { exn_cls : exn_class; exn_str : string }.

Definition is_timeout (e : exn) : bool :=
  match exn_cls e with Timeout => true | _ => false end.

Definition is_integrity (e : exn) : bool :=
  match exn_cls e with IntegrityError => true | _ => false end.

Inductive result (A : Type) : Type :=
| Ok (a : A)
| Raise (e : exn).
Arguments Ok {A} a.
Arguments Raise {A} e.

(** *** Rows of the three tables *)

Record user_row : Type := UserRow {
  user_id : Z;
  user_name : string;
  user_phone : option string;      (* None is SQL NULL *)
  user_email : option string;
  user_password : string;
  user_created_at : Z }.

(** A value as SQLite stores it: an integer, a real (the double
    [mantissa * 2^exponent]) or a text. *)
Inductive sql_value : Type :=
| SqlInteger (z : Z)
| SqlReal (mantissa exponent : Z)
| SqlText (s : string).

Record profile_row : Type := ProfileRow {
  prof_id : Z;
  prof_user_id : option Z;
  prof_gender : string;
  prof_age : sql_value;            (* the column is age INTEGER *)
  prof_size : string;
  prof_culture_style : string;
  prof_dress_style : string;
  prof_photo_path : string;
  prof_created_at : Z }.

(** A value of the dict handed to [save_rec] as [idata]; the column holds
    [str(idata)]. *)
Inductive pyval : Type := PStr (s : string) | PBool (b : bool).

Record rec_row : Type := RecRow {
  rec_id : Z;
  rec_user_id : option Z;
  rec_profile_id : option Z;
  rec_request_type : string;
  rec_input_data : list (string * pyval);
  rec_ai_response : string;
  rec_created_at : Z }.

(** *** Requests sent to the completion service *)

Inductive content : Type :=
| TextContent (prompt : string)
| ImageAndText (image_url : string) (prompt : string).

Record http_request : Type := HttpRequest {
  rq_url : string;
  rq_bearer : string;
  rq_model : string;
  rq_content : content;
  rq_temperature_tenths : Z;
  rq_max_tokens : option Z;
  rq_timeout : Z }.

(** The response object as the source uses it: [r.raise_for_status()] and
    [r.json()["choices"][0]["message"]["content"]], each of which may raise. *)
Record http_response : Type := HttpResponse {
  raise_for_status : option exn;
  json_content : exn + string }.

(** *** The state the handlers act on *)

Record state : Type := State {
  users : list user_row;
  users_seq : Z;                       (* last id given by AUTOINCREMENT *)
  fashion_profiles : list profile_row;
  fashion_profiles_seq : Z;
  ai_recommendations : list rec_row;
  ai_recommendations_seq : Z;
  files : list (string * string);      (* path, bytes *)
  http_log : list http_request }.      (* calls made to the service *)

Definition M (A : Type) : Type := state -> result A * state.

Definition ret {A} (a : A) : M A := fun st => (Ok a, st).

Definition raise {A} (e : exn) : M A := fun st => (Raise e, st).

Definition bind {A B} (m : M A) (k : A -> M B) : M B :=
  fun st =>
    match m st with
    | (Ok a, st') => k a st'
    | (Raise e, st') => (Raise e, st')
    end.

Notation "x <- m ;; k" := (bind m (fun x => k))
  (at level 61, m at next level, right associativity).
Notation "m ;;; k" := (bind m (fun _ => k))
  (at level 61, right associativity).

(** [try: m  except <classes accepted by handles> as e: h e] *)
Definition try_except_if {A} (handles : exn -> bool) (m : M A)
    (h : exn -> M A) : M A :=
  fun st =>
    match m st with
    | (Ok a, st') => (Ok a, st')
    | (Raise e, st') => if handles e then h e st' else (Raise e, st')
    end.

(** [try: m  except Exception as e: h e] *)
Definition try_except {A} (m : M A) (h : exn -> M A) : M A :=
  try_except_if (fun _ => true) m h.

(* ================================================================== *)
(** ** The environment of one request                                  *)
(* ================================================================== *)

Inductive table : Type := FashionProfiles | AiRecommendations.

Record env : Type := Env {
  GROQ_KEY : string;                   (* os.environ.get("GROQ_API_KEY", "") *)
  UPLOAD_FOLDER : string;
  now : Z;                             (* CURRENT_TIMESTAMP *)
  sha256_hex : string -> string;       (* hashlib.sha256(..).hexdigest() *)
  secure_filename : string -> string;  (* werkzeug.utils.secure_filename *)
  path_join : string -> string -> string;   (* os.path.join *)
  b64encode : string -> string;        (* base64.b64encode(..).decode() *)
  http_post : http_request -> exn + http_response;  (* requests.post *)
  read_fault : string -> option exn;   (* open(path, "rb") failing *)
  save_fault : string -> option exn;   (* FileStorage.save(path) failing *)
  store_fault : table -> option exn;   (* connect/execute/commit failing *)
  numeric_text : string -> sql_value }.
    (* what SQLite stores for a text bound to a column of INTEGER affinity:
       a number when the text reads as one, the text itself otherwise *)

(** The value of a text made of decimal digits. *)
Fixpoint digits_value (acc : Z) (s : string) : option Z :=
  match s with
  | EmptyString => Some acc
  | String c s' =>
      let n := nat_of_ascii c in
      if (48 <=? n) && (n <=? 57)
      then digits_value (acc * 10 + Z.of_nat (n - 48))%Z s'
      else None
  end.

(** A text written to the column [age INTEGER].  The empty text stays a
    text; a text of decimal digits whose value fits a signed 64-bit integer
    is stored as that integer (['028'] as [28]); every other text (blanks,
    signs, points, exponents, larger values, text that reads as no number)
    is converted as SQLite does, which the world tells. *)
Definition integer_affinity (E : env) (s : string) : sql_value :=
  match s with
  | EmptyString => SqlText s
  | String _ _ =>
      match digits_value 0%Z s with
      | Some z => if (z <? 2 ^ 63)%Z then SqlInteger z else numeric_text E s
      | None => numeric_text E s
      end
  end.

Definition GROQ_URL : string := "https://api.groq.com/openai/v1/chat/completions".
Definition GROQ_TEXT : string := "llama-3.3-70b-versatile".
Definition GROQ_VISION : string := "meta-llama/llama-4-scout-17b-16e-instruct".

Definition NO_KEY_MESSAGE : string :=
  "⚠️ GROQ_API_KEY not set. Add it to your .env file and restart.".

Definition TIMEOUT_MESSAGE : string := "Request timed out. Please try again.".

(* ------------------------------------------------------------------ *)
(** *** Effects: files and the HTTP client                             *)
(* ------------------------------------------------------------------ *)

Fixpoint assoc {V} (k : string) (l : list (string * V)) : option V :=
  match l with
  | nil => None
  | (k', v) :: l' => if String.eqb k k' then Some v else assoc k l'
  end.

(** [d.get(k, default)] *)
Definition dict_get (d : list (string * string)) (k default : string) : string :=
  match assoc k d with Some v => v | None => default end.

Definition set_http_log (st : state) (l : list http_request) : state :=
  State (users st) (users_seq st) (fashion_profiles st)
        (fashion_profiles_seq st) (ai_recommendations st)
        (ai_recommendations_seq st) (files st) l.

Definition set_files (st : state) (f : list (string * string)) : state :=
  State (users st) (users_seq st) (fashion_profiles st)
        (fashion_profiles_seq st) (ai_recommendations st)
        (ai_recommendations_seq st) f (http_log st).

(** [requests.post(...)]: the call is made (and logged), then it either
    raises or hands back a response object. *)
Definition requests_post (E : env) (rq : http_request) : M http_response :=
  fun st =>
    let st' := set_http_log st (http_log st ++ [rq])%list in
    match http_post E rq with
    | inl e => (Raise e, st')
    | inr r => (Ok r, st')
    end.

Definition do_raise_for_status (r : http_response) : M unit :=
  match raise_for_status r with
  | Some e => raise e
  | None => ret tt
  end.

Definition get_content (r : http_response) : M string :=
  match json_content r with
  | inl e => raise e
  | inr c => ret c
  end.

(** [with open(path, "rb") as f: f.read()] *)
Definition read_file (E : env) (path : string) : M string :=
  fun st =>
    match read_fault E path with
    | Some e => (Raise e, st)
    | None =>
        match assoc path (files st) with
        | Some bytes => (Ok bytes, st)
        | None => (Raise (Exn OtherError "No such file or directory"), st)
        end
    end.

(** [photo.save(path)] *)
Definition save_file (E : env) (path bytes : string) : M unit :=
  fun st =>
    match save_fault E path with
    | Some e => (Raise e, st)
    | None => (Ok tt, set_files st ((path, bytes) :: files st))
    end.

(* ------------------------------------------------------------------ *)
(** *** Completion client: [call_text] and [call_vision]               *)
(* ------------------------------------------------------------------ *)

Definition text_request (E : env) (prompt : string) : http_request :=
  HttpRequest GROQ_URL (GROQ_KEY E) GROQ_TEXT (TextContent prompt)
              7%Z None 45%Z.

(** The body of the [try] of [call_text]. *)
Definition text_attempt (E : env) (prompt : string) : M string :=
  r <- requests_post E (text_request E prompt) ;;
  do_raise_for_status r ;;;
  c <- get_content r ;;
  ret (strip_md c).

Definition call_text (E : env) (prompt : string) : M string :=
  if negb (Py.truthy (GROQ_KEY E)) then ret NO_KEY_MESSAGE
  else
    try_except (text_attempt E prompt)
      (fun e => if is_timeout e then ret TIMEOUT_MESSAGE
                else ret ("API Error: " ++ exn_str e)).

Definition mime_of (ext : string) : string :=
  match assoc ext [("jpg", "image/jpeg"); ("jpeg", "image/jpeg");
                   ("png", "image/png"); ("webp", "image/webp");
                   ("gif", "image/gif")] with
  | Some m => m
  | None => "image/jpeg"
  end.

Definition vision_request (E : env) (prompt mime b64 : string) : http_request :=
  HttpRequest GROQ_URL (GROQ_KEY E) GROQ_VISION
              (ImageAndText ("data:" ++ mime ++ ";base64," ++ b64) prompt)
              7%Z (Some 1200%Z) 90%Z.

(** The body of the [try] of [call_vision]. *)
Definition vision_attempt (E : env) (prompt img_path : string) : M string :=
  let ext := Py.lower (last (Py.rsplit1 "." img_path) EmptyString) in
  let mime := mime_of ext in
  bytes <- read_file E img_path ;;
  let b64 := b64encode E bytes in
  r <- requests_post E (vision_request E prompt mime b64) ;;
  do_raise_for_status r ;;;
  c <- get_content r ;;
  ret (strip_md c).

Definition call_vision (E : env) (prompt img_path : string) : M string :=
  if negb (Py.truthy (GROQ_KEY E)) then ret NO_KEY_MESSAGE
  else
    try_except (vision_attempt E prompt img_path)
      (fun _ => call_text E prompt).

(* ================================================================== *)
(** ** The store: the SQL statements of app.py and database.py         *)
(* ================================================================== *)

Definition set_users (st : state) (us : list user_row) (seq : Z) : state :=
  State us seq (fashion_profiles st) (fashion_profiles_seq st)
        (ai_recommendations st) (ai_recommendations_seq st)
        (files st) (http_log st).

Definition set_fashion_profiles (st : state) (ps : list profile_row) (seq : Z)
  : state :=
  State (users st) (users_seq st) ps seq
        (ai_recommendations st) (ai_recommendations_seq st)
        (files st) (http_log st).

Definition set_ai_recommendations (st : state) (rs : list rec_row) (seq : Z)
  : state :=
  State (users st) (users_seq st) (fashion_profiles st)
        (fashion_profiles_seq st) rs seq (files st) (http_log st).

(** [s or None] *)
Definition or_none (s : string) : option string :=
  if Py.truthy s then Some s else None.

(** Two column values collide under a UNIQUE constraint: both are present
    and equal.  NULL collides with nothing. *)
Definition collide (a b : option string) : bool :=
  match a, b with
  | Some x, Some y => String.eqb x y
  | _, _ => false
  end.

(** [INSERT INTO users (name,phone,email,password) VALUES (?,?,?,?)] with
    [phone TEXT UNIQUE, email TEXT UNIQUE]; returns [cur.lastrowid].  This is
    the statement on a store that answers; the calls around it that may
    fail are in [Raw.write_user]. *)
Definition insert_user (E : env) (name : string) (phone email : option string)
    (password : string) : M Z :=
  fun st =>
    if existsb (fun u => collide phone (user_phone u)) (users st) then
      (Raise (Exn IntegrityError "UNIQUE constraint failed: users.phone"), st)
    else if existsb (fun u => collide email (user_email u)) (users st) then
      (Raise (Exn IntegrityError "UNIQUE constraint failed: users.email"), st)
    else
      let id := (users_seq st + 1)%Z in
      (Ok id,
       set_users st
         (users st ++ [UserRow id name phone email password (now E)])%list id).

(** [INSERT INTO fashion_profiles (user_id,gender,age,size,culture_style,
    dress_style,photo_path) VALUES (?,?,?,?,?,?,?)]; returns [cur.lastrowid]. *)
Definition insert_profile (E : env) (uid : option Z)
    (gender age size culture_style dress_style photo_path : string) : M Z :=
  fun st =>
    match store_fault E FashionProfiles with
    | Some e => (Raise e, st)
    | None =>
        let id := (fashion_profiles_seq st + 1)%Z in
        (Ok id,
         set_fashion_profiles st
           (fashion_profiles st ++
              [ProfileRow id uid gender (integer_affinity E age) size
                          culture_style dress_style
                          photo_path (now E)])%list id)
    end.

(** [INSERT INTO ai_recommendations (user_id,profile_id,request_type,
    input_data,ai_response) VALUES (?,?,?,?,?)] *)
Definition insert_rec (E : env) (uid pid : option Z) (rtype : string)
    (idata : list (string * pyval)) (resp : string) : M unit :=
  fun st =>
    match store_fault E AiRecommendations with
    | Some e => (Raise e, st)
    | None =>
        let id := (ai_recommendations_seq st + 1)%Z in
        (Ok tt,
         set_ai_recommendations st
           (ai_recommendations st ++
              [RecRow id uid pid rtype idata resp (now E)])%list id)
    end.

(** [WHERE user_id=?]: a NULL on either side matches nothing. *)
Definition owned_by (uid : option Z) (r : rec_row) : bool :=
  match uid, rec_user_id r with
  | Some u, Some v => Z.eqb v u
  | _, _ => false
  end.

(** [ORDER BY created_at DESC]: insertion of one row into a list already in
    descending order; among equal times the earlier row stays first. *)
Fixpoint insert_desc (r : rec_row) (l : list rec_row) : list rec_row :=
  match l with
  | nil => [r]
  | x :: l' =>
      if (rec_created_at x <=? rec_created_at r)%Z then r :: l
      else x :: insert_desc r l'
  end.

Fixpoint order_by_created_at_desc (l : list rec_row) : list rec_row :=
  match l with
  | nil => nil
  | r :: l' => insert_desc r (order_by_created_at_desc l')
  end.

(** [LIMIT n]; a negative [n] is no limit in SQLite. *)
Definition limit_rows {A} (n : Z) (l : list A) : list A :=
  if (n <? 0)%Z then l else firstn (Z.to_nat n) l.

(** [SELECT ... FROM ai_recommendations WHERE user_id=?
     ORDER BY created_at DESC LIMIT ?] *)
Definition select_recommendations (uid : option Z) (limit : Z) (st : state)
  : list rec_row :=
  limit_rows limit
    (order_by_created_at_desc (filter (owned_by uid) (ai_recommendations st))).

(** [(phone=? OR email=?) AND password=?] with the same value for both
    placeholders of the identifier. *)
Definition credentials_match (ident hash : string) (u : user_row) : bool :=
  (collide (Some ident) (user_phone u) || collide (Some ident) (user_email u))
  && String.eqb (user_password u) hash.

(** [SELECT * FROM users WHERE (phone=? OR email=?) AND password=?] followed
    by [fetchone()]: the first matching row in table order. *)
Definition select_user_by_login (ident hash : string) (st : state)
  : option user_row :=
  find (credentials_match ident hash) (users st).

(** [SELECT ... FROM users WHERE id=?] followed by [fetchone()]. *)
Definition select_user_by_id (uid : option Z) (st : state) : option user_row :=
  match uid with
  | Some i => find (fun u => Z.eqb (user_id u) i) (users st)
  | None => None
  end.




(** [save_rec] of app.py; [save_recommendation] of database.py has the same
    body.  A failure is printed and swallowed. *)
Definition save_rec (E : env) (uid pid : option Z) (rtype : string)
    (idata : list (string * pyval)) (resp : string) : M unit :=
  try_except (insert_rec E uid pid rtype idata resp) (fun _ => ret tt).

Module Database.

(** [hash_password] *)
Definition hash_password (E : env) (pw : string) : string := sha256_hex E pw.

(** What [create_user] returns: [(True, uid)] or [(False, message)]. *)
Inductive created : Type :=
| Created (uid : Z)
| NotCreated (message : string).

(** [create_user] with a store that answers; [Raw.create_user] has the
    store that may fail. *)
Definition create_user (E : env) (name phone email password : string)
  : M created :=
  try_except_if is_integrity
    (uid <- insert_user E name (or_none phone) (or_none email)
                        (hash_password E password) ;;
     ret (Created uid))
    (fun _ => ret (NotCreated "Phone or email already registered.")).

Definition save_fashion_profile (E : env) (user_id : option Z)
    (gender age size culture_style dress_style photo_path : string) : M Z :=
  insert_profile E user_id gender age size culture_style dress_style photo_path.

Definition save_recommendation := save_rec.

Definition get_recommendations_by_user (user_id : option Z) (limit : Z)
  : M (list rec_row) :=
  fun st => (Ok (select_recommendations user_id limit st), st).

Definition get_user_by_login (E : env) (identifier password : string)
  : M (option user_row) :=
  fun st =>
    (Ok (select_user_by_login identifier (hash_password E password) st), st).

Definition get_user_by_id (user_id : option Z) : M (option user_row) :=
  fun st => (Ok (select_user_by_id user_id st), st).



(** The dict returned by [get_platform_stats]: users, recommendations,
    profiles. *)
Definition get_platform_stats : M (nat * nat * nat) :=
  fun st =>
    (Ok (length (users st), length (ai_recommendations st),
         length (fashion_profiles st)), st).

End Database.

(* ================================================================== *)
(** ** Requests, responses and the prompt templates                    *)
(* ================================================================== *)

Record upload : Type := Upload { filename : string; data : string }.

Record request : Type := Request {
  session_user_id : option Z;          (* session.get("user_id") *)
  form : exn + list (string * string); (* parsing the body may raise *)
  photo : option upload;               (* request.files.get("photo") *)
  json : list (string * string) }.     (* get_json(force, silent) or {} *)

(** One element of ["history"]: the columns selected by [api_history]. *)
Record history_item : Type := HistoryItem {
  h_id : Z;
  h_request_type : string;
  h_input_data : list (string * pyval);
  h_ai_response : string;
  h_created_at : Z }.

Definition item_of_row (r : rec_row) : history_item :=
  HistoryItem (rec_id r) (rec_request_type r) (rec_input_data r)
              (rec_ai_response r) (rec_created_at r).

(** The JSON bodies the modelled handlers produce. *)
Inductive body : Type :=
| JResult (result : string) (photo_analyzed : option bool)
| JFailure (message : string)          (* success: false *)
| JSignedUp (name : string)            (* success: true *)
| JHistory (history : list history_item).

Record response : Type := Response { status : Z; payload : body }.

(** [if not uid]: [None] and [0] are false. *)
Definition uid_truthy (uid : option Z) : bool :=
  match uid with
  | Some u => negb (Z.eqb u 0)
  | None => false
  end.

(** [request.form.get(k, default)] *)
Definition form_get (rq : request) (k default : string) : M string :=
  match form rq with
  | inl e => raise e
  | inr f => ret (dict_get f k default)
  end.

(** [request.files.get("photo")] *)
Definition files_get_photo (rq : request) : M (option upload) :=
  match form rq with
  | inl e => raise e
  | inr _ => ret (photo rq)
  end.

Definition nl : string := String newline EmptyString.

Fixpoint lines (l : list string) : string :=
  match l with
  | nil => EmptyString
  | [x] => x
  | x :: l' => x ++ nl ++ lines l'
  end.

Definition outfit_prompt (gender age size culture_style dress_style : string)
    (has_photo : bool) : string :=
  lines [
    "You are an expert fashion stylist with deep knowledge of global trends.";
    (if has_photo then "Carefully study the uploaded photo — note skin tone, body type, hair, and current style." else "");
    "";
    "Customer Profile:";
    "- Gender: " ++ gender;
    "- Age: " ++ age;
    "- Size: " ++ size;
    "- Cultural Style: " ++ culture_style;
    "- Desired Style: " ++ dress_style;
    "";
    "Provide a complete personalised styling report:";
    "";
    "1. OUTFIT RECOMMENDATIONS (5 outfits):";
    "   Name, description of top/bottom/shoes, and why it suits this person.";
    "";
    "2. COLOUR PALETTE (3 combinations):";
    "   Primary, secondary, accent — and why they work for this profile.";
    "";
    "3. ACCESSORIES (2 suggestions):";
    "   Specific items with brands if possible.";
    "";
    "4. STYLING TIP:";
    "   One powerful personalised tip" ++ (if has_photo then "based on the photo" else "") ++ ".";
    "";
    "Be warm, specific, and encouraging." ].

Definition pitch_prompt (product customer : string) : string :=
  lines [
    "You are a luxury fashion copywriter.";
    "Outfit/Collection: " ++ product;
    "Target Customer: " ++ Py.str_or customer "Fashion-forward individuals";
    "";
    "Write a compelling fashion pitch:";
    "1. ELEVATOR PITCH: 2-3 vivid sentences.";
    "2. VALUE PROPOSITION: Why this is perfect for this customer.";
    "3. KEY DIFFERENTIATORS: 3 standout features.";
    "4. CALL TO ACTION: A warm, motivating closing line." ].

Definition lead_prompt (name budget need urgency : string) : string :=
  lines [
    "You are an AI fashion consultant.";
    "Customer: " ++ name ++ " | Budget: " ++ budget ++ " | Occasion: " ++ need ++ " | Timeline: " ++ urgency;
    "";
    "Give a STYLE FIT SCORE (0-100):";
    "1. Budget Fit (0-25 pts)";
    "2. Occasion Fit (0-25 pts)";
    "3. Urgency Score (0-25 pts)";
    "4. Personalisation (0-25 pts)";
    "";
    "Include:";
    "- TOTAL SCORE: X / 100";
    "- One-sentence reasoning per dimension";
    "- TIER: HOT (90-100) / WARM (75-89) / MODERATE (60-74) / COLD (below 60)";
    "- Match probability: X%";
    "- One personalised styling suggestion" ].

Definition campaign_prompt (product audience platform : string) : string :=
  lines [
    "You are a fashion marketing strategist.";
    "Product: " ++ product ++ " | Audience: " ++ Py.str_or audience "Fashion enthusiasts" ++ " | Platform: " ++ platform;
    "";
    "Create a full marketing campaign:";
    "1. CAMPAIGN OBJECTIVE";
    "2. 5 CONTENT IDEAS for " ++ platform;
    "3. 3 AD COPIES (Emotional / Trend-focused / Urgency-driven)";
    "4. 3 CALL-TO-ACTION options";
    "5. HASHTAGS: 6-8 targeted hashtags" ].

(* ================================================================== *)
(** ** The handlers of app.py                                          *)
(* ================================================================== *)

Definition ok (b : body) : response := Response 200%Z b.

(** The photo step of [get_recommendation]: the file is kept when
    [photo and photo.filename and ok_file(photo.filename)]; a [FileStorage]
    is true when its filename is non-empty.  Returns [photo_path] and
    [has_photo]. *)
Definition usable_photo (ph : option upload) : bool :=
  match ph with
  | Some p => Py.truthy (filename p) && Py.truthy (filename p)
              && ok_file (filename p)
  | None => false
  end.

Definition photo_step (E : env) (ph : option upload) : M (string * bool) :=
  match ph with
  | Some p =>
      if usable_photo ph then
        let fname := secure_filename E (filename p) in
        let photo_path := path_join E (UPLOAD_FOLDER E) fname in
        save_file E photo_path (data p) ;;;
        ret (photo_path, true)
      else ret (EmptyString, false)
  | None => ret (EmptyString, false)
  end.

(** The profile step: [profile_id = None; if uid: INSERT ...]. *)
Definition profile_step (E : env) (uid : option Z)
    (gender age size culture_style dress_style photo_path : string)
  : M (option Z) :=
  if uid_truthy uid then
    pid <- insert_profile E uid gender age size culture_style dress_style
                          photo_path ;;
    ret (Some pid)
  else ret None.

(** The body of the [try] of [get_recommendation]. *)
Definition get_recommendation_body (E : env) (rq : request) : M response :=
  let uid := session_user_id rq in
  gender <- form_get rq "gender" "Not specified" ;;
  age <- form_get rq "age" "25" ;;
  size <- form_get rq "size" "M" ;;
  culture_style <- form_get rq "culture_style" "Universal" ;;
  dress_style <- form_get rq "dress_style" "Casual" ;;
  ph <- files_get_photo rq ;;
  pp <- photo_step E ph ;;
  let photo_path := fst pp in
  let has_photo := snd pp in
  profile_id <- profile_step E uid gender age size culture_style dress_style
                             photo_path ;;
  let prompt := outfit_prompt gender age size culture_style dress_style
                              has_photo in
  result <- (if has_photo then call_vision E prompt photo_path
             else call_text E prompt) ;;
  save_rec E uid profile_id "outfit"
    [("gender", PStr gender); ("age", PStr age); ("size", PStr size);
     ("style", PStr dress_style); ("photo", PBool has_photo)] result ;;;
  ret (ok (JResult result (Some has_photo))).

Definition get_recommendation (E : env) (rq : request) : M response :=
  try_except (get_recommendation_body E rq)
    (fun e => ret (ok (JResult ("Error: " ++ exn_str e ++ ". Please try again.")
                               None))).

Definition PITCH_ASK : string :=
  "Please enter an outfit or collection description.".

Definition generate_pitch (E : env) (rq : request) : M response :=
  let uid := session_user_id rq in
  product <- form_get rq "product" "" ;;
  let product := Py.strip product in
  customer <- form_get rq "customer" "" ;;
  let customer := Py.strip customer in
  if negb (Py.truthy product) then ret (ok (JResult PITCH_ASK None))
  else
    let prompt := pitch_prompt product customer in
    result <- call_text E prompt ;;
    save_rec E uid None "pitch"
      [("product", PStr product); ("customer", PStr customer)] result ;;;
    ret (ok (JResult result None)).

Definition lead_score (E : env) (rq : request) : M response :=
  let uid := session_user_id rq in
  name <- form_get rq "name" "Customer" ;;
  budget <- form_get rq "budget" "Not specified" ;;
  need <- form_get rq "need" "Not specified" ;;
  urgency <- form_get rq "urgency" "Not specified" ;;
  let prompt := lead_prompt name budget need urgency in
  result <- call_text E prompt ;;
  save_rec E uid None "lead_score"
    [("name", PStr name); ("budget", PStr budget); ("need", PStr need)]
    result ;;;
  ret (ok (JResult result None)).

Definition CAMPAIGN_ASK : string :=
  "Please enter a product or collection name.".

Definition generate_campaign (E : env) (rq : request) : M response :=
  let uid := session_user_id rq in
  product <- form_get rq "product" "" ;;
  let product := Py.strip product in
  audience <- form_get rq "audience" "" ;;
  let audience := Py.strip audience in
  platform <- form_get rq "platform" "Instagram" ;;
  let platform := Py.strip platform in
  if negb (Py.truthy product) then ret (ok (JResult CAMPAIGN_ASK None))
  else
    let prompt := campaign_prompt product audience platform in
    result <- call_text E prompt ;;
    save_rec E uid None "campaign"
      [("product", PStr product); ("audience", PStr audience);
       ("platform", PStr platform)] result ;;;
    ret (ok (JResult result None)).

(** [api_history] *)
Definition api_history (rq : request) : M response :=
  let uid := session_user_id rq in
  if negb (uid_truthy uid) then
    ret (Response 401%Z (JFailure "Not logged in"))
  else
    fun st =>
      let rows := select_recommendations uid 20%Z st in
      (Ok (ok (JHistory (map item_of_row rows))), st).

(** [hashpw] *)
Definition hashpw (E : env) (pw : string) : string := sha256_hex E pw.

(** What [signup] leaves in the session: [user_id] and [user_name]. *)
Definition session_data : Type := (Z * string)%type.

(** [signup]: the response and, when the user was created, the session.
    This is the handler on a body whose fields are strings, with a store
    that answers; [Raw.signup] is the handler on any body, with a store
    that may fail. *)
Definition signup (E : env) (rq : request)
  : M (response * option session_data) :=
  let d := json rq in
  let name := Py.strip (dict_get d "name" "") in
  let phone := Py.strip (dict_get d "phone" "") in
  let email := Py.strip (dict_get d "email" "") in
  let pw := dict_get d "password" "" in
  if negb (Py.truthy (Py.str_or phone email)) then
    ret (Response 400%Z (JFailure "Phone or email required"), None)
  else if negb (Py.truthy pw) then
    ret (Response 400%Z (JFailure "Password required"), None)
  else
    try_except_if is_integrity
      (uid <- insert_user E name (or_none phone) (or_none email)
                          (hashpw E pw) ;;
       ret (ok (JSignedUp name), Some (uid, name)))
      (fun _ =>
         ret (Response 400%Z (JFailure "Phone/email already registered"),
              None)).

(** A series of signups, one after the other. *)
Fixpoint signups (E : env) (rqs : list request) (st : state)
  : list (result (response * option session_data)) * state :=
  match rqs with
  | nil => (nil, st)
  | rq :: rqs' =>
      let (r, st') := signup E rq st in
      let (rs, st'') := signups E rqs' st' in
      (r :: rs, st'')
  end.

(* ================================================================== *)
(** ** Notions of the specification and sample worlds                  *)
(* ================================================================== *)

(** The name ends in a dot followed by one of the allowed extensions, in any
    letter case: what the specification calls a recognized extension. *)
Definition recognized_extension (name : string) : Prop :=
  exists base ext,
    name = base ++ String "." ext /\ Py.contains "." ext = false /\
    In (Py.lower ext) ALLOWED.

(** Two adjacent stars somewhere in the text. *)
Fixpoint has_pair (s : string) : bool :=
  match s with
  | EmptyString => false
  | String _ s' => Py.startswith "**" s || has_pair s'
  end.

(** The pattern [delim (.+?) delim] matches somewhere in the text. *)
Fixpoint has_match (delim : string) (s : string) : bool :=
  match s with
  | EmptyString => false
  | String _ s' =>
      match match_here delim s with Some _ => true | None => false end
      || has_match delim s'
  end.

Definition sample_http (rq : http_request) : exn + http_response :=
  if String.eqb (rq_model rq) GROQ_VISION
  then inl (Exn Timeout "Read timed out. (read timeout=90)")
  else inr (HttpResponse None (inr "Try a **navy** blazer. ")).

(** A configured service whose vision model times out while its text model
    answers.  The sample requests give their ages in digits, so the last
    field, the conversion of any other text, is never consulted. *)
Definition sample_env : env :=
  Env "gsk_test" "/app/static/uploads" 1700000000%Z
      (fun pw => "sha256:" ++ pw) (fun name => name)
      (fun dir name => dir ++ "/" ++ name) (fun bytes => bytes)
      sample_http (fun _ => None) (fun _ => None) (fun _ => None)
      SqlText.

(** The same service without a credential. *)
Definition keyless_env : env :=
  Env "" "/app/static/uploads" 1700000000%Z
      (fun pw => "sha256:" ++ pw) (fun name => name)
      (fun dir name => dir ++ "/" ++ name) (fun bytes => bytes)
      sample_http (fun _ => None) (fun _ => None) (fun _ => None)
      SqlText.

(** A configured service on which every call times out. *)
Definition slow_env : env :=
  Env "gsk_test" "/app/static/uploads" 1700000000%Z
      (fun pw => "sha256:" ++ pw) (fun name => name)
      (fun dir name => dir ++ "/" ++ name) (fun bytes => bytes)
      (fun _ => inl (Exn Timeout "Read timed out. (read timeout=45)"))
      (fun _ => None) (fun _ => None) (fun _ => None) SqlText.

Definition empty_state : state := State nil 0%Z nil 0%Z nil 0%Z nil nil.

Definition state_with_photo : state :=
  State nil 0%Z nil 0%Z nil 0%Z [("/app/static/uploads/me.png", "PNGDATA")] nil.

Ltac unfold_monad :=
  unfold try_except, try_except_if, bind, ret, raise in *.

(** The handler answers every request with status 200: the "never 5xx"
    policy as the specification words it. *)
Definition always_answers_200 (h : env -> request -> M response) : Prop :=
  forall E rq st, exists b, fst (h E rq st) = Ok (Response 200%Z b).

(** The tables of fashion profiles of two states agree. *)
Definition same_profiles (st st' : state) : Prop :=
  fashion_profiles st' = fashion_profiles st /\
  fashion_profiles_seq st' = fashion_profiles_seq st.

(** The request with its photo part removed. *)
Definition without_photo (rq : request) : request :=
  Request (session_user_id rq) (form rq) None (json rq).

(** [photo_path] as the photo step leaves it. *)
Definition photo_path_of (E : env) (ph : option upload) : string :=
  match ph with
  | Some p =>
      if usable_photo ph
      then path_join E (UPLOAD_FOLDER E) (secure_filename E (filename p))
      else EmptyString
  | None => EmptyString
  end.

(** A body larger than [MAX_CONTENT_LENGTH]: reading the form raises. *)
Definition oversize_request : request :=
  Request None
    (inl (Exn OtherError "413 Request Entity Too Large: The data value transmitted exceeds the capacity limit."))
    None nil.

Definition outfit_form : list (string * string) :=
  [("gender", "Female"); ("age", "28"); ("size", "M");
   ("culture_style", "Western"); ("dress_style", "Formal")].

Definition anonymous_outfit_request : request :=
  Request None (inr outfit_form) None nil.

Definition member_outfit_request : request :=
  Request (Some 7%Z) (inr outfit_form) None nil.

Definition blank_product_request : request :=
  Request None (inr [("product", "   "); ("customer", "students")]) None nil.

Definition exe_upload_request : request :=
  Request None (inr outfit_form) (Some (Upload "virus.exe" "MZ")) nil.

(** Row [a] is at least as recent as row [b]. *)
Definition newer_first (a b : rec_row) : Prop :=
  (rec_created_at b <= rec_created_at a)%Z.

Definition rec_at (id : Z) (uid : option Z) (t : Z) : rec_row :=
  RecRow id uid None "pitch" nil "text" t.

(** Three recommendations of user 7 and one of user 8, not stored in order
    of time. *)
Definition state_with_history : state :=
  State nil 0%Z nil 0%Z
        [rec_at 1 (Some 7%Z) 100; rec_at 2 (Some 8%Z) 150;
         rec_at 3 (Some 7%Z) 300; rec_at 4 (Some 7%Z) 200] 4%Z nil nil.

Definition history_request : request := Request (Some 7%Z) (inr nil) None nil.

(** The fields of a signup request as [signup] reads them. *)
Definition signup_name (rq : request) : string :=
  Py.strip (dict_get (json rq) "name" "").
Definition signup_phone (rq : request) : string :=
  Py.strip (dict_get (json rq) "phone" "").
Definition signup_email (rq : request) : string :=
  Py.strip (dict_get (json rq) "email" "").
Definition signup_password (rq : request) : string :=
  dict_get (json rq) "password" "".

(** The request gives an email and a password and leaves the phone out,
    empty or blank; and the other way round. *)
Definition email_only (rq : request) : Prop :=
  signup_phone rq = EmptyString /\ signup_email rq <> EmptyString /\
  signup_password rq <> EmptyString.

Definition phone_only (rq : request) : Prop :=
  signup_email rq = EmptyString /\ signup_phone rq <> EmptyString /\
  signup_password rq <> EmptyString.

(** No user of the state holds the phone or the email of the request. *)
Definition unregistered (st : state) (rq : request) : Prop :=
  Forall (fun u =>
            collide (or_none (signup_phone rq)) (user_phone u) = false /\
            collide (or_none (signup_email rq)) (user_email u) = false)
         (users st).

(** No two requests of the series give the same phone or the same email. *)
Fixpoint distinct_contacts (rqs : list request) : Prop :=
  match rqs with
  | nil => True
  | rq :: rqs' =>
      Forall (fun rq' =>
                collide (or_none (signup_phone rq'))
                        (or_none (signup_phone rq)) = false /\
                collide (or_none (signup_email rq'))
                        (or_none (signup_email rq)) = false) rqs'
      /\ distinct_contacts rqs'
  end.

(** The row a successful signup adds, given the last id in use. *)
Definition row_of (E : env) (seq : Z) (rq : request) : user_row :=
  UserRow (seq + 1)%Z (signup_name rq) (or_none (signup_phone rq))
          (or_none (signup_email rq)) (hashpw E (signup_password rq)) (now E).

Fixpoint rows_of (E : env) (seq : Z) (rqs : list request) : list user_row :=
  match rqs with
  | nil => nil
  | rq :: rqs' => row_of E seq rq :: rows_of E (seq + 1)%Z rqs'
  end.

(** The answer of a successful signup. *)
Definition welcome (seq : Z) (rq : request)
  : result (response * option session_data) :=
  Ok (ok (JSignedUp (signup_name rq)), Some ((seq + 1)%Z, signup_name rq)).

Fixpoint welcomes (seq : Z) (rqs : list request)
  : list (result (response * option session_data)) :=
  match rqs with
  | nil => nil
  | rq :: rqs' => welcome seq rq :: welcomes (seq + 1)%Z rqs'
  end.

Definition signup_request (name phone email password : string) : request :=
  Request None (inr nil) None
          [("name", name); ("phone", phone); ("email", email);
           ("password", password)].

Definition email_signups : list request :=
  [signup_request "Asha" "" "asha@example.com" "pw1";
   signup_request "Bo" "   " "bo@example.com" "pw2";
   Request None (inr nil) None
           [("name", "Cy"); ("email", " cy@example.com "); ("password", "pw3")]].

(* ================================================================== *)
(** ** The remaining handlers of app.py                                *)
(* ================================================================== *)

(** [login]: the response and, when the credentials match, the session
    ([user_id], [user_name = user["name"] or ident]). *)
Definition login (E : env) (rq : request)
  : M (response * option session_data) :=
  let d := json rq in
  let ident := Py.strip (dict_get d "identifier" "") in
  let pw := dict_get d "password" "" in
  fun st =>
    match select_user_by_login ident (hashpw E pw) st with
    | Some user =>
        (Ok (ok (JSignedUp (user_name user)),
             Some (user_id user, Py.str_or (user_name user) ident)), st)
    | None =>
        (Ok (Response 401%Z (JFailure "Invalid credentials"), None), st)
    end.

(** The JSON body of [api_me]: [{"logged_in": false}] or
    [{"logged_in": true, "user": {id, name, phone, email, created_at}}]. *)
Inductive me_body : Type :=
| NotLoggedIn
| LoggedIn (id : Z) (name : string) (phone email : option string)
           (created_at : Z).

(** [api_me] (always status 200). *)
Definition api_me (rq : request) : M me_body :=
  let uid := session_user_id rq in
  if negb (uid_truthy uid) then ret NotLoggedIn
  else
    fun st =>
      match select_user_by_id uid st with
      | Some u =>
          (Ok (LoggedIn (user_id u) (user_name u) (user_phone u)
                        (user_email u) (user_created_at u)), st)
      | None => (Ok NotLoggedIn, st)
      end.

(* ================================================================== *)
(** ** Notions used by the further properties                          *)
(* ================================================================== *)

(** The environment with another outcome for the writes to the store. *)
Definition with_store_fault (E : env) (f : table -> option exn) : env :=
  Env (GROQ_KEY E) (UPLOAD_FOLDER E) (now E) (sha256_hex E)
      (secure_filename E) (path_join E) (b64encode E) (http_post E)
      (read_fault E) (save_fault E) f (numeric_text E).

(** The three tables and their counters agree; files and the log of calls
    may differ. *)
Definition same_store (st st' : state) : Prop :=
  users st' = users st /\ users_seq st' = users_seq st /\
  fashion_profiles st' = fashion_profiles st /\
  fashion_profiles_seq st' = fashion_profiles_seq st /\
  ai_recommendations st' = ai_recommendations st /\
  ai_recommendations_seq st' = ai_recommendations_seq st.

(** The state after one more recommendation row. *)
Definition with_rec (E : env) (uid pid : option Z) (rtype : string)
    (idata : list (string * pyval)) (resp : string) (st : state) : state :=
  set_ai_recommendations st
    (ai_recommendations st ++
       [RecRow (ai_recommendations_seq st + 1)%Z uid pid rtype idata resp
               (now E)])%list
    (ai_recommendations_seq st + 1)%Z.

(** The contacts present in a column. *)
Fixpoint present (l : list (option string)) : list string :=
  match l with
  | nil => nil
  | Some x :: l' => x :: present l'
  | None :: l' => present l'
  end.

(** A stored contact is NULL or a non-empty, trimmed text. *)
Definition normal_contact (c : option string) : Prop :=
  match c with
  | Some x => x <> EmptyString /\ Py.strip x = x
  | None => True
  end.

(** What [signup] maintains on the users table. *)
Record users_ok (st : state) : Prop := UsersOk {
  seq_nonneg : (0 <= users_seq st)%Z;
  ids_bounded : Forall (fun u => (0 < user_id u <= users_seq st)%Z) (users st);
  ids_distinct : NoDup (map user_id (users st));
  phones_distinct : NoDup (present (map user_phone (users st)));
  emails_distinct : NoDup (present (map user_email (users st)));
  contacts_normal :
    Forall (fun u => normal_contact (user_phone u) /\
                     normal_contact (user_email u) /\
                     (user_phone u <> None \/ user_email u <> None))
           (users st) }.

Definition REQUEST_TYPES : list string :=
  ["outfit"; "pitch"; "lead_score"; "campaign"].

(** The profile a recommendation row points to exists and belongs to the
    same user; only outfit rows point to a profile. *)
Definition linked (st : state) (r : rec_row) : Prop :=
  match rec_profile_id r with
  | Some pid =>
      rec_request_type r = "outfit" /\
      exists p, In p (fashion_profiles st) /\ prof_id p = pid /\
                prof_user_id p = rec_user_id r
  | None => True
  end.

(** What the generation handlers maintain on the other two tables. *)
Record history_ok (st : state) : Prop := HistoryOk {
  profiles_seq_nonneg : (0 <= fashion_profiles_seq st)%Z;
  profile_ids_bounded :
    Forall (fun p => (0 < prof_id p <= fashion_profiles_seq st)%Z)
           (fashion_profiles st);
  profile_ids_distinct : NoDup (map prof_id (fashion_profiles st));
  profiles_owned :
    Forall (fun p => uid_truthy (prof_user_id p) = true) (fashion_profiles st);
  recs_seq_nonneg : (0 <= ai_recommendations_seq st)%Z;
  rec_ids_bounded :
    Forall (fun r => (0 < rec_id r <= ai_recommendations_seq st)%Z)
           (ai_recommendations st);
  rec_ids_distinct : NoDup (map rec_id (ai_recommendations st));
  rec_types_known :
    Forall (fun r => In (rec_request_type r) REQUEST_TYPES)
           (ai_recommendations st);
  recs_linked : Forall (linked st) (ai_recommendations st) }.

(** One request served by a handler of app.py. *)
Inductive served (st : state) : state -> Prop :=
| served_signup E rq : served st (snd (signup E rq st))
| served_login E rq : served st (snd (login E rq st))
| served_api_me rq : served st (snd (api_me rq st))
| served_api_history rq : served st (snd (api_history rq st))
| served_get_recommendation E rq : served st (snd (get_recommendation E rq st))
| served_generate_pitch E rq : served st (snd (generate_pitch E rq st))
| served_lead_score E rq : served st (snd (lead_score E rq st))
| served_generate_campaign E rq : served st (snd (generate_campaign E rq st)).

(** The states the application reaches from the empty database. *)
Inductive reachable : state -> Prop :=
| reachable_init files log :
    reachable (State nil 0%Z nil 0%Z nil 0%Z files log)
| reachable_step st st' : reachable st -> served st st' -> reachable st'.

Definition login_request (identifier password : string) : request :=
  Request None (inr nil) None
          [("identifier", identifier); ("password", password)].

Definition pitch_request (uid : option Z) (product : string) : request :=
  Request uid (inr [("product", product)]) None nil.

Definition photo_request : request :=
  Request None (inr outfit_form) (Some (Upload "me.png" "PNGDATA")) nil.

(** A configured service whose two models answer. *)
Definition helpful_env : env :=
  Env "gsk_test" "/app/static/uploads" 1700000000%Z
      (fun pw => "sha256:" ++ pw) (fun name => name)
      (fun dir name => dir ++ "/" ++ name) (fun bytes => bytes)
      (fun _ => inr (HttpResponse None (inr "Wear *linen*.")))
      (fun _ => None) (fun _ => None) (fun _ => None) SqlText.

(** What the steps of a generation handler before the completion do to the
    tables: nothing, or (outfit requests of a signed-in caller) one more
    profile row whose id is [pid]. *)
Definition profile_effect (uid : option Z) (kind : string) (pid : option Z)
    (st s : state) : Prop :=
  users s = users st /\ users_seq s = users_seq st /\
  ai_recommendations s = ai_recommendations st /\
  ai_recommendations_seq s = ai_recommendations_seq st /\
  ((pid = None /\ fashion_profiles s = fashion_profiles st /\
    fashion_profiles_seq s = fashion_profiles_seq st) \/
   (pid = Some (fashion_profiles_seq st + 1)%Z /\ kind = "outfit" /\
    uid_truthy uid = true /\
    exists row,
      fashion_profiles s = (fashion_profiles st ++ [row])%list /\
      prof_id row = (fashion_profiles_seq st + 1)%Z /\
      prof_user_id row = uid /\
      fashion_profiles_seq s = (fashion_profiles_seq st + 1)%Z)).

(** What a generation handler of kind [kind] does to the tables for a caller
    [uid]: the effect above, then at most one more recommendation row. *)
Definition table_effect (E : env) (uid : option Z) (kind : string)
    (st st' : state) : Prop :=
  exists pid s,
    profile_effect uid kind pid st s /\
    (same_store s st' \/
     exists idata txt, same_store (with_rec E uid pid kind idata txt s) st').

(** An item of the history shows a row: it carries the five columns the
    query of [api_history] selects. *)
Definition shows (it : history_item) (r : rec_row) : Prop :=
  h_id it = rec_id r /\
  h_request_type it = rec_request_type r /\
  h_input_data it = rec_input_data r /\
  h_ai_response it = rec_ai_response r /\
  h_created_at it = rec_created_at r.

(** Item [a] is at least as recent as item [b]. *)
Definition newer_item_first (a b : history_item) : Prop :=
  (h_created_at b <= h_created_at a)%Z.

(** The extension [call_vision] reads off the path it is given. *)
Definition path_extension (img_path : string) : string :=
  Py.lower (last (Py.rsplit1 "." img_path) EmptyString).

(** The MIME type the table of [call_vision] gives an extension, spelled
    out: the five recognized extensions have their own, anything else has
    the default. *)
Definition mime_by_extension (ext : string) : string :=
  if Py.str_in ext ALLOWED
  then "image/" ++ (if String.eqb ext "jpg" then "jpeg" else ext)
  else "image/jpeg".

(* ================================================================== *)
(** ** The account writers on any body, with a store that may fail     *)
(* ================================================================== *)

(** [signup] and [Database.create_user] above are the two writers of the
    users table run on fields that are strings, with a store that answers.
    This module has them as they run on whatever the request carries and
    with sqlite3 calls that may fail: the only handler around the write is
    [except sqlite3.IntegrityError], so every other exception leaves the
    function. *)
Module Raw.

(** A Python [float]. *)
Inductive pyfloat : Type :=
| Finite (mantissa exponent : Z)     (* the double mantissa * 2^exponent *)
| Infinite (negative : bool)
| NaN.

(** What [json.loads] returns. *)
#[local] Unset Elimination Schemes.
Inductive jvalue : Type :=
| JNull
| JBool (b : bool)
| JInt (z : Z)
| JFloat (x : pyfloat)
| JStr (s : string)
| JArr (items : list jvalue)
| JObj (fields : list (string * jvalue)).  (* the items of the dict *)
#[local] Set Elimination Schemes.

(** [type(v).__name__] *)
Definition type_name (v : jvalue) : string :=
  match v with
  | JNull => "NoneType"
  | JBool _ => "bool"
  | JInt _ => "int"
  | JFloat _ => "float"
  | JStr _ => "str"
  | JArr _ => "list"
  | JObj _ => "dict"
  end.

(** The [AttributeError] of [v.attr] on a value that has no such method. *)
Definition attribute_error (v : jvalue) (attr : string) : exn :=
  Exn OtherError
      ("'" ++ type_name v ++ "' object has no attribute '" ++ attr ++ "'").

(** Truth value of a parsed value. *)
Definition jtruthy (v : jvalue) : bool :=
  match v with
  | JNull => false
  | JBool b => b
  | JInt z => negb (Z.eqb z 0)
  | JFloat (Finite m _) => negb (Z.eqb m 0)
  | JFloat _ => true
  | JStr s => Py.truthy s
  | JArr items => match items with nil => false | _ => true end
  | JObj fields => match fields with nil => false | _ => true end
  end.

(** [request.get_json(force=True, silent=True) or {}]: [None] stands for
    what [get_json] returns for a body that is no JSON. *)
Definition json_or_empty (parsed : option jvalue) : jvalue :=
  match parsed with
  | Some v => if jtruthy v then v else JObj nil
  | None => JObj nil
  end.

(** [d.get(k, "")] *)
Definition py_get (d : jvalue) (k : string) : exn + jvalue :=
  match d with
  | JObj fields =>
      inr (match assoc k fields with Some v => v | None => JStr EmptyString end)
  | _ => inl (attribute_error d "get")
  end.

(** [v.strip()] *)
Definition py_strip (v : jvalue) : exn + string :=
  match v with
  | JStr s => inr (Py.strip s)
  | _ => inl (attribute_error v "strip")
  end.

(** [d.get(k, "").strip()] *)
Definition get_strip (d : jvalue) (k : string) : exn + string :=
  match py_get d k with
  | inl e => inl e
  | inr v => py_strip v
  end.

(** [hashpw(pw)], that is [hashlib.sha256(pw.encode()).hexdigest()]. *)
Definition hash_value (E : env) (pw : jvalue) : exn + string :=
  match pw with
  | JStr s => inr (hashpw E s)
  | _ => inl (attribute_error pw "encode")
  end.

(** The sqlite3 calls of a write to the users table, each of which may
    fail: [get_db()], [conn.execute(..)], [conn.commit()]. *)
Record write_faults : Type := WriteFaults {
  on_connect : option exn;
  on_execute : option exn;
  on_commit : option exn }.

Definition no_fault : write_faults := WriteFaults None None None.

Definition of_sum {A} (r : exn + A) : M A :=
  match r with
  | inl e => raise e
  | inr a => ret a
  end.

Definition attempt (fault : option exn) : M unit :=
  match fault with
  | Some e => raise e
  | None => ret tt
  end.

Definition get_state : M state := fun st => (Ok st, st).

(** [conn.execute("INSERT INTO users ..")] *)
Definition execute_insert_user (E : env) (W : write_faults) (name : string)
    (phone email : option string) (password : string) : M Z :=
  attempt (on_execute W) ;;;
  insert_user E name phone email password.

(** [conn.commit()]: when it fails the insertion is not committed and the
    store is as it was when the connection was opened. *)
Definition commit (W : write_faults) (before : state) : M unit :=
  fun st =>
    match on_commit W with
    | Some e => (Raise e, before)
    | None => (Ok tt, st)
    end.

(** The four fields [signup] reads off the body, in its order. *)
Definition fields (body : exn + option jvalue)
  : exn + (string * string * string * jvalue) :=
  match body with
  | inl e => inl e
  | inr parsed =>
      let d := json_or_empty parsed in
      match get_strip d "name" with
      | inl e => inl e
      | inr name =>
          match get_strip d "phone" with
          | inl e => inl e
          | inr phone =>
              match get_strip d "email" with
              | inl e => inl e
              | inr email =>
                  match py_get d "password" with
                  | inl e => inl e
                  | inr pw => inr (name, phone, email, pw)
                  end
              end
          end
      end
  end.

(** The body of the [try] of both writers up to [conn.close()]: open the
    connection, evaluate the parameters (the hash of the password last),
    execute the insertion, read [cur.lastrowid], commit. *)
Definition write_user (E : env) (W : write_faults) (name : string)
    (phone email : option string) (password : exn + string) : M Z :=
  before <- get_state ;;
  attempt (on_connect W) ;;;
  hash <- of_sum password ;;
  uid <- execute_insert_user E W name phone email hash ;;
  commit W before ;;;
  ret uid.

(** [signup] of app.py; reading the body may raise, as reading a form. *)
Definition signup (E : env) (W : write_faults) (body : exn + option jvalue)
  : M (response * option session_data) :=
  parsed <- of_sum body ;;
  let d := json_or_empty parsed in
  name <- of_sum (get_strip d "name") ;;
  phone <- of_sum (get_strip d "phone") ;;
  email <- of_sum (get_strip d "email") ;;
  pw <- of_sum (py_get d "password") ;;
  if negb (Py.truthy (Py.str_or phone email)) then
    ret (Response 400%Z (JFailure "Phone or email required"), None)
  else if negb (jtruthy pw) then
    ret (Response 400%Z (JFailure "Password required"), None)
  else
    try_except_if is_integrity
      (uid <- write_user E W name (or_none phone) (or_none email)
                         (hash_value E pw) ;;
       ret (ok (JSignedUp name), Some (uid, name)))
      (fun _ =>
         ret (Response 400%Z (JFailure "Phone/email already registered"),
              None)).

(** [create_user] of database.py, on [str] arguments. *)
Definition create_user (E : env) (W : write_faults)
    (name phone email password : string) : M Database.created :=
  try_except_if is_integrity
    (uid <- write_user E W name (or_none phone) (or_none email)
                       (inr (Database.hash_password E password)) ;;
     ret (Database.Created uid))
    (fun _ => ret (Database.NotCreated "Phone or email already registered.")).

(** A body whose fields are all strings. *)
Definition strings (d : list (string * string)) : jvalue :=
  JObj (map (fun kv => (fst kv, JStr (snd kv))) d).

(** The user row a successful write adds. *)
Definition new_user (E : env) (st : state) (name phone email password : string)
  : user_row :=
  UserRow (users_seq st + 1)%Z name (or_none phone) (or_none email) password
          (now E).

Definition free_contacts (st : state) (phone email : string) : Prop :=
  Forall (fun u => collide (or_none phone) (user_phone u) = false /\
                   collide (or_none email) (user_email u) = false) (users st).

Definition taken_contact (st : state) (phone email : string) : Prop :=
  exists u, In u (users st) /\
            (collide (or_none phone) (user_phone u) = true \/
             collide (or_none email) (user_email u) = true).

(** Some sqlite3 call of the write fails with [e]. *)
Definition store_fails (W : write_faults) (e : exn) : Prop :=
  on_connect W = Some e \/ on_execute W = Some e \/ on_commit W = Some e.

(** A store that is locked when the insertion is executed. *)
Definition locked : write_faults :=
  WriteFaults None (Some (Exn OtherError "database is locked")) None.

End Raw.
(* ================================================================== *)
(** * Properties                                                       *)
(* ================================================================== *)

(** ** The text model against Python

    Values obtained from Python's [re], [str.strip] and [str.lower] on the
    same inputs. *)

Example strip_md_nested : strip_md "****a** *b c*  " = "*a b c*".
Proof. reflexivity. Qed.

Example strip_md_stars :
  strip_md "***" = "*" /\ strip_md "****" = "**" /\ strip_md "*****" = "*"
  /\ strip_md "** **" = "" /\ strip_md "a*b*c*d*" = "abcd"
  /\ strip_md "***a***" = "a" /\ strip_md "**a*b**" = "a*b"
  /\ strip_md "* *" = "".
Proof. repeat split; reflexivity. Qed.

Example strip_md_newline :
  strip_md ("*a" ++ nl ++ "b*") = "*a" ++ nl ++ "b*" /\
  strip_md ("**a" ++ nl ++ "**b**") = "**a" ++ nl ++ "b" /\
  strip_md ("*" ++ nl ++ "*x*") = "*" ++ nl ++ "x".
Proof. repeat split; reflexivity. Qed.

Example strip_latin1_spaces :
  Py.strip (String (ascii_of_nat 32) (String (ascii_of_nat 28)
             (" x " ++ String (ascii_of_nat 133)
                        (String (ascii_of_nat 160) EmptyString)))) = "x".
Proof. reflexivity. Qed.

Example lower_mixed : Py.lower "IMG.JPEG" = "img.jpeg".
Proof. reflexivity. Qed.

Example rsplit1_examples :
  Py.rsplit1 "." "a.tar.gz" = ["a.tar"; "gz"] /\
  Py.rsplit1 "." "noext" = ["noext"] /\
  Py.rsplit1 "." ".png" = [""; "png"] /\
  Py.rsplit1 "." "x." = ["x"; ""].
Proof. repeat split; reflexivity. Qed.

Example mime_examples :
  mime_of "png" = "image/png" /\ mime_of "bmp" = "image/jpeg".
Proof. split; reflexivity. Qed.

(** ** Text primitives *)

Lemma length_drop_le (n : nat) (s : string) :
  String.length (drop n s) <= String.length s.
Proof.
  revert s; induction n as [|n IH]; intros s; simpl; [lia|].
  destruct s as [|c s]; simpl; [lia|]. specialize (IH s). lia.
Qed.

Lemma lazy_group_shorter (close s g rest : string) :
  lazy_group close s = Some (g, rest) ->
  String.length rest < String.length s.
Proof.
  revert g rest; induction s as [|c s IH]; intros g rest; simpl; [discriminate|].
  destruct (Ascii.eqb c newline); [discriminate|].
  destruct (Py.startswith close s).
  - intros H; injection H as _ <-.
    pose proof (length_drop_le (String.length close) s). lia.
  - destruct (lazy_group close s) as [[g' rest']|]; [|discriminate].
    intros H; injection H as _ <-. specialize (IH _ _ eq_refl). lia.
Qed.

Lemma match_here_shorter (delim s g rest : string) :
  match_here delim s = Some (g, rest) ->
  String.length rest < String.length s.
Proof.
  unfold match_here. destruct (Py.startswith delim s); [|discriminate].
  intros H. apply lazy_group_shorter in H.
  pose proof (length_drop_le (String.length delim) s). lia.
Qed.

(** [String.length s] steps are enough: more fuel changes nothing. *)
Lemma re_sub_fuel_enough (delim : string) (n m : nat) (s : string) :
  String.length s <= n -> String.length s <= m ->
  re_sub_fuel n delim s = re_sub_fuel m delim s.
Proof.
  revert m s; induction n as [|n IH]; intros m s Hn Hm.
  - destruct s; simpl in Hn; [|lia]. destruct m; reflexivity.
  - destruct m as [|m].
    + destruct s; simpl in Hm; [reflexivity|lia].
    + simpl. destruct s as [|c s]; [reflexivity|].
      simpl in Hn, Hm.
      destruct (match_here delim (String c s)) as [[g rest]|] eqn:Hm'.
      * apply match_here_shorter in Hm'. simpl in Hm'.
        f_equal. apply IH; lia.
      * f_equal. apply IH; lia.
Qed.

Lemma re_sub_unfold (delim : string) (c : ascii) (s : string) :
  re_sub delim (String c s) =
  match match_here delim (String c s) with
  | Some (g, rest) => g ++ re_sub delim rest
  | None => String c (re_sub delim s)
  end.
Proof.
  unfold re_sub at 1. simpl String.length. cbn [re_sub_fuel].
  destruct (match_here delim (String c s)) as [[g rest]|] eqn:H.
  - f_equal. apply re_sub_fuel_enough; [|lia].
    apply match_here_shorter in H. simpl in H. lia.
  - reflexivity.
Qed.

Lemma prefix_head_absent (c : ascii) (d s : string) :
  Py.contains c s = false -> Py.startswith (String c d) s = false.
Proof.
  destruct s as [|x s]; simpl; [reflexivity|].
  intros H. apply orb_false_iff in H as [H _]. now rewrite H.
Qed.

(** Without the first character of the delimiter there is nothing to
    substitute. *)
Lemma re_sub_absent (c : ascii) (d s : string) :
  Py.contains c s = false -> re_sub (String c d) s = s.
Proof.
  induction s as [|x s IH]; intros H; [reflexivity|].
  rewrite re_sub_unfold. unfold match_here.
  rewrite (prefix_head_absent c d _ H).
  simpl in H. apply orb_false_iff in H as [_ H]. now rewrite IH.
Qed.

Lemma rpartition_sound (c : ascii) (s a b : string) :
  Py.rpartition c s = Some (a, b) ->
  s = a ++ String c b /\ Py.contains c b = false.
Proof.
  revert a b; induction s as [|x s IH]; intros a b; simpl; [discriminate|].
  destruct (Py.rpartition c s) as [[a' b']|] eqn:Hr.
  - intros H; injection H as <- <-. destruct (IH _ _ eq_refl) as [-> Hb].
    split; [reflexivity|exact Hb].
  - destruct (Ascii.eqb c x) eqn:Hc; [|discriminate].
    intros H; injection H as <- <-. apply Ascii.eqb_eq in Hc as ->.
    split; [reflexivity|].
    clear IH. induction s as [|y s IHs]; [reflexivity|].
    simpl in Hr |- *. destruct (Py.rpartition x s) as [[? ?]|]; [discriminate|].
    destruct (Ascii.eqb x y); [discriminate|]. simpl. now apply IHs.
Qed.

Lemma rpartition_none (c : ascii) (s : string) :
  Py.rpartition c s = None <-> Py.contains c s = false.
Proof.
  induction s as [|x s IH]; simpl; [tauto|].
  destruct (Py.rpartition c s) as [[a b]|].
  - split; [discriminate|]. intros H. apply orb_false_iff in H as [_ H].
    apply IH in H. discriminate.
  - destruct (Ascii.eqb c x); simpl; [split; discriminate|].
    split; intros _; [now apply IH|reflexivity].
Qed.

Lemma rpartition_complete (c : ascii) (a b : string) :
  Py.contains c b = false ->
  Py.rpartition c (a ++ String c b) = Some (a, b).
Proof.
  intros Hb. induction a as [|x a IH]; simpl.
  - apply rpartition_none in Hb. rewrite Hb, Ascii.eqb_refl. reflexivity.
  - now rewrite IH.
Qed.

Lemma contains_app (c : ascii) (a b : string) :
  Py.contains c (a ++ b) = Py.contains c a || Py.contains c b.
Proof.
  induction a as [|x a IH]; simpl; [reflexivity|].
  now rewrite IH, orb_assoc.
Qed.

Lemma str_in_In (x : string) (l : list string) :
  Py.str_in x l = true <-> In x l.
Proof.
  unfold Py.str_in. rewrite existsb_exists. split.
  - intros [y [Hy He]]. apply String.eqb_eq in He. now subst.
  - intros H. exists x. split; [exact H|apply String.eqb_refl].
Qed.

Lemma ok_file_checked_total (name : string) :
  ok_file_checked name = Some (ok_file name).
Proof.
  unfold ok_file, ok_file_checked, Py.rsplit1.
  destruct (Py.contains "." name) eqn:Hc; [|reflexivity].
  destruct (Py.rpartition "." name) as [[a b]|] eqn:Hr; [reflexivity|].
  apply rpartition_none in Hr. congruence.
Qed.

Lemma ok_file_iff (name : string) :
  ok_file name = true <-> recognized_extension name.
Proof.
  unfold ok_file, ok_file_checked, Py.rsplit1, recognized_extension. split.
  - destruct (Py.contains "." name) eqn:Hc; [|discriminate].
    destruct (Py.rpartition "." name) as [[a b]|] eqn:Hr.
    + cbn [nth_error]. intros H. apply rpartition_sound in Hr as [-> Hb].
      exists a, b. split; [reflexivity|]. split; [exact Hb|now apply str_in_In].
    + cbn [nth_error]. discriminate.
  - intros [base [ext [-> [Hd Hin]]]].
    rewrite contains_app. cbn [Py.contains]. rewrite Ascii.eqb_refl.
    cbn [orb]. rewrite orb_true_r.
    rewrite (rpartition_complete _ base _ Hd). cbn [nth_error].
    now apply str_in_In.
Qed.

(** ** The completion client *)

Lemma text_attempt_post_raises (E : env) (prompt : string) (st : state) (e : exn) :
  http_post E (text_request E prompt) = inl e ->
  fst (text_attempt E prompt st) = Raise e.
Proof.
  intros H. unfold text_attempt, requests_post. unfold_monad.
  now rewrite H.
Qed.

(** [call_text] never raises. *)
Lemma call_text_returns (E : env) (prompt : string) (st : state) :
  exists txt, fst (call_text E prompt st) = Ok txt.
Proof.
  unfold call_text. destruct (negb (Py.truthy (GROQ_KEY E))).
  - now exists NO_KEY_MESSAGE.
  - unfold_monad. destruct (text_attempt E prompt st) as [[txt|e] st1].
    + now exists txt.
    + destruct (is_timeout e); eexists; reflexivity.
Qed.

(** What [call_text] returns depends on the environment only; the state it
    starts from just carries the log of calls. *)
Lemma call_text_value (E : env) (prompt : string) (st st' : state) :
  fst (call_text E prompt st) = fst (call_text E prompt st').
Proof.
  unfold call_text. destruct (negb (Py.truthy (GROQ_KEY E))); [reflexivity|].
  unfold text_attempt, requests_post, do_raise_for_status, get_content.
  unfold_monad.
  destruct (http_post E (text_request E prompt)) as [e|r].
  - destruct (is_timeout e); reflexivity.
  - destruct (raise_for_status r) as [e|].
    + destruct (is_timeout e); reflexivity.
    + destruct (json_content r) as [e|c]; [|reflexivity].
      destruct (is_timeout e); reflexivity.
Qed.

(** The [except Exception] clause of [call_vision]: whatever the attempt
    raised, the answer is that of [call_text] on the same prompt. *)
Lemma call_vision_fallback (E : env) (prompt img : string) (st st1 : state)
    (e : exn) :
  Py.truthy (GROQ_KEY E) = true ->
  vision_attempt E prompt img st = (Raise e, st1) ->
  call_vision E prompt img st = call_text E prompt st1.
Proof.
  intros Hk Hv. unfold call_vision. rewrite Hk. cbn [negb].
  unfold_monad. now rewrite Hv.
Qed.

Lemma call_vision_returns (E : env) (prompt img : string) (st : state) :
  exists txt, fst (call_vision E prompt img st) = Ok txt.
Proof.
  unfold call_vision. destruct (negb (Py.truthy (GROQ_KEY E))).
  - now exists NO_KEY_MESSAGE.
  - unfold_monad. destruct (vision_attempt E prompt img st) as [[txt|e] st1].
    + now exists txt.
    + apply call_text_returns.
Qed.

Lemma call_text_run (E : env) (prompt : string) (st : state) :
  exists txt st', call_text E prompt st = (Ok txt, st').
Proof.
  destruct (call_text_returns E prompt st) as [txt H].
  destruct (call_text E prompt st) as [r st'] eqn:Hc. simpl in H. subst r.
  now exists txt, st'.
Qed.

Lemma call_vision_run (E : env) (prompt img : string) (st : state) :
  exists txt st', call_vision E prompt img st = (Ok txt, st').
Proof.
  destruct (call_vision_returns E prompt img st) as [txt H].
  destruct (call_vision E prompt img st) as [r st'] eqn:Hc. simpl in H. subst r.
  now exists txt, st'.
Qed.

(** [save_rec] never raises. *)
Lemma save_rec_run (E : env) (uid pid : option Z) (rtype : string)
    (idata : list (string * pyval)) (resp : string) (st : state) :
  exists st', save_rec E uid pid rtype idata resp st = (Ok tt, st').
Proof.
  unfold save_rec, insert_rec. unfold_monad.
  destruct (store_fault E AiRecommendations); eexists; reflexivity.
Qed.

(** C9: without an API credential both entry points return the same fixed
    advisory string; they return normally (no exception) and leave the state
    as it was, so no call to the service is made or logged. *)
Theorem no_credential_advisory (E : env) (prompt img_path : string) (st : state) :
  GROQ_KEY E = EmptyString ->
  call_text E prompt st = (Ok NO_KEY_MESSAGE, st) /\
  call_vision E prompt img_path st = (Ok NO_KEY_MESSAGE, st) /\
  http_log (snd (call_text E prompt st)) = http_log st /\
  http_log (snd (call_vision E prompt img_path st)) = http_log st.
Proof.
  intros Hk. unfold call_text, call_vision. rewrite Hk. cbn.
  repeat split; reflexivity.
Qed.

Lemma no_credential_advisory_witness :
  GROQ_KEY keyless_env = EmptyString /\
  call_text keyless_env "What to wear?" empty_state
    = (Ok NO_KEY_MESSAGE, empty_state) /\
  call_vision keyless_env "What to wear?" "/app/static/uploads/me.png"
              state_with_photo
    = (Ok NO_KEY_MESSAGE, state_with_photo).
Proof.
  split; [reflexivity|].
  split.
  - apply (no_credential_advisory keyless_env "What to wear?" "" empty_state).
    reflexivity.
  - apply (no_credential_advisory keyless_env "What to wear?"
             "/app/static/uploads/me.png" state_with_photo).
    reflexivity.
Defined.

(** C4: when the vision attempt fails for a reason other than a timeout (the
    image cannot be read, the HTTP call fails, the answer is malformed),
    [call_vision] does not raise and returns exactly what [call_text] returns
    for the same prompt; with a credential configured it is the run of
    [call_text] itself, started where the failed attempt stopped. *)
Theorem vision_failure_falls_back (E : env) (prompt img_path : string)
    (st st1 : state) (e : exn) :
  vision_attempt E prompt img_path st = (Raise e, st1) ->
  is_timeout e = false ->
  fst (call_vision E prompt img_path st) = fst (call_text E prompt st) /\
  (exists txt, fst (call_vision E prompt img_path st) = Ok txt) /\
  (Py.truthy (GROQ_KEY E) = true ->
   call_vision E prompt img_path st = call_text E prompt st1).
Proof.
  intros Hv _. split; [|split].
  - destruct (Py.truthy (GROQ_KEY E)) eqn:Hk.
    + rewrite (call_vision_fallback E prompt img_path st st1 e Hk Hv).
      apply call_text_value.
    + unfold call_vision, call_text. rewrite Hk. reflexivity.
  - apply call_vision_returns.
  - intros Hk. exact (call_vision_fallback E prompt img_path st st1 e Hk Hv).
Qed.

Lemma vision_failure_falls_back_witness :
  fst (call_vision sample_env "What to wear?" "/app/static/uploads/gone.png"
                   empty_state)
  = fst (call_text sample_env "What to wear?" empty_state).
Proof.
  exact (proj1 (vision_failure_falls_back sample_env "What to wear?"
                  "/app/static/uploads/gone.png" empty_state empty_state
                  (Exn OtherError "No such file or directory")
                  eq_refl eq_refl)).
Defined.

(** C3, as stated, fails for the vision entry point: the vision call times
    out, yet the value returned is the answer of the text model, not the
    timed-out message. *)
Lemma vision_timeout_not_reported :
  Py.truthy (GROQ_KEY sample_env) = true /\
  http_post sample_env
    (vision_request sample_env "What to wear?" "image/png" "PNGDATA")
    = inl (Exn Timeout "Read timed out. (read timeout=90)") /\
  fst (call_vision sample_env "What to wear?" "/app/static/uploads/me.png"
                   state_with_photo) = Ok "Try a navy blazer." /\
  fst (call_vision sample_env "What to wear?" "/app/static/uploads/me.png"
                   state_with_photo) <> Ok TIMEOUT_MESSAGE.
Proof.
  split; [reflexivity|]. split; [reflexivity|]. split; [reflexivity|].
  vm_compute. discriminate.
Qed.

(** C3 (amended): with a credential configured, [call_text] answers a timeout
    of its call with the timed-out message.  [call_vision] treats a timeout
    of the vision call like any other failure: it returns what [call_text]
    returns for the same prompt, which is the timed-out message when the text
    call times out as well. *)
Theorem timeout_reporting (E : env) (prompt img_path : string) (st : state) :
  Py.truthy (GROQ_KEY E) = true ->
  (forall e, http_post E (text_request E prompt) = inl e ->
             is_timeout e = true ->
             fst (call_text E prompt st) = Ok TIMEOUT_MESSAGE) /\
  (forall e st1, vision_attempt E prompt img_path st = (Raise e, st1) ->
                 is_timeout e = true ->
     call_vision E prompt img_path st = call_text E prompt st1 /\
     (forall e', http_post E (text_request E prompt) = inl e' ->
                 is_timeout e' = true ->
                 fst (call_vision E prompt img_path st) = Ok TIMEOUT_MESSAGE)).
Proof.
  intros Hk.
  assert (Htext : forall s e, http_post E (text_request E prompt) = inl e ->
                  is_timeout e = true ->
                  fst (call_text E prompt s) = Ok TIMEOUT_MESSAGE).
  { intros s e Hp Ht. unfold call_text. rewrite Hk. cbn [negb].
    unfold text_attempt, requests_post. unfold_monad.
    rewrite Hp, Ht. reflexivity. }
  split; [apply Htext|].
  intros e st1 Hv _.
  pose proof (call_vision_fallback E prompt img_path st st1 e Hk Hv) as H.
  split; [exact H|]. intros e' Hp Ht. rewrite H. now apply (Htext st1 e').
Qed.

Lemma timeout_reporting_witness :
  fst (call_text slow_env "What to wear?" empty_state) = Ok TIMEOUT_MESSAGE.
Proof.
  refine (proj1 (timeout_reporting slow_env "What to wear?" "" empty_state
                   eq_refl)
            (Exn Timeout "Read timed out. (read timeout=45)") eq_refl eq_refl).
Defined.

(** ** Markdown stripping *)

Lemma prefix_app_self (d rest : string) : Py.startswith d (d ++ rest) = true.
Proof.
  induction d as [|c d IH]; simpl; [reflexivity|].
  now rewrite Ascii.eqb_refl, IH.
Qed.

Lemma drop_app_self (d rest : string) :
  drop (String.length d) (d ++ rest) = rest.
Proof. induction d as [|c d IH]; simpl; [reflexivity|exact IH]. Qed.

Lemma append_assoc (a b c : string) : (a ++ b) ++ c = a ++ (b ++ c).
Proof. induction a as [|x a IH]; simpl; [reflexivity|now rewrite IH]. Qed.

Lemma append_empty_r (a : string) : a ++ EmptyString = a.
Proof. induction a as [|x a IH]; simpl; [reflexivity|now rewrite IH]. Qed.

(** A group without the delimiter's first character and without newline is
    found whole by the lazy group. *)
Lemma lazy_group_plain (c : ascii) (d g rest : string) :
  g <> EmptyString ->
  Py.contains c g = false -> Py.contains newline g = false ->
  lazy_group (String c d) (g ++ String c d ++ rest) = Some (g, rest).
Proof.
  induction g as [|x g IH]; intros Hne Hc Hn; [congruence|].
  cbn [Py.contains] in Hc, Hn.
  apply orb_false_iff in Hc as [Hcx Hc]. apply orb_false_iff in Hn as [Hnx Hn].
  destruct g as [|y g].
  - cbn [String.append lazy_group]. rewrite Ascii.eqb_sym, Hnx.
    change (String c (d ++ rest)) with (String c d ++ rest).
    rewrite prefix_app_self, drop_app_self. reflexivity.
  - assert (Hs : Py.startswith (String c d)
                   (String y g ++ String c d ++ rest) = false).
    { cbn [String.append Py.startswith]. cbn [Py.contains] in Hc.
      apply orb_false_iff in Hc as [Hcy _]. now rewrite Hcy. }
    specialize (IH ltac:(discriminate) Hc Hn).
    change (String x (String y g) ++ String c d ++ rest)
      with (String x (String y g ++ String c d ++ rest)).
    cbn [lazy_group]. rewrite Ascii.eqb_sym, Hnx, Hs, IH. reflexivity.
Qed.

(** One marked span between texts without the marker: the substitution
    keeps the inner text and drops the two delimiters. *)
Lemma re_sub_marked (c : ascii) (d a g b : string) :
  Py.contains c a = false -> Py.contains c b = false ->
  g <> EmptyString ->
  Py.contains c g = false -> Py.contains newline g = false ->
  re_sub (String c d) (a ++ String c d ++ g ++ String c d ++ b) = a ++ g ++ b.
Proof.
  intros Ha Hb Hne Hg Hn.
  assert (Hspan : re_sub (String c d) (String c d ++ g ++ String c d ++ b)
                  = g ++ b).
  { change (String c d ++ g ++ String c d ++ b)
      with (String c (d ++ g ++ String c d ++ b)) at 1.
    rewrite re_sub_unfold. unfold match_here.
    change (String c (d ++ g ++ String c d ++ b))
      with (String c d ++ g ++ String c d ++ b).
    rewrite prefix_app_self, drop_app_self.
    rewrite (lazy_group_plain c d g b Hne Hg Hn).
    now rewrite (re_sub_absent c d b Hb). }
  set (R := String c d ++ g ++ String c d ++ b) in *.
  induction a as [|x a IH]; [exact Hspan|].
  cbn [Py.contains] in Ha. apply orb_false_iff in Ha as [Hx Ha].
  change (String x a ++ R) with (String x (a ++ R)).
  rewrite re_sub_unfold. unfold match_here.
  cbn [Py.startswith]. rewrite Hx. cbn [andb].
  rewrite (IH Ha). reflexivity.
Qed.

Lemma re_sub_no_pair (s : string) :
  has_pair s = false -> re_sub "**" s = s.
Proof.
  induction s as [|x s IH]; intros H; [reflexivity|].
  cbn [has_pair] in H. apply orb_false_iff in H as [H1 H2].
  rewrite re_sub_unfold. unfold match_here. rewrite H1. now rewrite IH.
Qed.

Lemma has_pair_app_plain (a s : string) :
  Py.contains "*" a = false -> a <> EmptyString \/ Py.startswith "**" s = false ->
  has_pair (a ++ s) = has_pair s.
Proof.
  induction a as [|x a IH]; intros Ha Hs; [reflexivity|].
  cbn [Py.contains] in Ha. apply orb_false_iff in Ha as [Hx Ha].
  cbn [String.append has_pair Py.startswith]. rewrite Hx. cbn [andb orb].
  destruct a as [|y a]; [reflexivity|].
  apply IH; [exact Ha|left; discriminate].
Qed.

Lemma startswith_pair_single (s : string) :
  Py.contains "*" s = false -> Py.startswith "**" (String "*" s) = false.
Proof.
  intros H. destruct s as [|y s]; [reflexivity|].
  cbn [Py.contains] in H. apply orb_false_iff in H as [Hy _].
  cbn [Py.startswith]. rewrite Hy. reflexivity.
Qed.

Lemma has_pair_plain (s : string) :
  Py.contains "*" s = false -> has_pair s = false.
Proof.
  induction s as [|x s IH]; intros H; [reflexivity|].
  cbn [Py.contains] in H. apply orb_false_iff in H as [Hx H].
  cbn [has_pair Py.startswith]. rewrite Hx. cbn [andb orb]. now apply IH.
Qed.

Lemma has_pair_single_marks (a g b : string) :
  g <> EmptyString ->
  Py.contains "*" a = false -> Py.contains "*" g = false ->
  Py.contains "*" b = false ->
  has_pair (a ++ "*" ++ g ++ "*" ++ b) = false.
Proof.
  intros Hne Ha Hg Hb.
  assert (Htail : has_pair (String "*" b) = false).
  { cbn [has_pair]. rewrite (startswith_pair_single b Hb).
    now rewrite (has_pair_plain b Hb). }
  assert (Hmid : has_pair (g ++ String "*" b) = false).
  { rewrite has_pair_app_plain; [exact Htail|exact Hg|].
    right. apply (startswith_pair_single b Hb). }
  assert (Hopen : has_pair (String "*" (g ++ String "*" b)) = false).
  { cbn [has_pair]. rewrite Hmid, orb_false_r.
    destruct g as [|y g]; [congruence|].
    cbn [Py.contains] in Hg. apply orb_false_iff in Hg as [Hy _].
    cbn [String.append Py.startswith]. rewrite Hy. reflexivity. }
  change ("*" ++ g ++ "*" ++ b) with (String "*" (g ++ String "*" b)).
  rewrite has_pair_app_plain; [exact Hopen|exact Ha|].
  right. cbn [has_pair] in Hopen. now apply orb_false_iff in Hopen as [H _].
Qed.

Lemma re_sub_no_match (delim s : string) :
  has_match delim s = false -> re_sub delim s = s.
Proof.
  induction s as [|x s IH]; intros H; [reflexivity|].
  cbn [has_match] in H. apply orb_false_iff in H as [H1 H2].
  rewrite re_sub_unfold.
  destruct (match_here delim (String x s)); [discriminate|]. now rewrite IH.
Qed.

Lemma strip_md_no_match (t : string) :
  has_match "**" t = false -> has_match "*" t = false ->
  strip_md t = Py.strip t.
Proof.
  intros H2 H1. unfold strip_md.
  now rewrite (re_sub_no_match "**" t H2), (re_sub_no_match "*" t H1).
Qed.

Lemma strip_md_plain (t : string) :
  Py.contains "*" t = false -> strip_md t = Py.strip t.
Proof.
  intros H. unfold strip_md.
  now rewrite (re_sub_absent "*" "*" t H), (re_sub_absent "*" "" t H).
Qed.

Lemma strip_md_bold (a g b : string) :
  Py.contains "*" a = false -> Py.contains "*" b = false ->
  g <> EmptyString ->
  Py.contains "*" g = false -> Py.contains newline g = false ->
  strip_md (a ++ "**" ++ g ++ "**" ++ b) = Py.strip (a ++ g ++ b).
Proof.
  intros Ha Hb Hne Hg Hn. unfold strip_md.
  rewrite (re_sub_marked "*" "*" a g b Ha Hb Hne Hg Hn).
  rewrite re_sub_absent; [reflexivity|].
  rewrite !contains_app, Ha, Hg, Hb. reflexivity.
Qed.

Lemma strip_md_italic (a g b : string) :
  Py.contains "*" a = false -> Py.contains "*" b = false ->
  g <> EmptyString ->
  Py.contains "*" g = false -> Py.contains newline g = false ->
  strip_md (a ++ "*" ++ g ++ "*" ++ b) = Py.strip (a ++ g ++ b).
Proof.
  intros Ha Hb Hne Hg Hn. unfold strip_md.
  rewrite (re_sub_no_pair _ (has_pair_single_marks a g b Hne Ha Hg Hb)).
  now rewrite (re_sub_marked "*" "" a g b Ha Hb Hne Hg Hn).
Qed.

(** C5: [strip_md] removes the bold and italic markers and keeps the inner
    text, then trims: the three examples of the specification; text without
    any star, and more generally text in which neither pattern matches, is
    returned as [strip] leaves it; one bold or italic span of star-free,
    newline-free text inside star-free text loses its markers only. *)
Theorem strip_md_spec :
  strip_md "**bold**" = "bold" /\
  strip_md "*italic*" = "italic" /\
  strip_md "a **b** c *d* e" = "a b c d e" /\
  (forall t, Py.contains "*" t = false -> strip_md t = Py.strip t) /\
  (forall t, has_match "**" t = false -> has_match "*" t = false ->
             strip_md t = Py.strip t) /\
  (forall a g b,
     Py.contains "*" a = false -> Py.contains "*" b = false ->
     g <> EmptyString ->
     Py.contains "*" g = false -> Py.contains newline g = false ->
     strip_md (a ++ "**" ++ g ++ "**" ++ b) = Py.strip (a ++ g ++ b) /\
     strip_md (a ++ "*" ++ g ++ "*" ++ b) = Py.strip (a ++ g ++ b)).
Proof.
  split; [reflexivity|]. split; [reflexivity|]. split; [reflexivity|].
  split; [exact strip_md_plain|].
  split; [exact strip_md_no_match|].
  intros a g b Ha Hb Hne Hg Hn. split.
  - now apply strip_md_bold.
  - now apply strip_md_italic.
Qed.

Lemma strip_md_spec_witness :
  strip_md "  plain text, no emphasis  " = "plain text, no emphasis" /\
  strip_md " 5 * 3 = 15 " = "5 * 3 = 15" /\
  strip_md " so **very** bold " = "so very bold".
Proof.
  split; [|split].
  - exact (proj1 (proj2 (proj2 (proj2 strip_md_spec)))
             "  plain text, no emphasis  " eq_refl).
  - exact (proj1 (proj2 (proj2 (proj2 (proj2 strip_md_spec))))
             " 5 * 3 = 15 " eq_refl eq_refl).
  - refine (proj1 (proj2 (proj2 (proj2 (proj2 (proj2 strip_md_spec))))
                     " so " "very" " bold " eq_refl eq_refl _ eq_refl eq_refl)).
    discriminate.
Defined.

(** ** The handlers *)

Lemma form_get_ok (rq : request) (f : list (string * string)) (k d : string) :
  form rq = inr f -> form_get rq k d = ret (dict_get f k d).
Proof. intros H. unfold form_get. now rewrite H. Qed.

Lemma form_get_raises (rq : request) (e : exn) (k d : string) :
  form rq = inl e -> form_get rq k d = raise e.
Proof. intros H. unfold form_get. now rewrite H. Qed.

(** C6: a pitch or campaign request whose product is missing, empty or blank
    is answered with the prompt-for-input message, and the state is left as
    it was: no call to the completion service, no recommendation stored. *)
Theorem empty_product_short_circuits (E : env) (rq : request)
    (f : list (string * string)) (st : state) :
  form rq = inr f ->
  Py.strip (dict_get f "product" "") = EmptyString ->
  (generate_pitch E rq st = (Ok (ok (JResult PITCH_ASK None)), st) /\
   generate_campaign E rq st = (Ok (ok (JResult CAMPAIGN_ASK None)), st)) /\
  (http_log (snd (generate_pitch E rq st)) = http_log st /\
   ai_recommendations (snd (generate_pitch E rq st)) = ai_recommendations st) /\
  (http_log (snd (generate_campaign E rq st)) = http_log st /\
   ai_recommendations (snd (generate_campaign E rq st))
     = ai_recommendations st).
Proof.
  intros Hf Hp.
  assert (H1 : generate_pitch E rq st = (Ok (ok (JResult PITCH_ASK None)), st)).
  { unfold generate_pitch. rewrite !(form_get_ok rq f _ _ Hf).
    unfold bind, ret. rewrite Hp. reflexivity. }
  assert (H2 : generate_campaign E rq st
               = (Ok (ok (JResult CAMPAIGN_ASK None)), st)).
  { unfold generate_campaign. rewrite !(form_get_ok rq f _ _ Hf).
    unfold bind, ret. rewrite Hp. reflexivity. }
  rewrite H1, H2. repeat split; reflexivity.
Qed.

Lemma empty_product_short_circuits_witness :
  generate_pitch sample_env blank_product_request empty_state
    = (Ok (ok (JResult PITCH_ASK None)), empty_state) /\
  generate_campaign sample_env blank_product_request empty_state
    = (Ok (ok (JResult CAMPAIGN_ASK None)), empty_state).
Proof.
  apply (empty_product_short_circuits sample_env blank_product_request
           [("product", "   "); ("customer", "students")] empty_state).
  - reflexivity.
  - reflexivity.
Defined.

(** *** What the steps leave untouched *)

Lemma same_profiles_refl (st : state) : same_profiles st st.
Proof. split; reflexivity. Qed.

Lemma same_profiles_trans (a b c : state) :
  same_profiles a b -> same_profiles b c -> same_profiles a c.
Proof. intros [H1 H2] [H3 H4]. split; congruence. Qed.

Lemma text_attempt_profiles (E : env) (prompt : string) (st : state) :
  same_profiles st (snd (text_attempt E prompt st)).
Proof.
  unfold text_attempt, requests_post, do_raise_for_status, get_content.
  unfold_monad.
  destruct (http_post E (text_request E prompt)) as [e|r];
    [now split|].
  destruct (raise_for_status r); [now split|].
  destruct (json_content r); now split.
Qed.

Lemma call_text_profiles (E : env) (prompt : string) (st : state) :
  same_profiles st (snd (call_text E prompt st)).
Proof.
  unfold call_text. destruct (negb (Py.truthy (GROQ_KEY E)));
    [now split|].
  unfold_monad. pose proof (text_attempt_profiles E prompt st) as H.
  destruct (text_attempt E prompt st) as [[txt|e] st1]; [exact H|].
  destruct (is_timeout e); exact H.
Qed.

Lemma call_vision_profiles (E : env) (prompt img : string) (st : state) :
  same_profiles st (snd (call_vision E prompt img st)).
Proof.
  unfold call_vision. destruct (negb (Py.truthy (GROQ_KEY E)));
    [now split|].
  unfold_monad.
  assert (H : same_profiles st (snd (vision_attempt E prompt img st))).
  { unfold vision_attempt, read_file, requests_post, do_raise_for_status,
      get_content. unfold_monad.
    destruct (read_fault E img); [now split|].
    destruct (assoc img (files st)); [|now split].
    match goal with |- context [http_post E ?q] =>
      destruct (http_post E q) as [e|r] end; [now split|].
    destruct (raise_for_status r); [now split|].
    destruct (json_content r); now split. }
  destruct (vision_attempt E prompt img st) as [[txt|e] st1]; [exact H|].
  eapply same_profiles_trans; [exact H|apply call_text_profiles].
Qed.

Lemma save_rec_profiles (E : env) (uid pid : option Z) (rtype : string)
    (idata : list (string * pyval)) (resp : string) (st : state) :
  same_profiles st (snd (save_rec E uid pid rtype idata resp st)).
Proof.
  unfold save_rec, insert_rec. unfold_monad.
  destruct (store_fault E AiRecommendations); now split.
Qed.

Lemma photo_step_profiles (E : env) (ph : option upload) (st : state) :
  same_profiles st (snd (photo_step E ph st)).
Proof.
  unfold photo_step, save_file. destruct ph as [p|]; [|now split].
  destruct (usable_photo (Some p)); [|now split].
  unfold_monad. destruct (save_fault E _); now split.
Qed.

(** The photo step when saving does not fail. *)
Lemma photo_step_run (E : env) (ph : option upload) (st : state) :
  (usable_photo ph = true -> save_fault E (photo_path_of E ph) = None) ->
  exists st', photo_step E ph st = (Ok (photo_path_of E ph, usable_photo ph), st')
              /\ same_profiles st st'.
Proof.
  intros Hs. unfold photo_step, photo_path_of in *. destruct ph as [p|].
  - destruct (usable_photo (Some p)) eqn:Hu.
    + unfold save_file. unfold_monad. rewrite (Hs eq_refl).
      eexists; split; [reflexivity|now split].
    + eexists; split; [reflexivity|now split].
  - eexists; split; [reflexivity|now split].
Qed.


Lemma bind_ret {A B : Type} (a : A) (k : A -> M B) : bind (ret a) k = k a.
Proof. reflexivity. Qed.

Lemma bind_raise {A B : Type} (e : exn) (k : A -> M B) :
  bind (raise e) k = raise e.
Proof. reflexivity. Qed.

(** Completion followed by best-effort persistence: once the completion has
    returned, the rest returns as well, with the completion's text. *)
Lemma tail_runs (E : env) (m : M string) (uid pid : option Z)
    (rtype : string) (idata : list (string * pyval)) (flag : option bool)
    (st st1 : state) (txt : string) :
  m st = (Ok txt, st1) ->
  exists st',
    bind m (fun result =>
              save_rec E uid pid rtype idata result ;;;
              ret (ok (JResult result flag))) st
    = (Ok (ok (JResult txt flag)), st') /\ same_profiles st1 st'.
Proof.
  intros Hm. unfold bind at 1. rewrite Hm.
  pose proof (save_rec_profiles E uid pid rtype idata txt st1) as Hf.
  destruct (save_rec_run E uid pid rtype idata txt st1) as [st' Hs].
  rewrite Hs in Hf. unfold bind. rewrite Hs. exists st'. split; [reflexivity|exact Hf].
Qed.

Lemma generate_pitch_answers (E : env) (rq : request)
    (f : list (string * string)) (st : state) :
  form rq = inr f ->
  exists txt, fst (generate_pitch E rq st) = Ok (ok (JResult txt None)).
Proof.
  intros Hf. unfold generate_pitch. rewrite !(form_get_ok rq f _ _ Hf).
  rewrite bind_ret. cbv beta zeta. rewrite bind_ret. cbv beta zeta.
  destruct (negb (Py.truthy (Py.strip (dict_get f "product" "")))).
  - eexists; reflexivity.
  - match goal with |- context [call_text E ?p] =>
      destruct (call_text_run E p st) as [txt [st1 Hc]] end.
    epose proof (tail_runs E _ (session_user_id rq) None "pitch" _ None _ _ _ Hc)
      as [st' [Ht _]].
    exists txt. rewrite Ht. reflexivity.
Qed.

Lemma lead_score_answers (E : env) (rq : request)
    (f : list (string * string)) (st : state) :
  form rq = inr f ->
  exists txt, fst (lead_score E rq st) = Ok (ok (JResult txt None)).
Proof.
  intros Hf. unfold lead_score. rewrite !(form_get_ok rq f _ _ Hf).
  repeat (rewrite bind_ret; cbv beta zeta).
  match goal with |- context [call_text E ?p] =>
    destruct (call_text_run E p st) as [txt [st1 Hc]] end.
  epose proof (tail_runs E _ (session_user_id rq) None "lead_score" _ None _ _ _ Hc)
    as [st' [Ht _]].
  exists txt. rewrite Ht. reflexivity.
Qed.

Lemma generate_campaign_answers (E : env) (rq : request)
    (f : list (string * string)) (st : state) :
  form rq = inr f ->
  exists txt, fst (generate_campaign E rq st) = Ok (ok (JResult txt None)).
Proof.
  intros Hf. unfold generate_campaign. rewrite !(form_get_ok rq f _ _ Hf).
  repeat (rewrite bind_ret; cbv beta zeta).
  destruct (negb (Py.truthy (Py.strip (dict_get f "product" "")))).
  - eexists; reflexivity.
  - match goal with |- context [call_text E ?p] =>
      destruct (call_text_run E p st) as [txt [st1 Hc]] end.
    epose proof (tail_runs E _ (session_user_id rq) None "campaign" _ None _ _ _ Hc)
      as [st' [Ht _]].
    exists txt. rewrite Ht. reflexivity.
Qed.

(** The completion step of [get_recommendation] always returns. *)
Lemma completion_run (E : env) (has_photo : bool) (prompt path : string)
    (st : state) :
  exists txt st1,
    (if has_photo then call_vision E prompt path else call_text E prompt) st
    = (Ok txt, st1) /\ same_profiles st st1.
Proof.
  destruct has_photo.
  - destruct (call_vision_run E prompt path st) as [txt [st1 H]].
    exists txt, st1. split; [exact H|].
    pose proof (call_vision_profiles E prompt path st) as Hp.
    now rewrite H in Hp.
  - destruct (call_text_run E prompt st) as [txt [st1 H]].
    exists txt, st1. split; [exact H|].
    pose proof (call_text_profiles E prompt st) as Hp.
    now rewrite H in Hp.
Qed.

(** Whatever the body of [get_recommendation] returns normally is a result
    with the photo flag. *)
Lemma get_recommendation_body_shape (E : env) (rq : request) (st st1 : state)
    (r : response) :
  get_recommendation_body E rq st = (Ok r, st1) ->
  exists txt flag, r = ok (JResult txt (Some flag)).
Proof.
  unfold get_recommendation_body.
  destruct (form rq) as [e|f] eqn:Hf.
  - rewrite (form_get_raises rq e _ _ Hf), bind_raise. discriminate.
  - rewrite !(form_get_ok rq f _ _ Hf).
    repeat (rewrite bind_ret; cbv beta zeta).
    unfold files_get_photo. rewrite Hf.
    rewrite bind_ret. cbv beta zeta.
    unfold bind at 1.
    destruct (photo_step E (photo rq) st) as [[pp|e] s2]; [|discriminate].
    unfold bind at 1.
    match goal with |- context [profile_step ?a ?b ?c ?d ?e ?f ?g ?h s2] =>
      destruct (profile_step a b c d e f g h s2) as [[pid|e'] s3] end;
      [|discriminate].
    match goal with |- context [if snd pp then call_vision E ?p ?q else _] =>
      destruct (completion_run E (snd pp) p q s3) as [txt [s4 [Hc _]]] end.
    epose proof (tail_runs E _ (session_user_id rq) pid "outfit" _ (Some (snd pp)) _ _ _ Hc)
      as [s5 [Ht _]].
    rewrite Ht. intros H. injection H as <- _. now exists txt, (snd pp).
Qed.

Lemma get_recommendation_answers : always_answers_200 get_recommendation.
Proof.
  intros E rq st. unfold get_recommendation. unfold_monad.
  destruct (get_recommendation_body E rq st) as [[r|e] st1] eqn:Hb.
  - destruct (get_recommendation_body_shape E rq st st1 r Hb) as [txt [flag ->]].
    eexists; reflexivity.
  - eexists; reflexivity.
Qed.

(** C1, as stated, fails for the pitch, lead-score and campaign handlers:
    they have no [try] of their own, so an exception raised while the form is
    read leaves the handler instead of becoming a 200 answer. *)
Lemma form_error_leaves_text_handlers :
  fst (generate_pitch sample_env oversize_request empty_state)
    = Raise (Exn OtherError "413 Request Entity Too Large: The data value transmitted exceeds the capacity limit.") /\
  ~ always_answers_200 generate_pitch /\
  ~ always_answers_200 lead_score /\
  ~ always_answers_200 generate_campaign.
Proof.
  split; [reflexivity|].
  repeat split; intros H;
    destruct (H sample_env oversize_request empty_state) as [b Hb];
    discriminate Hb.
Qed.

(** C1 (amended): [get_recommendation] answers every request with status
    200, and an exception raised anywhere in its sequence becomes the text
    "Error: ... Please try again.".  The pitch, lead-score and campaign
    handlers answer with status 200 and a result text whenever the form of
    the request can be read: failures of the completion call and of the
    persistence are absorbed by [call_text] and [save_rec]. *)
Theorem generation_endpoints_answer (E : env) (rq : request) (st : state) :
  (exists txt flag,
     fst (get_recommendation E rq st) = Ok (ok (JResult txt flag))) /\
  (forall e st1, get_recommendation_body E rq st = (Raise e, st1) ->
     get_recommendation E rq st
     = (Ok (ok (JResult ("Error: " ++ exn_str e ++ ". Please try again.")
                        None)), st1)) /\
  (forall f, form rq = inr f ->
     (exists txt, fst (generate_pitch E rq st) = Ok (ok (JResult txt None))) /\
     (exists txt, fst (lead_score E rq st) = Ok (ok (JResult txt None))) /\
     (exists txt, fst (generate_campaign E rq st)
                  = Ok (ok (JResult txt None)))).
Proof.
  split; [|split].
  - unfold get_recommendation. unfold_monad.
    destruct (get_recommendation_body E rq st) as [[r|e] st1] eqn:Hb.
    + destruct (get_recommendation_body_shape E rq st st1 r Hb) as [txt [flag ->]].
      now exists txt, (Some flag).
    + eexists; eexists; reflexivity.
  - intros e st1 Hb. unfold get_recommendation. unfold_monad.
    now rewrite Hb.
  - intros f Hf. split; [|split].
    + now apply generate_pitch_answers with f.
    + now apply lead_score_answers with f.
    + now apply generate_campaign_answers with f.
Qed.

Lemma generation_endpoints_answer_witness :
  (exists txt,
     fst (generate_pitch sample_env blank_product_request empty_state)
     = Ok (ok (JResult txt None))) /\
  get_recommendation sample_env oversize_request empty_state
  = (Ok (ok (JResult "Error: 413 Request Entity Too Large: The data value transmitted exceeds the capacity limit.. Please try again." None)),
     empty_state).
Proof.
  split.
  - exact (proj1 (proj2 (proj2 (generation_endpoints_answer sample_env
                                   blank_product_request empty_state))
                    [("product", "   "); ("customer", "students")] eq_refl)).
  - exact (proj1 (proj2 (generation_endpoints_answer sample_env
                            oversize_request empty_state))
             (Exn OtherError "413 Request Entity Too Large: The data value transmitted exceeds the capacity limit.")
             empty_state eq_refl).
Defined.

(** *** Fashion profiles *)

Lemma get_recommendation_state (E : env) (rq : request) (st : state) :
  snd (get_recommendation E rq st) = snd (get_recommendation_body E rq st).
Proof.
  unfold get_recommendation. unfold_monad.
  destruct (get_recommendation_body E rq st) as [[r|e] st1]; reflexivity.
Qed.

(** After the profile step the handler no longer touches the profiles. *)
Lemma after_profile_step (E : env) (uid pid : option Z) (has_photo : bool)
    (prompt path : string) (idata : list (string * pyval)) (st : state) :
  same_profiles st
    (snd (bind (if has_photo then call_vision E prompt path
                else call_text E prompt)
               (fun result =>
                  save_rec E uid pid "outfit" idata result ;;;
                  ret (ok (JResult result (Some has_photo)))) st)).
Proof.
  destruct (completion_run E has_photo prompt path st) as [txt [s1 [Hc Hp]]].
  destruct (tail_runs E _ uid pid "outfit" idata (Some has_photo) _ _ _ Hc)
    as [s2 [Ht Hp2]].
  rewrite Ht. simpl. eapply same_profiles_trans; eassumption.
Qed.

Lemma anonymous_body_profiles (E : env) (rq : request) (st : state) :
  uid_truthy (session_user_id rq) = false ->
  same_profiles st (snd (get_recommendation_body E rq st)).
Proof.
  intros Hu. unfold get_recommendation_body.
  destruct (form rq) as [e|f] eqn:Hf.
  - rewrite (form_get_raises rq e _ _ Hf), bind_raise. now split.
  - rewrite !(form_get_ok rq f _ _ Hf).
    repeat (rewrite bind_ret; cbv beta zeta).
    unfold files_get_photo. rewrite Hf.
    rewrite bind_ret. cbv beta zeta.
    unfold bind at 1.
    pose proof (photo_step_profiles E (photo rq) st) as Hp.
    destruct (photo_step E (photo rq) st) as [[pp|e] s2]; [|exact Hp].
    unfold profile_step. rewrite Hu. rewrite bind_ret. cbv beta.
    eapply same_profiles_trans; [exact Hp|apply after_profile_step].
Qed.

(** C2, as stated, fails for anonymous callers: the request carries all the
    profile fields and is answered, but no profile row is created (so none
    with a null user either). *)
Lemma anonymous_request_creates_no_profile :
  session_user_id anonymous_outfit_request = None /\
  fst (get_recommendation sample_env anonymous_outfit_request empty_state)
    = Ok (ok (JResult "Try a navy blazer." (Some false))) /\
  fashion_profiles
    (snd (get_recommendation sample_env anonymous_outfit_request empty_state))
    = nil /\
  ~ (exists row,
       fashion_profiles
         (snd (get_recommendation sample_env anonymous_outfit_request
                                  empty_state))
       = (fashion_profiles empty_state ++ [row])%list
       /\ prof_user_id row = None).
Proof.
  split; [reflexivity|]. split; [vm_compute; reflexivity|].
  assert (H : fashion_profiles
                (snd (get_recommendation sample_env anonymous_outfit_request
                                         empty_state)) = nil)
    by (vm_compute; reflexivity).
  split; [exact H|]. intros [row [Hrow _]]. rewrite H in Hrow.
  simpl in Hrow. discriminate.
Qed.


(** ** Upload acceptance *)

Lemma usable_photo_ok_file (p : upload) :
  usable_photo (Some p) = ok_file (filename p).
Proof.
  unfold usable_photo. destruct (filename p) as [|c s]; reflexivity.
Qed.

Lemma rejected_photo_ignored (E : env) (rq : request) (st : state) (p : upload) :
  photo rq = Some p -> ok_file (filename p) = false ->
  get_recommendation E rq st = get_recommendation E (without_photo rq) st.
Proof.
  intros Hp Hok.
  assert (Hstep : photo_step E (Some p) = photo_step E None).
  { unfold photo_step. now rewrite usable_photo_ok_file, Hok. }
  assert (Hb : get_recommendation_body E rq
               = get_recommendation_body E (without_photo rq)).
  { unfold get_recommendation_body, form_get, files_get_photo.
    cbn [without_photo form session_user_id photo].
    destruct (form rq) as [e|f]; [reflexivity|].
    rewrite Hp. repeat (rewrite bind_ret; cbv beta zeta).
    now rewrite Hstep. }
  unfold get_recommendation. now rewrite Hb.
Qed.


(** ** History *)

Lemma insert_desc_In (r x : rec_row) (l : list rec_row) :
  In x (insert_desc r l) <-> x = r \/ In x l.
Proof.
  induction l as [|y l IH]; simpl.
  - intuition congruence.
  - destruct (rec_created_at y <=? rec_created_at r)%Z; simpl.
    + intuition congruence.
    + rewrite IH. intuition congruence.
Qed.

Lemma order_In (x : rec_row) (l : list rec_row) :
  In x (order_by_created_at_desc l) <-> In x l.
Proof.
  induction l as [|y l IH]; simpl; [tauto|].
  rewrite insert_desc_In, IH. intuition congruence.
Qed.

Lemma insert_desc_length (r : rec_row) (l : list rec_row) :
  length (insert_desc r l) = S (length l).
Proof.
  induction l as [|y l IH]; simpl; [reflexivity|].
  destruct (rec_created_at y <=? rec_created_at r)%Z; simpl; [reflexivity|].
  now rewrite IH.
Qed.

Lemma order_length (l : list rec_row) :
  length (order_by_created_at_desc l) = length l.
Proof.
  induction l as [|y l IH]; simpl; [reflexivity|].
  now rewrite insert_desc_length, IH.
Qed.

Lemma insert_desc_sorted (r : rec_row) (l : list rec_row) :
  StronglySorted newer_first l -> StronglySorted newer_first (insert_desc r l).
Proof.
  induction l as [|y l IH]; intros Hs; simpl.
  - constructor; constructor.
  - inversion Hs as [|? ? Hl Hy]; subst.
    destruct (rec_created_at y <=? rec_created_at r)%Z eqn:Hc.
    + apply Z.leb_le in Hc. constructor; [exact Hs|].
      constructor; [exact Hc|].
      rewrite Forall_forall in Hy |- *. intros z Hz.
      specialize (Hy z Hz). unfold newer_first in *. lia.
    + apply Z.leb_gt in Hc. constructor; [now apply IH|].
      rewrite Forall_forall in Hy |- *. intros z Hz.
      apply insert_desc_In in Hz as [->|Hz].
      * unfold newer_first. lia.
      * now apply Hy.
Qed.

Lemma order_sorted (l : list rec_row) :
  StronglySorted newer_first (order_by_created_at_desc l).
Proof.
  induction l as [|y l IH]; simpl; [constructor|].
  now apply insert_desc_sorted.
Qed.

Lemma firstn_In {A : Type} (n : nat) (l : list A) (x : A) :
  In x (firstn n l) -> In x l.
Proof.
  revert l; induction n as [|n IH]; intros [|y l]; simpl; try tauto.
  intros [->|H]; [now left|right; now apply IH].
Qed.

Section Prefix.
Context {A : Type} (R : A -> A -> Prop).

Lemma firstn_sorted (n : nat) (l : list A) :
  StronglySorted R l -> StronglySorted R (firstn n l).
Proof.
  revert l; induction n as [|n IH]; intros l Hs; [constructor|].
  destruct l as [|y l]; [constructor|].
  inversion Hs as [|? ? Hl Hy]; subst. simpl. constructor; [now apply IH|].
  rewrite Forall_forall in Hy |- *. intros z Hz. apply Hy.
  now apply firstn_In with n.
Qed.

(** In a sorted list what was cut off comes after what was kept. *)
Lemma sorted_firstn_skipn (n : nat) (l : list A) (x y : A) :
  StronglySorted R l ->
  In x (firstn n l) -> In y (skipn n l) -> R x y.
Proof.
  revert l; induction n as [|n IH]; intros l Hs Hx Hy; [destruct Hx|].
  destruct l as [|z l]; [destruct Hx|].
  inversion Hs as [|? ? Hl Hz]; subst. simpl in Hx, Hy.
  destruct Hx as [->|Hx].
  - rewrite Forall_forall in Hz. apply Hz.
    rewrite <- (firstn_skipn n l). apply in_or_app. now right.
  - now apply IH with l.
Qed.
End Prefix.

Lemma owned_by_true (u : Z) (r : rec_row) :
  owned_by (Some u) r = true <-> rec_user_id r = Some u.
Proof.
  unfold owned_by. destruct (rec_user_id r) as [v|].
  - rewrite Z.eqb_eq. split; congruence.
  - split; discriminate.
Qed.

(** The rows a history query returns, for a limit that is not negative. *)
Lemma select_recommendations_spec (u : Z) (n : nat) (st : state) :
  let rows := select_recommendations (Some u) (Z.of_nat n) st in
  let mine := filter (owned_by (Some u)) (ai_recommendations st) in
  length rows = Nat.min n (length mine) /\
  (forall r, In r rows -> In r (ai_recommendations st) /\ rec_user_id r = Some u) /\
  StronglySorted newer_first rows /\
  (forall r r', In r rows -> In r' (ai_recommendations st) ->
                rec_user_id r' = Some u -> ~ In r' rows ->
                newer_first r r').
Proof.
  intros rows mine. subst rows. unfold select_recommendations, limit_rows.
  replace (Z.of_nat n <? 0)%Z with false by (symmetry; apply Z.ltb_ge; lia).
  rewrite Nat2Z.id. fold mine.
  split; [|split; [|split]].
  - rewrite length_firstn, order_length. reflexivity.
  - intros r Hr. apply firstn_In in Hr. apply (proj1 (order_In _ _)) in Hr.
    unfold mine in Hr. apply filter_In in Hr as [Hin Ho].
    split; [exact Hin|now apply owned_by_true].
  - apply firstn_sorted, order_sorted.
  - intros r r' Hr Hin Hu Hnot.
    apply (sorted_firstn_skipn newer_first n (order_by_created_at_desc mine));
      [apply order_sorted|exact Hr|].
    assert (Hall : In r' (order_by_created_at_desc mine)).
    { apply order_In. unfold mine. apply filter_In.
      split; [exact Hin|now apply owned_by_true]. }
    rewrite <- (firstn_skipn n (order_by_created_at_desc mine)) in Hall.
    apply in_app_or in Hall as [H|H]; [contradiction|exact H].
Qed.


(** ** Signup *)

Lemma collide_none_l (b : option string) : collide None b = false.
Proof. reflexivity. Qed.

Lemma collide_sym (a b : option string) : collide a b = collide b a.
Proof.
  destruct a as [x|], b as [y|]; try reflexivity. simpl. apply String.eqb_sym.
Qed.

Lemma collide_some (x y : string) :
  collide (Some x) (Some y) = false <-> x <> y.
Proof. simpl. apply String.eqb_neq. Qed.

(** An empty string after trimming is stored as NULL. *)
Lemma or_none_blank (s : string) : s = EmptyString -> or_none s = None.
Proof. now intros ->. Qed.

Lemma or_none_given (s : string) : s <> EmptyString -> or_none s = Some s.
Proof. destruct s; [congruence|reflexivity]. Qed.

Lemma no_collision (phone email : option string) (us : list user_row) :
  Forall (fun u => collide phone (user_phone u) = false /\
                   collide email (user_email u) = false) us ->
  existsb (fun u => collide phone (user_phone u)) us = false /\
  existsb (fun u => collide email (user_email u)) us = false.
Proof.
  induction 1 as [|u us [H1 H2] _ [IH1 IH2]]; simpl; [now split|].
  now rewrite H1, H2, IH1, IH2.
Qed.

(** A well-formed signup whose contacts are not registered creates the user
    and opens the session. *)
Lemma signup_creates (E : env) (rq : request) (st : state) :
  signup_phone rq <> EmptyString \/ signup_email rq <> EmptyString ->
  signup_password rq <> EmptyString ->
  unregistered st rq ->
  signup E rq st
  = (welcome (users_seq st) rq,
     set_users st (users st ++ [row_of E (users_seq st) rq])%list
               (users_seq st + 1)%Z).
Proof.
  intros Hc Hpw Hun. unfold signup.
  fold (signup_name rq) (signup_phone rq) (signup_email rq) (signup_password rq).
  assert (Ht : Py.truthy (Py.str_or (signup_phone rq) (signup_email rq)) = true).
  { unfold Py.str_or. destruct (signup_phone rq); simpl.
    - destruct (signup_email rq); [destruct Hc; congruence|reflexivity].
    - reflexivity. }
  rewrite Ht. cbn [negb].
  assert (Hp : Py.truthy (signup_password rq) = true)
    by (destruct (signup_password rq); [congruence|reflexivity]).
  rewrite Hp. cbn [negb].
  unfold try_except_if, bind, insert_user.
  destruct (no_collision _ _ _ Hun) as [H1 H2]. rewrite H1, H2.
  reflexivity.
Qed.

(** A signup giving a phone or an email that some user already holds is
    refused and adds nothing. *)
Lemma signup_conflict (E : env) (rq : request) (st : state) :
  signup_password rq <> EmptyString ->
  (exists u, In u (users st) /\
             (collide (or_none (signup_phone rq)) (user_phone u) = true \/
              collide (or_none (signup_email rq)) (user_email u) = true)) ->
  signup E rq st
  = (Ok (Response 400%Z (JFailure "Phone/email already registered"), None), st).
Proof.
  intros Hpw [u [Hin Hcol]]. unfold signup.
  fold (signup_name rq) (signup_phone rq) (signup_email rq) (signup_password rq).
  assert (Ht : Py.truthy (Py.str_or (signup_phone rq) (signup_email rq)) = true).
  { unfold Py.str_or. destruct Hcol as [H|H].
    - destruct (signup_phone rq); [discriminate H|reflexivity].
    - destruct (signup_phone rq); simpl; [|reflexivity].
      destruct (signup_email rq); [discriminate H|reflexivity]. }
  rewrite Ht. cbn [negb].
  assert (Hp : Py.truthy (signup_password rq) = true)
    by (destruct (signup_password rq); [congruence|reflexivity]).
  rewrite Hp. cbn [negb].
  unfold try_except_if, bind, insert_user.
  destruct (existsb (fun u0 => collide (or_none (signup_phone rq)) (user_phone u0))
                    (users st)) eqn:H1; [reflexivity|].
  destruct (existsb (fun u0 => collide (or_none (signup_email rq)) (user_email u0))
                    (users st)) eqn:H2; [reflexivity|].
  exfalso. destruct Hcol as [H|H].
  - assert (Hex : existsb (fun u0 => collide (or_none (signup_phone rq))
                                             (user_phone u0)) (users st) = true)
      by (apply existsb_exists; now exists u).
    congruence.
  - assert (Hex : existsb (fun u0 => collide (or_none (signup_email rq))
                                             (user_email u0)) (users st) = true)
      by (apply existsb_exists; now exists u).
    congruence.
Qed.

(** A series of well-formed signups with pairwise distinct, unregistered
    contacts: every one succeeds. *)
Lemma signups_succeed (E : env) (rqs : list request) (st : state) :
  Forall (fun rq => (signup_phone rq <> EmptyString \/
                     signup_email rq <> EmptyString) /\
                    signup_password rq <> EmptyString) rqs ->
  distinct_contacts rqs ->
  Forall (unregistered st) rqs ->
  signups E rqs st
  = (welcomes (users_seq st) rqs,
     set_users st (users st ++ rows_of E (users_seq st) rqs)%list
               (users_seq st + Z.of_nat (length rqs))%Z).
Proof.
  revert st. induction rqs as [|rq rqs IH]; intros st Hok Hd Hun.
  - simpl. rewrite app_nil_r, Z.add_0_r. destruct st; reflexivity.
  - inversion Hok as [|? ? [Hc Hpw] Hok']; subst.
    inversion Hun as [|? ? Hrq Hun']; subst.
    destruct Hd as [Hd1 Hd].
    cbn [signups]. rewrite (signup_creates E rq st Hc Hpw Hrq).
    rewrite IH; [|exact Hok'|exact Hd|].
    + cbn [users users_seq set_users welcomes rows_of length].
      f_equal. unfold set_users. cbn.
      rewrite <- app_assoc. cbn [app]. f_equal. lia.
    + rewrite Forall_forall in Hun', Hd1 |- *. intros rq' Hin.
      unfold unregistered. cbn [users set_users].
      apply Forall_app. split; [exact (Hun' rq' Hin)|].
      constructor; [|constructor]. exact (Hd1 rq' Hin).
Qed.

Lemma collide_given (x : string) (o : option string) :
  o <> Some x -> collide (Some x) o = false.
Proof.
  intros H. destruct o as [y|]; [|reflexivity].
  apply collide_some. congruence.
Qed.

Lemma email_only_series (rqs : list request) (st : state) :
  Forall email_only rqs ->
  NoDup (map signup_email rqs) ->
  (forall rq u, In rq rqs -> In u (users st) ->
                user_email u <> Some (signup_email rq)) ->
  Forall (fun rq => (signup_phone rq <> EmptyString \/
                     signup_email rq <> EmptyString) /\
                    signup_password rq <> EmptyString) rqs /\
  distinct_contacts rqs /\ Forall (unregistered st) rqs.
Proof.
  intros Hall Hnd Hfresh. split; [|split].
  - eapply Forall_impl; [|exact Hall]. intros rq [_ [He Hp]]. now split; [right|].
  - clear Hfresh. induction rqs as [|rq rqs IH]; [exact I|].
    inversion Hall as [|? ? [Hp [He Hpw]] Hall']; subst.
    inversion Hnd as [|? ? Hnot Hnd']; subst.
    split; [|now apply IH].
    rewrite Forall_forall in Hall' |- *. intros rq' Hin.
    destruct (Hall' rq' Hin) as [Hp' [He' _]].
    rewrite (or_none_blank _ Hp'), (or_none_given _ He'), (or_none_given _ He).
    split; [reflexivity|]. apply collide_some. intros Heq. apply Hnot.
    rewrite <- Heq. now apply in_map.
  - rewrite Forall_forall in Hall |- *. intros rq Hin.
    destruct (Hall rq Hin) as [Hp [He _]].
    unfold unregistered. rewrite Forall_forall. intros u Hu.
    rewrite (or_none_blank _ Hp), (or_none_given _ He).
    split; [reflexivity|]. apply collide_given. now apply Hfresh.
Qed.

Lemma phone_only_series (rqs : list request) (st : state) :
  Forall phone_only rqs ->
  NoDup (map signup_phone rqs) ->
  (forall rq u, In rq rqs -> In u (users st) ->
                user_phone u <> Some (signup_phone rq)) ->
  Forall (fun rq => (signup_phone rq <> EmptyString \/
                     signup_email rq <> EmptyString) /\
                    signup_password rq <> EmptyString) rqs /\
  distinct_contacts rqs /\ Forall (unregistered st) rqs.
Proof.
  intros Hall Hnd Hfresh. split; [|split].
  - eapply Forall_impl; [|exact Hall]. intros rq [_ [He Hp]]. now split; [left|].
  - clear Hfresh. induction rqs as [|rq rqs IH]; [exact I|].
    inversion Hall as [|? ? [He [Hp Hpw]] Hall']; subst.
    inversion Hnd as [|? ? Hnot Hnd']; subst.
    split; [|now apply IH].
    rewrite Forall_forall in Hall' |- *. intros rq' Hin.
    destruct (Hall' rq' Hin) as [He' [Hp' _]].
    rewrite (or_none_blank _ He'), (or_none_given _ Hp'), (or_none_given _ Hp).
    split; [|reflexivity]. apply collide_some. intros Heq. apply Hnot.
    rewrite <- Heq. now apply in_map.
  - rewrite Forall_forall in Hall |- *. intros rq Hin.
    destruct (Hall rq Hin) as [He [Hp _]].
    unfold unregistered. rewrite Forall_forall. intros u Hu.
    rewrite (or_none_blank _ He), (or_none_given _ Hp).
    split; [|reflexivity]. apply collide_given. now apply Hfresh.
Qed.

Lemma rows_of_phone_null (E : env) (rqs : list request) (seq : Z) :
  Forall (fun rq => signup_phone rq = EmptyString) rqs ->
  Forall (fun u => user_phone u = None) (rows_of E seq rqs).
Proof.
  intros H. revert seq. induction H as [|rq rqs Hp _ IH]; intros seq; simpl.
  - constructor.
  - constructor; [|apply IH]. cbn. now rewrite Hp.
Qed.

Lemma rows_of_email_null (E : env) (rqs : list request) (seq : Z) :
  Forall (fun rq => signup_email rq = EmptyString) rqs ->
  Forall (fun u => user_email u = None) (rows_of E seq rqs).
Proof.
  intros H. revert seq. induction H as [|rq rqs Hp _ IH]; intros seq; simpl.
  - constructor.
  - constructor; [|apply IH]. cbn. now rewrite Hp.
Qed.

(** C10: at signup a phone or an email that is missing, empty or blank is
    stored as NULL, and NULL never collides under the UNIQUE constraints.
    So a series of signups giving only an email (pairwise distinct, not yet
    registered) succeeds whatever the number of users without phone, each new
    row having a NULL phone; likewise with phone and email exchanged.  A
    non-empty phone or email that a user already holds is refused. *)
Theorem blank_contact_is_null (E : env) (st : state) :
  (forall rq,
     (signup_phone rq <> EmptyString \/ signup_email rq <> EmptyString) ->
     signup_password rq <> EmptyString ->
     unregistered st rq ->
     signup E rq st
     = (welcome (users_seq st) rq,
        set_users st (users st ++ [row_of E (users_seq st) rq])%list
                  (users_seq st + 1)%Z)
     /\ (signup_phone rq = EmptyString ->
         user_phone (row_of E (users_seq st) rq) = None)
     /\ (signup_email rq = EmptyString ->
         user_email (row_of E (users_seq st) rq) = None)) /\
  (forall rqs,
     Forall email_only rqs ->
     NoDup (map signup_email rqs) ->
     (forall rq u, In rq rqs -> In u (users st) ->
                   user_email u <> Some (signup_email rq)) ->
     signups E rqs st
     = (welcomes (users_seq st) rqs,
        set_users st (users st ++ rows_of E (users_seq st) rqs)%list
                  (users_seq st + Z.of_nat (length rqs))%Z)
     /\ Forall (fun u => user_phone u = None) (rows_of E (users_seq st) rqs)) /\
  (forall rqs,
     Forall phone_only rqs ->
     NoDup (map signup_phone rqs) ->
     (forall rq u, In rq rqs -> In u (users st) ->
                   user_phone u <> Some (signup_phone rq)) ->
     signups E rqs st
     = (welcomes (users_seq st) rqs,
        set_users st (users st ++ rows_of E (users_seq st) rqs)%list
                  (users_seq st + Z.of_nat (length rqs))%Z)
     /\ Forall (fun u => user_email u = None) (rows_of E (users_seq st) rqs)) /\
  (forall rq,
     signup_password rq <> EmptyString ->
     (exists u, In u (users st) /\
        (collide (or_none (signup_phone rq)) (user_phone u) = true \/
         collide (or_none (signup_email rq)) (user_email u) = true)) ->
     signup E rq st
     = (Ok (Response 400%Z (JFailure "Phone/email already registered"), None),
        st)).
Proof.
  split; [|split; [|split]].
  - intros rq Hc Hpw Hun. split; [now apply signup_creates|].
    split; intros H; cbn; now rewrite H.
  - intros rqs Hall Hnd Hfresh.
    destruct (email_only_series rqs st Hall Hnd Hfresh) as [H1 [H2 H3]].
    split; [now apply signups_succeed|].
    apply rows_of_phone_null. eapply Forall_impl; [|exact Hall].
    now intros rq [Hp _].
  - intros rqs Hall Hnd Hfresh.
    destruct (phone_only_series rqs st Hall Hnd Hfresh) as [H1 [H2 H3]].
    split; [now apply signups_succeed|].
    apply rows_of_email_null. eapply Forall_impl; [|exact Hall].
    now intros rq [Hp _].
  - intros rq. apply signup_conflict.
Qed.

Lemma blank_contact_is_null_witness :
  map user_phone (users (snd (signups sample_env email_signups empty_state)))
    = [None; None; None] /\
  map user_email (users (snd (signups sample_env email_signups empty_state)))
    = [Some "asha@example.com"; Some "bo@example.com"; Some "cy@example.com"].
Proof.
  assert (H : Forall email_only email_signups /\
              NoDup (map signup_email email_signups) /\
              (forall rq u, In rq email_signups -> In u (users empty_state) ->
                            user_email u <> Some (signup_email rq))).
  { split; [|split].
    - repeat constructor; discriminate.
    - repeat constructor; simpl; intuition discriminate.
    - intros rq u _ Hu. destruct Hu. }
  destruct H as [H1 [H2 H3]].
  destruct (proj1 (proj2 (blank_contact_is_null sample_env empty_state))
              email_signups H1 H2 H3) as [Hrun _].
  rewrite Hrun. split; reflexivity.
Defined.

(** ** The accessors of database.py *)

(** The history endpoint returns what [get_recommendations_by_user] returns
    with its default limit. *)
Lemma api_history_by_accessor (rq : request) (st : state) (u : Z) :
  session_user_id rq = Some u -> u <> 0%Z ->
  exists rows,
    Database.get_recommendations_by_user (Some u) 20%Z st = (Ok rows, st) /\
    api_history rq st = (Ok (ok (JHistory (map item_of_row rows))), st).
Proof.
  intros Hs Hu. exists (select_recommendations (Some u) 20%Z st).
  split; [reflexivity|]. unfold api_history. rewrite Hs. cbn [uid_truthy].
  apply Z.eqb_neq in Hu. now rewrite Hu.
Qed.

(** [save_fashion_profile] itself accepts a missing user and stores NULL;
    [get_recommendation] does not reach the insertion for such a caller. *)
Lemma save_fashion_profile_null_user (E : env) (st : state)
    (gender age size culture_style dress_style photo_path : string) :
  store_fault E FashionProfiles = None ->
  exists row,
    fashion_profiles
      (snd (Database.save_fashion_profile E None gender age size culture_style
              dress_style photo_path st))
    = (fashion_profiles st ++ [row])%list /\ prof_user_id row = None.
Proof.
  intros Hf. unfold Database.save_fashion_profile, insert_profile. rewrite Hf.
  eexists. split; reflexivity.
Qed.

(** [create_user] does not trim: a blank phone is kept as given, only the
    empty string becomes NULL. *)
Example create_user_blank_phone :
  map user_phone
      (users (snd (Database.create_user sample_env "Di" "  " "" "pw"
                                        empty_state)))
  = [Some "  "] /\
  map user_email
      (users (snd (Database.create_user sample_env "Di" "  " "" "pw"
                                        empty_state)))
  = [None].
Proof. split; reflexivity. Qed.

Lemma create_user_conflict (E : env) (st : state)
    (name phone email password : string) :
  (exists u, In u (users st) /\
             (collide (or_none phone) (user_phone u) = true \/
              collide (or_none email) (user_email u) = true)) ->
  Database.create_user E name phone email password st
  = (Ok (Database.NotCreated "Phone or email already registered."), st).
Proof.
  intros [u [Hin Hcol]].
  unfold Database.create_user, try_except_if, bind, insert_user.
  destruct (existsb (fun u0 => collide (or_none phone) (user_phone u0))
                    (users st)) eqn:H1; [reflexivity|].
  destruct (existsb (fun u0 => collide (or_none email) (user_email u0))
                    (users st)) eqn:H2; [reflexivity|].
  exfalso. destruct Hcol as [H|H].
  - assert (Hex : existsb (fun u0 => collide (or_none phone) (user_phone u0))
                          (users st) = true)
      by (apply existsb_exists; now exists u).
    congruence.
  - assert (Hex : existsb (fun u0 => collide (or_none email) (user_email u0))
                          (users st) = true)
      by (apply existsb_exists; now exists u).
    congruence.
Qed.

(* ================================================================== *)
(** * Further properties of the code                                   *)
(* ================================================================== *)

(** ** Text helpers *)

Lemma length_app_string (a b : string) :
  String.length (a ++ b) = String.length a + String.length b.
Proof. induction a as [|c a IH]; simpl; [reflexivity|now rewrite IH]. Qed.

Lemma lazy_group_length (close s g rest : string) :
  lazy_group close s = Some (g, rest) ->
  String.length g + String.length rest <= String.length s.
Proof.
  revert g rest; induction s as [|c s IH]; intros g rest; simpl; [discriminate|].
  destruct (Ascii.eqb c newline); [discriminate|].
  destruct (Py.startswith close s).
  - intros H; injection H as <- <-. simpl.
    pose proof (length_drop_le (String.length close) s). lia.
  - destruct (lazy_group close s) as [[g' rest']|]; [|discriminate].
    intros H; injection H as <- <-. specialize (IH _ _ eq_refl). simpl. lia.
Qed.

Lemma re_sub_fuel_length (delim : string) (n : nat) (s : string) :
  String.length (re_sub_fuel n delim s) <= String.length s.
Proof.
  revert s; induction n as [|n IH]; intros s; simpl; [lia|].
  destruct s as [|c s]; [simpl; lia|].
  destruct (match_here delim (String c s)) as [[g rest]|] eqn:Hm.
  - unfold match_here in Hm.
    destruct (Py.startswith delim (String c s)); [|discriminate].
    apply lazy_group_length in Hm.
    pose proof (length_drop_le (String.length delim) (String c s)).
    rewrite length_app_string. specialize (IH rest). lia.
  - simpl. specialize (IH s). lia.
Qed.

Lemma lstrip_length (s : string) :
  String.length (Py.lstrip s) <= String.length s.
Proof.
  induction s as [|c s IH]; simpl; [lia|].
  destruct (Py.isspace c); simpl; lia.
Qed.

Lemma rstrip_length (s : string) :
  String.length (Py.rstrip s) <= String.length s.
Proof.
  induction s as [|c s IH]; simpl; [lia|].
  destruct (Py.rstrip s) as [|d r].
  - destruct (Py.isspace c); simpl; lia.
  - simpl in *. lia.
Qed.

(** X1: [strip_md] only removes characters: its result is never longer than
    the text it is given. *)
Theorem strip_md_never_longer (text : string) :
  String.length (strip_md text) <= String.length text.
Proof.
  unfold strip_md, Py.strip, re_sub.
  eapply Nat.le_trans; [apply lstrip_length|].
  eapply Nat.le_trans; [apply rstrip_length|].
  eapply Nat.le_trans; [apply re_sub_fuel_length|].
  apply re_sub_fuel_length.
Qed.

Lemma lstrip_idem (s : string) : Py.lstrip (Py.lstrip s) = Py.lstrip s.
Proof.
  induction s as [|c s IH]; simpl; [reflexivity|].
  destruct (Py.isspace c) eqn:Hc; [exact IH|]. simpl. now rewrite Hc.
Qed.

Lemma rstrip_cons (c : ascii) (s : string) :
  Py.rstrip (String c s) =
  match Py.rstrip s with
  | EmptyString => if Py.isspace c then EmptyString else String c EmptyString
  | r => String c r
  end.
Proof. reflexivity. Qed.

Lemma rstrip_idem (s : string) : Py.rstrip (Py.rstrip s) = Py.rstrip s.
Proof.
  induction s as [|c s IH]; [reflexivity|].
  rewrite rstrip_cons. destruct (Py.rstrip s) as [|d r] eqn:Hr.
  - destruct (Py.isspace c) eqn:Hc; [reflexivity|].
    rewrite rstrip_cons. cbn [Py.rstrip]. now rewrite Hc.
  - rewrite rstrip_cons. rewrite IH. reflexivity.
Qed.

Lemma rstrip_lstrip (s : string) :
  Py.rstrip (Py.lstrip s) = Py.lstrip (Py.rstrip s).
Proof.
  induction s as [|c s IH]; [reflexivity|].
  cbn [Py.lstrip]. rewrite rstrip_cons.
  destruct (Py.isspace c) eqn:Hc.
  - rewrite IH. destruct (Py.rstrip s) as [|d r]; [reflexivity|].
    cbn [Py.lstrip]. now rewrite Hc.
  - rewrite rstrip_cons.
    destruct (Py.rstrip s) as [|d r]; cbn [Py.lstrip]; now rewrite Hc.
Qed.

(** Trimming twice is trimming once. *)
Lemma strip_idem (s : string) : Py.strip (Py.strip s) = Py.strip s.
Proof.
  unfold Py.strip. rewrite rstrip_lstrip, rstrip_idem, lstrip_idem.
  reflexivity.
Qed.

(** For a name with a recognized extension the lookup of [call_vision]
    finds the MIME type of that extension: "image/jpeg" for jpg, "image/"
    followed by the extension otherwise. *)
Lemma recognized_extension_mime (name : string) :
  ok_file name = true ->
  let ext := Py.lower (last (Py.rsplit1 "." name) EmptyString) in
  In ext ALLOWED /\
  mime_of ext = "image/" ++ (if String.eqb ext "jpg" then "jpeg" else ext).
Proof.
  unfold ok_file, ok_file_checked, Py.rsplit1.
  destruct (Py.contains "." name); [|discriminate].
  destruct (Py.rpartition "." name) as [[a b]|]; cbn [nth_error last];
    [|discriminate].
  intros H. apply str_in_In in H. split; [exact H|].
  unfold ALLOWED in H. cbn [In] in H.
  destruct H as [H|[H|[H|[H|[H|[]]]]]]; rewrite <- H; reflexivity.
Qed.


(** ** The completion client: outcomes and calls made *)

Lemma same_store_refl (st : state) : same_store st st.
Proof. repeat split. Qed.

Lemma same_store_trans (a b c : state) :
  same_store a b -> same_store b c -> same_store a c.
Proof.
  intros (H1 & H2 & H3 & H4 & H5 & H6) (G1 & G2 & G3 & G4 & G5 & G6).
  repeat split; congruence.
Qed.

Lemma same_store_log (st : state) (l : list http_request) :
  same_store st (set_http_log st l).
Proof. repeat split. Qed.

(** The run of [call_text] with a credential: one call, and the answer
    decided by how that call ends. *)
Lemma call_text_cases (E : env) (prompt : string) (st : state) :
  Py.truthy (GROQ_KEY E) = true ->
  call_text E prompt st
  = (Ok match http_post E (text_request E prompt) with
        | inl e => if is_timeout e then TIMEOUT_MESSAGE
                   else "API Error: " ++ exn_str e
        | inr r =>
            match raise_for_status r with
            | Some e => if is_timeout e then TIMEOUT_MESSAGE
                        else "API Error: " ++ exn_str e
            | None =>
                match json_content r with
                | inl e => if is_timeout e then TIMEOUT_MESSAGE
                           else "API Error: " ++ exn_str e
                | inr c => strip_md c
                end
            end
        end,
     set_http_log st (http_log st ++ [text_request E prompt])%list).
Proof.
  intros Hk. unfold call_text. rewrite Hk. cbn [negb].
  unfold text_attempt, requests_post, do_raise_for_status, get_content.
  unfold_monad.
  destruct (http_post E (text_request E prompt)) as [e|r].
  - destruct (is_timeout e); reflexivity.
  - destruct (raise_for_status r) as [e|].
    + destruct (is_timeout e); reflexivity.
    + destruct (json_content r) as [e|c]; [|reflexivity].
      destruct (is_timeout e); reflexivity.
Qed.

(** X3: with a credential configured, a failure of the text completion other
    than a timeout is answered with the text "API Error: " followed by the
    error, whether the call itself fails, the status is an error or the
    answer cannot be read; a well-formed answer is returned with its markdown
    emphasis removed. *)
Theorem call_text_outcomes (E : env) (prompt : string) (st : state) :
  Py.truthy (GROQ_KEY E) = true ->
  (forall e, http_post E (text_request E prompt) = inl e ->
             is_timeout e = false ->
             fst (call_text E prompt st) = Ok ("API Error: " ++ exn_str e)) /\
  (forall r e, http_post E (text_request E prompt) = inr r ->
               raise_for_status r = Some e -> is_timeout e = false ->
               fst (call_text E prompt st) = Ok ("API Error: " ++ exn_str e)) /\
  (forall r e, http_post E (text_request E prompt) = inr r ->
               raise_for_status r = None -> json_content r = inl e ->
               is_timeout e = false ->
               fst (call_text E prompt st) = Ok ("API Error: " ++ exn_str e)) /\
  (forall r c, http_post E (text_request E prompt) = inr r ->
               raise_for_status r = None -> json_content r = inr c ->
               fst (call_text E prompt st) = Ok (strip_md c)).
Proof.
  intros Hk. rewrite (call_text_cases E prompt st Hk). cbn [fst].
  split; [|split; [|split]].
  - intros e -> ->. reflexivity.
  - intros r e -> -> ->. reflexivity.
  - intros r e -> -> -> ->. reflexivity.
  - intros r c -> -> ->. reflexivity.
Qed.

Lemma call_text_outcomes_witness :
  fst (call_text helpful_env "What to wear?" empty_state) = Ok "Wear linen.".
Proof.
  exact (proj2 (proj2 (proj2 (call_text_outcomes helpful_env "What to wear?"
                                empty_state eq_refl)))
           (HttpResponse None (inr "Wear *linen*.")) "Wear *linen*."
           eq_refl eq_refl eq_refl).
Defined.

(** The run of the vision attempt once the image has been read. *)
Lemma vision_attempt_cases (E : env) (prompt img : string) (st : state)
    (bytes : string) :
  read_fault E img = None -> assoc img (files st) = Some bytes ->
  let vr := vision_request E prompt
              (mime_of (Py.lower (last (Py.rsplit1 "." img) EmptyString)))
              (b64encode E bytes) in
  vision_attempt E prompt img st
  = (match http_post E vr with
     | inl e => Raise e
     | inr r =>
         match raise_for_status r with
         | Some e => Raise e
         | None => match json_content r with
                   | inl e => Raise e
                   | inr c => Ok (strip_md c)
                   end
         end
     end,
     set_http_log st (http_log st ++ [vr])%list).
Proof.
  intros Hr Hf vr. unfold vision_attempt, read_file, requests_post,
    do_raise_for_status, get_content. unfold_monad. rewrite Hr, Hf.
  fold vr. destruct (http_post E vr) as [e|r]; [reflexivity|].
  destruct (raise_for_status r); [reflexivity|].
  destruct (json_content r); reflexivity.
Qed.

(** X4: the calls a completion makes, with a credential configured.
    [call_text] makes exactly one call, the text request.  [call_vision]
    makes the text request alone when the image cannot be read; otherwise it
    makes the vision request, carrying the bytes of the file, and after it
    the text request exactly when the vision attempt failed.  Neither
    touches the three tables. *)
Theorem completion_calls (E : env) (prompt img : string) (st : state) :
  Py.truthy (GROQ_KEY E) = true ->
  http_log (snd (call_text E prompt st))
    = (http_log st ++ [text_request E prompt])%list /\
  same_store st (snd (call_text E prompt st)) /\
  same_store st (snd (call_vision E prompt img st)) /\
  (forall e, fst (read_file E img st) = Raise e ->
     http_log (snd (call_vision E prompt img st))
       = (http_log st ++ [text_request E prompt])%list) /\
  (forall bytes,
     read_fault E img = None -> assoc img (files st) = Some bytes ->
     let vr := vision_request E prompt
                 (mime_of (Py.lower (last (Py.rsplit1 "." img) EmptyString)))
                 (b64encode E bytes) in
     (forall txt, fst (vision_attempt E prompt img st) = Ok txt ->
        call_vision E prompt img st
        = (Ok txt, set_http_log st (http_log st ++ [vr])%list)) /\
     (forall e, fst (vision_attempt E prompt img st) = Raise e ->
        http_log (snd (call_vision E prompt img st))
        = (http_log st ++ [vr; text_request E prompt])%list)).
Proof.
  intros Hk.
  assert (Htext : forall s, http_log (snd (call_text E prompt s))
                    = (http_log s ++ [text_request E prompt])%list
                    /\ same_store s (snd (call_text E prompt s))).
  { intros s. rewrite (call_text_cases E prompt s Hk). cbn [snd].
    split; [reflexivity|apply same_store_log]. }
  split; [apply Htext|]. split; [apply Htext|].
  assert (Hread : forall e, fst (read_file E img st) = Raise e ->
                    vision_attempt E prompt img st = (Raise e, st)).
  { intros e. unfold vision_attempt, read_file. unfold_monad.
    destruct (read_fault E img) as [e'|].
    - cbn. intros H; injection H as <-. reflexivity.
    - destruct (assoc img (files st)); cbn; [discriminate|].
      intros H; injection H as <-. reflexivity. }
  split; [|split].
  - unfold call_vision. rewrite Hk. cbn [negb]. unfold_monad.
    destruct (read_fault E img) as [e|] eqn:Hrf.
    + rewrite (Hread e); [apply Htext|]. unfold read_file. now rewrite Hrf.
    + destruct (assoc img (files st)) as [bytes|] eqn:Hf.
      * rewrite (vision_attempt_cases E prompt img st bytes Hrf Hf).
        match goal with |- context [http_post E ?q] =>
          destruct (http_post E q) as [e|r] end.
        { eapply same_store_trans; [apply same_store_log|apply Htext]. }
        destruct (raise_for_status r).
        { eapply same_store_trans; [apply same_store_log|apply Htext]. }
        destruct (json_content r).
        { eapply same_store_trans; [apply same_store_log|apply Htext]. }
        apply same_store_log.
      * rewrite (Hread (Exn OtherError "No such file or directory"));
          [apply Htext|]. unfold read_file. now rewrite Hrf, Hf.
  - intros e He. unfold call_vision. rewrite Hk. cbn [negb]. unfold_monad.
    rewrite (Hread e He). apply Htext.
  - intros bytes Hrf Hf vr. split.
    + intros txt Hv. unfold call_vision. rewrite Hk. cbn [negb]. unfold_monad.
      pose proof (vision_attempt_cases E prompt img st bytes Hrf Hf) as Hc.
      cbv zeta in Hc. fold vr in Hc. rewrite Hc in Hv |- *. cbn [fst] in Hv.
      destruct (http_post E vr) as [e|r]; [discriminate|].
      destruct (raise_for_status r); [discriminate|].
      destruct (json_content r); [discriminate|].
      injection Hv as <-. reflexivity.
    + intros e Hv. unfold call_vision. rewrite Hk. cbn [negb]. unfold_monad.
      pose proof (vision_attempt_cases E prompt img st bytes Hrf Hf) as Hc.
      cbv zeta in Hc. fold vr in Hc. rewrite Hc in Hv |- *. cbn [fst] in Hv.
      assert (Hlog : http_log (snd (call_text E prompt
                       (set_http_log st (http_log st ++ [vr])%list)))
                     = (http_log st ++ [vr; text_request E prompt])%list).
      { rewrite (proj1 (Htext _)). cbn [http_log set_http_log].
        rewrite <- app_assoc. reflexivity. }
      destruct (http_post E vr) as [e'|r]; [exact Hlog|].
      destruct (raise_for_status r); [exact Hlog|].
      destruct (json_content r); [exact Hlog|discriminate].
Qed.

Lemma completion_calls_witness :
  http_log (snd (call_vision sample_env "What to wear?"
                   "/app/static/uploads/me.png" state_with_photo))
  = [vision_request sample_env "What to wear?" "image/png" "PNGDATA";
     text_request sample_env "What to wear?"].
Proof.
  exact (proj2 (proj2 (proj2 (proj2 (proj2
                  (completion_calls sample_env "What to wear?"
                     "/app/static/uploads/me.png" state_with_photo eq_refl))))
                  "PNGDATA" eq_refl eq_refl)
           (Exn Timeout "Read timed out. (read timeout=90)") eq_refl).
Defined.

(** ** What a generation handler stores *)

Lemma save_rec_cases (E : env) (uid pid : option Z) (rtype : string)
    (idata : list (string * pyval)) (resp : string) (st : state) :
  save_rec E uid pid rtype idata resp st
  = (Ok tt, match store_fault E AiRecommendations with
            | Some _ => st
            | None => with_rec E uid pid rtype idata resp st
            end).
Proof.
  unfold save_rec, insert_rec, with_rec. unfold_monad.
  destruct (store_fault E AiRecommendations); reflexivity.
Qed.

Lemma tail_effect (E : env) (m : M string) (uid pid : option Z)
    (rtype : string) (idata : list (string * pyval)) (flag : option bool)
    (st st1 : state) (txt : string) :
  m st = (Ok txt, st1) ->
  bind m (fun result =>
            save_rec E uid pid rtype idata result ;;;
            ret (ok (JResult result flag))) st
  = (Ok (ok (JResult txt flag)),
     snd (save_rec E uid pid rtype idata txt st1)).
Proof.
  intros Hm. unfold bind at 1. rewrite Hm. unfold bind.
  rewrite save_rec_cases. reflexivity.
Qed.

Lemma generate_pitch_run (E : env) (rq : request)
    (f : list (string * string)) (st : state) :
  form rq = inr f ->
  let product := Py.strip (dict_get f "product" "") in
  let customer := Py.strip (dict_get f "customer" "") in
  Py.truthy product = true ->
  exists txt st1,
    call_text E (pitch_prompt product customer) st = (Ok txt, st1) /\
    generate_pitch E rq st
    = (Ok (ok (JResult txt None)),
       snd (save_rec E (session_user_id rq) None "pitch"
              [("product", PStr product); ("customer", PStr customer)]
              txt st1)).
Proof.
  intros Hf product customer Hp.
  destruct (call_text_run E (pitch_prompt product customer) st)
    as [txt [st1 Hc]].
  exists txt, st1. split; [exact Hc|].
  unfold generate_pitch. rewrite !(form_get_ok rq f _ _ Hf).
  repeat (rewrite bind_ret; cbv beta zeta).
  fold product customer. rewrite Hp. cbn [negb].
  now apply tail_effect.
Qed.

Lemma lead_score_run (E : env) (rq : request)
    (f : list (string * string)) (st : state) :
  form rq = inr f ->
  let name := dict_get f "name" "Customer" in
  let budget := dict_get f "budget" "Not specified" in
  let need := dict_get f "need" "Not specified" in
  let urgency := dict_get f "urgency" "Not specified" in
  exists txt st1,
    call_text E (lead_prompt name budget need urgency) st = (Ok txt, st1) /\
    lead_score E rq st
    = (Ok (ok (JResult txt None)),
       snd (save_rec E (session_user_id rq) None "lead_score"
              [("name", PStr name); ("budget", PStr budget);
               ("need", PStr need)] txt st1)).
Proof.
  intros Hf name budget need urgency.
  destruct (call_text_run E (lead_prompt name budget need urgency) st)
    as [txt [st1 Hc]].
  exists txt, st1. split; [exact Hc|].
  unfold lead_score. rewrite !(form_get_ok rq f _ _ Hf).
  repeat (rewrite bind_ret; cbv beta zeta).
  now apply tail_effect.
Qed.

Lemma generate_campaign_run (E : env) (rq : request)
    (f : list (string * string)) (st : state) :
  form rq = inr f ->
  let product := Py.strip (dict_get f "product" "") in
  let audience := Py.strip (dict_get f "audience" "") in
  let platform := Py.strip (dict_get f "platform" "Instagram") in
  Py.truthy product = true ->
  exists txt st1,
    call_text E (campaign_prompt product audience platform) st
      = (Ok txt, st1) /\
    generate_campaign E rq st
    = (Ok (ok (JResult txt None)),
       snd (save_rec E (session_user_id rq) None "campaign"
              [("product", PStr product); ("audience", PStr audience);
               ("platform", PStr platform)] txt st1)).
Proof.
  intros Hf product audience platform Hp.
  destruct (call_text_run E (campaign_prompt product audience platform) st)
    as [txt [st1 Hc]].
  exists txt, st1. split; [exact Hc|].
  unfold generate_campaign. rewrite !(form_get_ok rq f _ _ Hf).
  repeat (rewrite bind_ret; cbv beta zeta).
  fold product audience platform. rewrite Hp. cbn [negb].
  now apply tail_effect.
Qed.

(** X5: when the form can be read (and, for pitch and campaign, the product
    is not blank) and the store accepts the write, a pitch, lead-score or
    campaign request adds exactly one recommendation row: it carries the
    caller's user id (NULL when anonymous), no profile id, the kind of the
    handler, and as [ai_response] the very text returned to the caller.  The
    lead-score handler has no required field: it always reaches the
    completion, with its defaults for missing fields. *)
Theorem text_request_recorded (E : env) (rq : request)
    (f : list (string * string)) (st : state) :
  form rq = inr f ->
  store_fault E AiRecommendations = None ->
  (let product := Py.strip (dict_get f "product" "") in
   let customer := Py.strip (dict_get f "customer" "") in
   product <> EmptyString ->
   exists txt st1,
     call_text E (pitch_prompt product customer) st = (Ok txt, st1) /\
     generate_pitch E rq st
     = (Ok (ok (JResult txt None)),
        with_rec E (session_user_id rq) None "pitch"
          [("product", PStr product); ("customer", PStr customer)] txt st1)) /\
  (let name := dict_get f "name" "Customer" in
   let budget := dict_get f "budget" "Not specified" in
   let need := dict_get f "need" "Not specified" in
   let urgency := dict_get f "urgency" "Not specified" in
   exists txt st1,
     call_text E (lead_prompt name budget need urgency) st = (Ok txt, st1) /\
     lead_score E rq st
     = (Ok (ok (JResult txt None)),
        with_rec E (session_user_id rq) None "lead_score"
          [("name", PStr name); ("budget", PStr budget); ("need", PStr need)]
          txt st1)) /\
  (let product := Py.strip (dict_get f "product" "") in
   let audience := Py.strip (dict_get f "audience" "") in
   let platform := Py.strip (dict_get f "platform" "Instagram") in
   product <> EmptyString ->
   exists txt st1,
     call_text E (campaign_prompt product audience platform) st
       = (Ok txt, st1) /\
     generate_campaign E rq st
     = (Ok (ok (JResult txt None)),
        with_rec E (session_user_id rq) None "campaign"
          [("product", PStr product); ("audience", PStr audience);
           ("platform", PStr platform)] txt st1)).
Proof.
  intros Hf Hs.
  assert (Ht : forall s, s <> EmptyString -> Py.truthy s = true)
    by (intros [|c s] H; [congruence|reflexivity]).
  split; [|split].
  - intros product customer Hp.
    destruct (generate_pitch_run E rq f st Hf (Ht _ Hp)) as [txt [st1 [Hc Hr]]].
    exists txt, st1. split; [exact Hc|].
    rewrite save_rec_cases, Hs in Hr. exact Hr.
  - intros name budget need urgency.
    destruct (lead_score_run E rq f st Hf) as [txt [st1 [Hc Hr]]].
    exists txt, st1. split; [exact Hc|].
    rewrite save_rec_cases, Hs in Hr. exact Hr.
  - intros product audience platform Hp.
    destruct (generate_campaign_run E rq f st Hf (Ht _ Hp))
      as [txt [st1 [Hc Hr]]].
    exists txt, st1. split; [exact Hc|].
    rewrite save_rec_cases, Hs in Hr. exact Hr.
Qed.

Lemma text_request_recorded_witness :
  ai_recommendations
    (snd (generate_pitch helpful_env (pitch_request (Some 7%Z) " silk scarf ")
                         empty_state))
  = [RecRow 1%Z (Some 7%Z) None "pitch"
            [("product", PStr "silk scarf"); ("customer", PStr "")]
            "Wear linen." 1700000000%Z].
Proof.
  destruct (proj1 (text_request_recorded helpful_env
                     (pitch_request (Some 7%Z) " silk scarf ")
                     [("product", " silk scarf ")] empty_state
                     eq_refl eq_refl) ltac:(discriminate))
    as [txt [st1 [Hc Hr]]].
  rewrite Hr. vm_compute in Hc. injection Hc as <- <-. reflexivity.
Defined.

(** *** Steps of [get_recommendation] and the store *)

Lemma call_text_store (E : env) (prompt : string) (st : state) :
  same_store st (snd (call_text E prompt st)) /\
  files (snd (call_text E prompt st)) = files st.
Proof.
  unfold call_text. destruct (negb (Py.truthy (GROQ_KEY E)));
    [split; [apply same_store_refl|reflexivity]|].
  unfold text_attempt, requests_post, do_raise_for_status, get_content.
  unfold_monad.
  destruct (http_post E (text_request E prompt)) as [e|r].
  - destruct (is_timeout e); split; try apply same_store_log; reflexivity.
  - destruct (raise_for_status r) as [e|].
    + destruct (is_timeout e); split; try apply same_store_log; reflexivity.
    + destruct (json_content r) as [e|c].
      * destruct (is_timeout e); split; try apply same_store_log; reflexivity.
      * split; [apply same_store_log|reflexivity].
Qed.

Lemma call_vision_store (E : env) (prompt img : string) (st : state) :
  same_store st (snd (call_vision E prompt img st)) /\
  files (snd (call_vision E prompt img st)) = files st.
Proof.
  unfold call_vision. destruct (negb (Py.truthy (GROQ_KEY E)));
    [split; [apply same_store_refl|reflexivity]|].
  unfold_monad.
  assert (H : same_store st (snd (vision_attempt E prompt img st)) /\
              files (snd (vision_attempt E prompt img st)) = files st).
  { unfold vision_attempt, read_file, requests_post, do_raise_for_status,
      get_content. unfold_monad.
    destruct (read_fault E img); [split; [apply same_store_refl|reflexivity]|].
    destruct (assoc img (files st));
      [|split; [apply same_store_refl|reflexivity]].
    match goal with |- context [http_post E ?q] =>
      destruct (http_post E q) as [e|r] end;
      [split; [apply same_store_log|reflexivity]|].
    destruct (raise_for_status r);
      [split; [apply same_store_log|reflexivity]|].
    destruct (json_content r); split; try apply same_store_log; reflexivity. }
  destruct (vision_attempt E prompt img st) as [[txt|e] st1]; [exact H|].
  cbn [snd] in H. destruct H as [H1 H2].
  destruct (call_text_store E prompt st1) as [G1 G2].
  split; [eapply same_store_trans; eassumption|congruence].
Qed.

Lemma completion_store (E : env) (has_photo : bool) (prompt path : string)
    (st : state) :
  exists txt st1,
    (if has_photo then call_vision E prompt path else call_text E prompt) st
    = (Ok txt, st1) /\ same_store st st1 /\ files st1 = files st.
Proof.
  destruct has_photo.
  - destruct (call_vision_run E prompt path st) as [txt [st1 H]].
    exists txt, st1. split; [exact H|].
    pose proof (call_vision_store E prompt path st) as Hp.
    now rewrite H in Hp.
  - destruct (call_text_run E prompt st) as [txt [st1 H]].
    exists txt, st1. split; [exact H|].
    pose proof (call_text_store E prompt st) as Hp.
    now rewrite H in Hp.
Qed.

(** The photo step when saving does not fail: the state it leaves. *)
Lemma photo_step_state (E : env) (ph : option upload) (st : state) :
  (usable_photo ph = true -> save_fault E (photo_path_of E ph) = None) ->
  photo_step E ph st
  = (Ok (photo_path_of E ph, usable_photo ph),
     match ph with
     | Some p => if usable_photo ph
                 then set_files st ((photo_path_of E ph, data p) :: files st)
                 else st
     | None => st
     end).
Proof.
  intros Hs. unfold photo_step, photo_path_of in *. destruct ph as [p|];
    [|reflexivity].
  destruct (usable_photo (Some p)) eqn:Hu; [|reflexivity].
  unfold save_file. unfold_monad. now rewrite (Hs eq_refl).
Qed.

Lemma get_recommendation_body_run (E : env) (rq : request)
    (f : list (string * string)) (st s2 s3 s4 : state)
    (pp : string * bool) (pid : option Z) (txt : string) :
  form rq = inr f ->
  let gender := dict_get f "gender" "Not specified" in
  let age := dict_get f "age" "25" in
  let size := dict_get f "size" "M" in
  let culture_style := dict_get f "culture_style" "Universal" in
  let dress_style := dict_get f "dress_style" "Casual" in
  photo_step E (photo rq) st = (Ok pp, s2) ->
  profile_step E (session_user_id rq) gender age size culture_style
               dress_style (fst pp) s2 = (Ok pid, s3) ->
  (if snd pp
   then call_vision E (outfit_prompt gender age size culture_style dress_style
                                     (snd pp)) (fst pp)
   else call_text E (outfit_prompt gender age size culture_style dress_style
                                   (snd pp))) s3 = (Ok txt, s4) ->
  get_recommendation_body E rq st
  = (Ok (ok (JResult txt (Some (snd pp)))),
     snd (save_rec E (session_user_id rq) pid "outfit"
            [("gender", PStr gender); ("age", PStr age); ("size", PStr size);
             ("style", PStr dress_style); ("photo", PBool (snd pp))] txt s4)).
Proof.
  intros Hf gender age size culture_style dress_style Hph Hpr Hc.
  unfold get_recommendation_body. rewrite !(form_get_ok rq f _ _ Hf).
  repeat (rewrite bind_ret; cbv beta zeta).
  unfold files_get_photo. rewrite Hf. rewrite bind_ret. cbv beta zeta.
  unfold bind at 1. rewrite Hph.
  unfold bind at 1. fold gender age size culture_style dress_style.
  rewrite Hpr. now apply tail_effect.
Qed.

Lemma get_recommendation_of_body (E : env) (rq : request) (st st' : state)
    (r : response) :
  get_recommendation_body E rq st = (Ok r, st') ->
  get_recommendation E rq st = (Ok r, st').
Proof. intros H. unfold get_recommendation. unfold_monad. now rewrite H. Qed.

(** The profile step: what it returns and leaves when it does not fail. *)
Lemma profile_step_state (E : env) (uid : option Z)
    (gender age size culture_style dress_style photo_path : string)
    (st : state) :
  (uid_truthy uid = true -> store_fault E FashionProfiles = None) ->
  profile_step E uid gender age size culture_style dress_style photo_path st
  = if uid_truthy uid
    then (Ok (Some (fashion_profiles_seq st + 1)%Z),
          set_fashion_profiles st
            (fashion_profiles st ++
               [ProfileRow (fashion_profiles_seq st + 1)%Z uid gender
                           (integer_affinity E age) size culture_style
                           dress_style photo_path (now E)])%list
            (fashion_profiles_seq st + 1)%Z)
    else (Ok None, st).
Proof.
  intros Hs. unfold profile_step. destruct (uid_truthy uid); [|reflexivity].
  unfold bind, insert_profile, ret. now rewrite (Hs eq_refl).
Qed.

(** The run of an outfit request whose steps do not fail. *)
Lemma get_recommendation_run (E : env) (rq : request)
    (f : list (string * string)) (st : state) :
  form rq = inr f ->
  (usable_photo (photo rq) = true ->
   save_fault E (photo_path_of E (photo rq)) = None) ->
  (uid_truthy (session_user_id rq) = true ->
   store_fault E FashionProfiles = None) ->
  store_fault E AiRecommendations = None ->
  let uid := session_user_id rq in
  let gender := dict_get f "gender" "Not specified" in
  let age := dict_get f "age" "25" in
  let size := dict_get f "size" "M" in
  let culture_style := dict_get f "culture_style" "Universal" in
  let dress_style := dict_get f "dress_style" "Casual" in
  let has_photo := usable_photo (photo rq) in
  let pid := (fashion_profiles_seq st + 1)%Z in
  exists txt st',
    get_recommendation E rq st
      = (Ok (ok (JResult txt (Some has_photo))), st') /\
    ai_recommendations st'
      = (ai_recommendations st ++
         [RecRow (ai_recommendations_seq st + 1)%Z uid
                 (if uid_truthy uid then Some pid else None) "outfit"
                 [("gender", PStr gender); ("age", PStr age);
                  ("size", PStr size); ("style", PStr dress_style);
                  ("photo", PBool has_photo)] txt (now E)])%list /\
    fashion_profiles st'
      = (if uid_truthy uid
         then (fashion_profiles st ++
               [ProfileRow pid uid gender (integer_affinity E age) size
                           culture_style dress_style
                           (photo_path_of E (photo rq)) (now E)])%list
         else fashion_profiles st) /\
    users st' = users st.
Proof.
  intros Hf Hsave Hprof Hrec uid gender age size culture_style dress_style
         has_photo pid.
  pose proof (photo_step_state E (photo rq) st Hsave) as Hph.
  set (s2 := match photo rq with
             | Some p => if usable_photo (photo rq)
                         then set_files st ((photo_path_of E (photo rq), data p)
                                            :: files st)
                         else st
             | None => st
             end) in Hph.
  assert (Hs2 : same_store st s2).
  { unfold s2. destruct (photo rq); [|apply same_store_refl].
    destruct (usable_photo _); [repeat split|apply same_store_refl]. }
  pose proof (profile_step_state E uid gender age size culture_style
                dress_style (photo_path_of E (photo rq)) s2 Hprof) as Hpr.
  destruct Hs2 as (U1 & U2 & P1 & P2 & R1 & R2).
  destruct (uid_truthy uid) eqn:Hu.
  - match type of Hpr with _ = (_, ?s) => set (s3 := s) in Hpr end.
    destruct (completion_store E has_photo
                (outfit_prompt gender age size culture_style dress_style
                               has_photo)
                (photo_path_of E (photo rq)) s3)
      as [txt [s4 [Hc [(V1 & V2 & Q1 & Q2 & T1 & T2) _]]]].
    pose proof (get_recommendation_body_run E rq f st s2 s3 s4 _ _ txt Hf
                  Hph Hpr Hc) as Hb.
    apply get_recommendation_of_body in Hb.
    rewrite save_rec_cases, Hrec in Hb. cbn [snd fst] in Hb.
    eexists; eexists. split; [exact Hb|].
    unfold with_rec. cbn [ai_recommendations fashion_profiles users
                          set_ai_recommendations].
    rewrite T1, T2, Q1, V1. unfold s3.
    cbn [ai_recommendations ai_recommendations_seq fashion_profiles users
         set_fashion_profiles].
    unfold pid. rewrite R1, R2, P1, P2, U1. repeat split; reflexivity.
  - destruct (completion_store E has_photo
                (outfit_prompt gender age size culture_style dress_style
                               has_photo)
                (photo_path_of E (photo rq)) s2)
      as [txt [s4 [Hc [(V1 & V2 & Q1 & Q2 & T1 & T2) _]]]].
    pose proof (get_recommendation_body_run E rq f st s2 s2 s4 _ _ txt Hf
                  Hph Hpr Hc) as Hb.
    apply get_recommendation_of_body in Hb.
    rewrite save_rec_cases, Hrec in Hb. cbn [snd fst] in Hb.
    eexists; eexists. split; [exact Hb|].
    unfold with_rec. cbn [ai_recommendations fashion_profiles users
                          set_ai_recommendations].
    rewrite T1, T2, Q1, V1, R1, R2, P1, U1. repeat split; reflexivity.
Qed.




(** *** The uploaded image and the vision request *)

Lemma call_vision_log (E : env) (prompt img bytes : string) (st : state) :
  Py.truthy (GROQ_KEY E) = true ->
  read_fault E img = None -> assoc img (files st) = Some bytes ->
  let vr := vision_request E prompt
              (mime_of (Py.lower (last (Py.rsplit1 "." img) EmptyString)))
              (b64encode E bytes) in
  exists tail,
    http_log (snd (call_vision E prompt img st))
      = (http_log st ++ vr :: tail)%list /\
    (tail = nil \/ tail = [text_request E prompt]).
Proof.
  intros Hk Hrf Hf vr. unfold call_vision. rewrite Hk. cbn [negb].
  unfold_monad.
  pose proof (vision_attempt_cases E prompt img st bytes Hrf Hf) as Hc.
  cbv zeta in Hc. fold vr in Hc. rewrite Hc.
  assert (Hfall : http_log (snd (call_text E prompt
                    (set_http_log st (http_log st ++ [vr])%list)))
                  = (http_log st ++ [vr; text_request E prompt])%list).
  { rewrite (call_text_cases E prompt _ Hk). cbn [snd http_log set_http_log].
    rewrite <- app_assoc. reflexivity. }
  destruct (http_post E vr) as [e|r].
  { exists [text_request E prompt]. split; [exact Hfall|now right]. }
  destruct (raise_for_status r).
  { exists [text_request E prompt]. split; [exact Hfall|now right]. }
  destruct (json_content r).
  { exists [text_request E prompt]. split; [exact Hfall|now right]. }
  exists nil. split; [reflexivity|now left].
Qed.

Lemma save_rec_keeps_log (E : env) (uid pid : option Z) (rtype : string)
    (idata : list (string * pyval)) (resp : string) (st : state) :
  http_log (snd (save_rec E uid pid rtype idata resp st)) = http_log st /\
  files (snd (save_rec E uid pid rtype idata resp st)) = files st.
Proof.
  rewrite save_rec_cases. cbn [snd].
  destruct (store_fault E AiRecommendations); split; reflexivity.
Qed.

(** X7: when an outfit request comes with an accepted photo and neither
    saving nor reading the file nor the profile step fails, the file is
    stored under the upload folder with the uploaded bytes, and the first
    call made is the vision request carrying exactly those bytes (encoded)
    with the MIME type of the stored path; it is followed by at most one text
    request, the fallback. *)
Theorem uploaded_image_reaches_vision (E : env) (rq : request)
    (f : list (string * string)) (p : upload) (st : state) :
  form rq = inr f -> photo rq = Some p -> ok_file (filename p) = true ->
  let path := path_join E (UPLOAD_FOLDER E) (secure_filename E (filename p)) in
  save_fault E path = None -> read_fault E path = None ->
  (uid_truthy (session_user_id rq) = true ->
   store_fault E FashionProfiles = None) ->
  Py.truthy (GROQ_KEY E) = true ->
  let prompt := outfit_prompt (dict_get f "gender" "Not specified")
                  (dict_get f "age" "25") (dict_get f "size" "M")
                  (dict_get f "culture_style" "Universal")
                  (dict_get f "dress_style" "Casual") true in
  let vr := vision_request E prompt
              (mime_of (Py.lower (last (Py.rsplit1 "." path) EmptyString)))
              (b64encode E (data p)) in
  exists tail,
    http_log (snd (get_recommendation E rq st))
      = (http_log st ++ vr :: tail)%list /\
    (tail = nil \/ tail = [text_request E prompt]) /\
    files (snd (get_recommendation E rq st)) = (path, data p) :: files st.
Proof.
  intros Hf Hp Hok path Hsave Hread Hprof Hk prompt vr.
  assert (Hu : usable_photo (photo rq) = true)
    by (rewrite Hp, usable_photo_ok_file; exact Hok).
  assert (Hpath : photo_path_of E (photo rq) = path).
  { unfold photo_path_of. rewrite Hu, Hp. reflexivity. }
  assert (Hsave' : usable_photo (photo rq) = true ->
                   save_fault E (photo_path_of E (photo rq)) = None)
    by (intros _; now rewrite Hpath).
  pose proof (photo_step_state E (photo rq) st Hsave') as Hph.
  rewrite Hu, Hpath in Hph. rewrite Hp in Hph at 2.
  set (s2 := set_files st ((path, data p) :: files st)) in Hph.
  pose proof (profile_step_state E (session_user_id rq)
                (dict_get f "gender" "Not specified") (dict_get f "age" "25")
                (dict_get f "size" "M")
                (dict_get f "culture_style" "Universal")
                (dict_get f "dress_style" "Casual") path s2 Hprof) as Hpr.
  assert (Hs3 : exists pid s3,
            profile_step E (session_user_id rq)
              (dict_get f "gender" "Not specified") (dict_get f "age" "25")
              (dict_get f "size" "M") (dict_get f "culture_style" "Universal")
              (dict_get f "dress_style" "Casual") path s2 = (Ok pid, s3) /\
            files s3 = (path, data p) :: files st /\
            http_log s3 = http_log st).
  { rewrite Hpr. destruct (uid_truthy (session_user_id rq));
      eexists; eexists; (split; [reflexivity|split; reflexivity]). }
  destruct Hs3 as [pid [s3 [Hpr' [Hfiles Hlog]]]].
  assert (Hassoc : assoc path (files s3) = Some (data p)).
  { rewrite Hfiles. cbn [assoc]. now rewrite String.eqb_refl. }
  destruct (call_vision_run E prompt path s3) as [txt [s4 Hc]].
  pose proof (call_vision_log E prompt path (data p) s3 Hk Hread Hassoc)
    as [tail [Hl Ht]].
  pose proof (call_vision_store E prompt path s3) as [_ Hfs].
  rewrite Hc in Hl, Hfs. cbn [snd] in Hl, Hfs.
  pose proof (get_recommendation_body_run E rq f st s2 s3 s4 (path, true)
                pid txt Hf Hph Hpr' Hc) as Hb.
  apply get_recommendation_of_body in Hb. rewrite Hb. cbn [snd fst].
  destruct (save_rec_keeps_log E (session_user_id rq) pid "outfit"
              [("gender", PStr (dict_get f "gender" "Not specified"));
               ("age", PStr (dict_get f "age" "25"));
               ("size", PStr (dict_get f "size" "M"));
               ("style", PStr (dict_get f "dress_style" "Casual"));
               ("photo", PBool true)] txt s4) as [G1 G2].
  exists tail. rewrite G1, G2, Hl, Hfs, Hlog, Hfiles.
  split; [reflexivity|]. split; [exact Ht|reflexivity].
Qed.

Lemma uploaded_image_reaches_vision_witness :
  exists tail,
    http_log (snd (get_recommendation helpful_env photo_request empty_state))
    = vision_request helpful_env
        (outfit_prompt "Female" "28" "M" "Western" "Formal" true)
        "image/png" "PNGDATA" :: tail.
Proof.
  destruct (uploaded_image_reaches_vision helpful_env photo_request
              outfit_form (Upload "me.png" "PNGDATA") empty_state
              eq_refl eq_refl eq_refl eq_refl eq_refl
              ltac:(intros H; discriminate H) eq_refl) as [tail [H _]].
  exists tail. exact H.
Defined.

(** *** Persistence is best effort *)

Lemma get_recommendation_body_form_raises (E : env) (rq : request)
    (st : state) (e : exn) :
  form rq = inl e -> get_recommendation_body E rq st = (Raise e, st).
Proof.
  intros Hf. unfold get_recommendation_body.
  now rewrite (form_get_raises rq e _ _ Hf), bind_raise.
Qed.

Lemma get_recommendation_body_photo_raises (E : env) (rq : request)
    (f : list (string * string)) (st s2 : state) (e : exn) :
  form rq = inr f -> photo_step E (photo rq) st = (Raise e, s2) ->
  get_recommendation_body E rq st = (Raise e, s2).
Proof.
  intros Hf Hph. unfold get_recommendation_body.
  rewrite !(form_get_ok rq f _ _ Hf).
  repeat (rewrite bind_ret; cbv beta zeta).
  unfold files_get_photo. rewrite Hf. rewrite bind_ret. cbv beta zeta.
  unfold bind at 1. now rewrite Hph.
Qed.

Lemma get_recommendation_body_profile_raises (E : env) (rq : request)
    (f : list (string * string)) (st s2 s3 : state) (pp : string * bool)
    (e : exn) :
  form rq = inr f -> photo_step E (photo rq) st = (Ok pp, s2) ->
  profile_step E (session_user_id rq) (dict_get f "gender" "Not specified")
    (dict_get f "age" "25") (dict_get f "size" "M")
    (dict_get f "culture_style" "Universal") (dict_get f "dress_style" "Casual")
    (fst pp) s2 = (Raise e, s3) ->
  get_recommendation_body E rq st = (Raise e, s3).
Proof.
  intros Hf Hph Hpr. unfold get_recommendation_body.
  rewrite !(form_get_ok rq f _ _ Hf).
  repeat (rewrite bind_ret; cbv beta zeta).
  unfold files_get_photo. rewrite Hf. rewrite bind_ret. cbv beta zeta.
  unfold bind at 1. rewrite Hph. unfold bind at 1. now rewrite Hpr.
Qed.

Lemma get_recommendation_fst (E : env) (rq : request) (st : state) :
  fst (get_recommendation E rq st)
  = match fst (get_recommendation_body E rq st) with
    | Ok r => Ok r
    | Raise e =>
        Ok (ok (JResult ("Error: " ++ exn_str e ++ ". Please try again.") None))
    end.
Proof.
  unfold get_recommendation. unfold_monad.
  destruct (get_recommendation_body E rq st) as [[r|e] st1]; reflexivity.
Qed.

(** X8: whether the insertion into ai_recommendations succeeds or fails has
    no influence on what the caller receives: each of the four generation
    handlers returns the same response under any outcome of that write (for
    the outfit handler, the outcome of the profile insertion being the
    same). *)
Theorem persistence_failure_is_silent (E : env) (g : table -> option exn)
    (rq : request) (st : state) :
  fst (generate_pitch (with_store_fault E g) rq st)
    = fst (generate_pitch E rq st) /\
  fst (lead_score (with_store_fault E g) rq st) = fst (lead_score E rq st) /\
  fst (generate_campaign (with_store_fault E g) rq st)
    = fst (generate_campaign E rq st) /\
  (g FashionProfiles = store_fault E FashionProfiles ->
   fst (get_recommendation (with_store_fault E g) rq st)
     = fst (get_recommendation E rq st)).
Proof.
  set (E' := with_store_fault E g).
  assert (Htext : forall p s, call_text E' p s = call_text E p s)
    by reflexivity.
  assert (Hvision : forall p i s, call_vision E' p i s = call_vision E p i s)
    by reflexivity.
  split; [|split; [|split]].
  - destruct (form rq) as [e|f] eqn:Hf.
    + unfold generate_pitch.
      now rewrite !(form_get_raises rq e _ _ Hf), !bind_raise.
    + destruct (Py.truthy (Py.strip (dict_get f "product" ""))) eqn:Hp.
      * destruct (generate_pitch_run E' rq f st Hf Hp) as [t' [s' [Hc' Hr']]].
        destruct (generate_pitch_run E rq f st Hf Hp) as [t [s [Hc Hr]]].
        rewrite Htext, Hc in Hc'. injection Hc' as <- <-.
        now rewrite Hr, Hr'.
      * unfold generate_pitch. rewrite !(form_get_ok rq f _ _ Hf).
        repeat (rewrite bind_ret; cbv beta zeta). now rewrite Hp.
  - destruct (form rq) as [e|f] eqn:Hf.
    + unfold lead_score.
      now rewrite !(form_get_raises rq e _ _ Hf), !bind_raise.
    + destruct (lead_score_run E' rq f st Hf) as [t' [s' [Hc' Hr']]].
      destruct (lead_score_run E rq f st Hf) as [t [s [Hc Hr]]].
      rewrite Htext, Hc in Hc'. injection Hc' as <- <-.
      now rewrite Hr, Hr'.
  - destruct (form rq) as [e|f] eqn:Hf.
    + unfold generate_campaign.
      now rewrite !(form_get_raises rq e _ _ Hf), !bind_raise.
    + destruct (Py.truthy (Py.strip (dict_get f "product" ""))) eqn:Hp.
      * destruct (generate_campaign_run E' rq f st Hf Hp)
          as [t' [s' [Hc' Hr']]].
        destruct (generate_campaign_run E rq f st Hf Hp) as [t [s [Hc Hr]]].
        rewrite Htext, Hc in Hc'. injection Hc' as <- <-.
        now rewrite Hr, Hr'.
      * unfold generate_campaign. rewrite !(form_get_ok rq f _ _ Hf).
        repeat (rewrite bind_ret; cbv beta zeta). now rewrite Hp.
  - intros Hg. rewrite !get_recommendation_fst.
    assert (Hbody : fst (get_recommendation_body E' rq st)
                    = fst (get_recommendation_body E rq st)).
    { destruct (form rq) as [e|f] eqn:Hf.
      - now rewrite !(get_recommendation_body_form_raises _ rq st e Hf).
      - assert (Hph' : photo_step E' (photo rq) st = photo_step E (photo rq) st)
          by reflexivity.
        destruct (photo_step E (photo rq) st) as [[pp|e] s2] eqn:Hph.
        + assert (Hpr' : forall a b c d h,
                    profile_step E' (session_user_id rq) a b c d h (fst pp) s2
                    = profile_step E (session_user_id rq) a b c d h (fst pp) s2).
          { intros. unfold profile_step, insert_profile, bind.
            destruct (uid_truthy (session_user_id rq)); [|reflexivity].
            change (store_fault E' FashionProfiles) with (g FashionProfiles).
            now rewrite Hg. }
          destruct (profile_step E (session_user_id rq)
                      (dict_get f "gender" "Not specified")
                      (dict_get f "age" "25") (dict_get f "size" "M")
                      (dict_get f "culture_style" "Universal")
                      (dict_get f "dress_style" "Casual") (fst pp) s2)
            as [[pid|e] s3] eqn:Hpr.
          * destruct (completion_store E (snd pp)
                        (outfit_prompt (dict_get f "gender" "Not specified")
                           (dict_get f "age" "25") (dict_get f "size" "M")
                           (dict_get f "culture_style" "Universal")
                           (dict_get f "dress_style" "Casual") (snd pp))
                        (fst pp) s3) as [txt [s4 [Hc _]]].
            rewrite (get_recommendation_body_run E rq f st s2 s3 s4 pp pid txt
                       Hf Hph Hpr Hc).
            rewrite <- Hpr' in Hpr.
            rewrite (get_recommendation_body_run E' rq f st s2 s3 s4 pp pid txt
                       Hf Hph' Hpr).
            { reflexivity. }
            destruct (snd pp); [rewrite Hvision|rewrite Htext]; exact Hc.
          * rewrite (get_recommendation_body_profile_raises E rq f st s2 s3 pp e
                       Hf Hph Hpr).
            rewrite <- Hpr' in Hpr.
            now rewrite (get_recommendation_body_profile_raises E' rq f st s2 s3
                           pp e Hf Hph' Hpr).
        + rewrite (get_recommendation_body_photo_raises E rq f st s2 e Hf Hph).
          now rewrite (get_recommendation_body_photo_raises E' rq f st s2 e Hf
                         Hph'). }
    now rewrite Hbody.
Qed.

Lemma persistence_failure_is_silent_witness :
  fst (get_recommendation
         (with_store_fault helpful_env
            (fun t => match t with
                      | AiRecommendations =>
                          Some (Exn OtherError "database is locked")
                      | FashionProfiles => None
                      end))
         member_outfit_request empty_state)
  = fst (get_recommendation helpful_env member_outfit_request empty_state).
Proof.
  refine (proj2 (proj2 (proj2 (persistence_failure_is_silent helpful_env _
                                 member_outfit_request empty_state))) eq_refl).
Defined.

(** *** A stored recommendation in the history *)

Lemma order_app_newest (l : list rec_row) (x : rec_row) :
  Forall (fun r => (rec_created_at r < rec_created_at x)%Z) l ->
  order_by_created_at_desc (l ++ [x]) = x :: order_by_created_at_desc l.
Proof.
  induction 1 as [|y l Hy _ IH]; [reflexivity|].
  cbn [app order_by_created_at_desc]. rewrite IH. cbn [insert_desc].
  destruct (rec_created_at x <=? rec_created_at y)%Z eqn:Hc; [|reflexivity].
  apply Z.leb_le in Hc. lia.
Qed.

(** The history of user [u] right after one more row of [u], when that row
    is more recent than the rows [u] had. *)
Lemma history_after_with_rec (E : env) (u : Z) (pid : option Z)
    (rtype : string) (idata : list (string * pyval)) (txt : string)
    (rq : request) (st : state) :
  session_user_id rq = Some u -> u <> 0%Z ->
  Forall (fun r => rec_user_id r = Some u -> (rec_created_at r < now E)%Z)
         (ai_recommendations st) ->
  exists rest,
    fst (api_history rq (with_rec E (Some u) pid rtype idata txt st))
    = Ok (ok (JHistory
                (HistoryItem (ai_recommendations_seq st + 1)%Z rtype idata txt
                             (now E) :: rest))).
Proof.
  intros Hs Hu Hold. unfold api_history. rewrite Hs. cbn [uid_truthy].
  apply Z.eqb_neq in Hu. rewrite Hu. cbn [negb fst].
  unfold select_recommendations, limit_rows, with_rec.
  cbn [ai_recommendations set_ai_recommendations].
  rewrite filter_app. cbn [filter owned_by rec_user_id]. rewrite Z.eqb_refl.
  rewrite order_app_newest.
  - change (20 <? 0)%Z with false. cbv iota.
    change (Z.to_nat 20) with 20. cbn [firstn map item_of_row].
    eexists. reflexivity.
  - rewrite Forall_forall in Hold |- *. intros r Hr.
    apply filter_In in Hr as [Hin Ho]. cbn [rec_created_at].
    apply Hold; [exact Hin|]. unfold owned_by in Ho.
    destruct (rec_user_id r) as [v|]; [|discriminate].
    apply Z.eqb_eq in Ho. now subst.
Qed.

(** The recommendations and their counter agree. *)
Lemma same_recs_of_store (st st1 : state) :
  same_store st st1 ->
  ai_recommendations st1 = ai_recommendations st /\
  ai_recommendations_seq st1 = ai_recommendations_seq st.
Proof. intros (_ & _ & _ & _ & H1 & H2). now split. Qed.

(** X9: a signed-in caller finds the recommendation just produced at the head
    of the history: after a pitch, lead-score, campaign or outfit request
    that reached the completion and whose row was stored, the history
    endpoint called with the same session returns first an item of the
    handler's kind whose [ai_response] is the text the caller received,
    provided the rows the user already had are older than the new one. *)
Theorem new_recommendation_heads_history (E : env) (rq : request)
    (f : list (string * string)) (u : Z) (st : state) :
  form rq = inr f -> session_user_id rq = Some u -> u <> 0%Z ->
  store_fault E AiRecommendations = None ->
  Forall (fun r => rec_user_id r = Some u -> (rec_created_at r < now E)%Z)
         (ai_recommendations st) ->
  let first_item kind txt st' :=
    exists item rest,
      fst (api_history rq st') = Ok (ok (JHistory (item :: rest))) /\
      h_request_type item = kind /\ h_ai_response item = txt /\
      h_id item = (ai_recommendations_seq st + 1)%Z /\
      h_created_at item = now E in
  (Py.strip (dict_get f "product" "") <> EmptyString ->
   (exists txt, fst (generate_pitch E rq st) = Ok (ok (JResult txt None)) /\
                first_item "pitch" txt (snd (generate_pitch E rq st))) /\
   (exists txt, fst (generate_campaign E rq st) = Ok (ok (JResult txt None)) /\
                first_item "campaign" txt (snd (generate_campaign E rq st)))) /\
  (exists txt, fst (lead_score E rq st) = Ok (ok (JResult txt None)) /\
               first_item "lead_score" txt (snd (lead_score E rq st))) /\
  (store_fault E FashionProfiles = None ->
   (usable_photo (photo rq) = true ->
    save_fault E (photo_path_of E (photo rq)) = None) ->
   exists txt flag,
     fst (get_recommendation E rq st) = Ok (ok (JResult txt flag)) /\
     first_item "outfit" txt (snd (get_recommendation E rq st))).
Proof.
  intros Hf Hs Hu Hrec Hold first_item.
  assert (Ht : forall s, s <> EmptyString -> Py.truthy s = true)
    by (intros [|c s] H; [congruence|reflexivity]).
  assert (Hgen : forall kind pid idata txt st1,
            ai_recommendations st1 = ai_recommendations st /\
            ai_recommendations_seq st1 = ai_recommendations_seq st ->
            first_item kind txt (with_rec E (Some u) pid kind idata txt st1)).
  { intros kind pid idata txt st1 [Hrows Hseq].
    assert (Hold1 : Forall (fun r => rec_user_id r = Some u ->
                                     (rec_created_at r < now E)%Z)
                           (ai_recommendations st1)) by now rewrite Hrows.
    destruct (history_after_with_rec E u pid kind idata txt rq st1 Hs Hu Hold1)
      as [rest Hh].
    eexists; exists rest. split; [exact Hh|]. rewrite Hseq.
    repeat split; reflexivity. }
  split; [|split].
  - intros Hp. split.
    + destruct (generate_pitch_run E rq f st Hf (Ht _ Hp)) as [txt [s1 [Hc Hr]]].
      rewrite save_rec_cases, Hrec, Hs in Hr. cbn [snd] in Hr.
      exists txt. rewrite Hr. split; [reflexivity|]. cbn [snd]. apply Hgen.
      match type of Hc with call_text _ ?p _ = _ =>
        pose proof (call_text_store E p st) as [Hst _] end.
      rewrite Hc in Hst. now apply same_recs_of_store.
    + destruct (generate_campaign_run E rq f st Hf (Ht _ Hp))
        as [txt [s1 [Hc Hr]]].
      rewrite save_rec_cases, Hrec, Hs in Hr. cbn [snd] in Hr.
      exists txt. rewrite Hr. split; [reflexivity|]. cbn [snd]. apply Hgen.
      match type of Hc with call_text _ ?p _ = _ =>
        pose proof (call_text_store E p st) as [Hst _] end.
      rewrite Hc in Hst. now apply same_recs_of_store.
  - destruct (lead_score_run E rq f st Hf) as [txt [s1 [Hc Hr]]].
    rewrite save_rec_cases, Hrec, Hs in Hr. cbn [snd] in Hr.
    exists txt. rewrite Hr. split; [reflexivity|]. cbn [snd]. apply Hgen.
    match type of Hc with call_text _ ?p _ = _ =>
      pose proof (call_text_store E p st) as [Hst _] end.
    rewrite Hc in Hst. now apply same_recs_of_store.
  - intros Hprof Hsave.
    pose proof (photo_step_state E (photo rq) st Hsave) as Hph.
    match type of Hph with _ = (_, ?s) => set (s2 := s) in Hph end.
    assert (Hs2 : same_store st s2).
    { unfold s2. destruct (photo rq); [|apply same_store_refl].
      destruct (usable_photo _); [repeat split|apply same_store_refl]. }
    pose proof (profile_step_state E (session_user_id rq)
                  (dict_get f "gender" "Not specified") (dict_get f "age" "25")
                  (dict_get f "size" "M")
                  (dict_get f "culture_style" "Universal")
                  (dict_get f "dress_style" "Casual")
                  (photo_path_of E (photo rq)) s2 (fun _ => Hprof)) as Hpr.
    assert (Hs3 : exists pid s3,
              profile_step E (session_user_id rq)
                (dict_get f "gender" "Not specified") (dict_get f "age" "25")
                (dict_get f "size" "M")
                (dict_get f "culture_style" "Universal")
                (dict_get f "dress_style" "Casual")
                (photo_path_of E (photo rq)) s2 = (Ok pid, s3) /\
              ai_recommendations s3 = ai_recommendations st /\
              ai_recommendations_seq s3 = ai_recommendations_seq st).
    { rewrite Hpr. apply same_recs_of_store in Hs2.
      destruct (uid_truthy (session_user_id rq));
        eexists; eexists; (split; [reflexivity|exact Hs2]). }
    destruct Hs3 as [pid [s3 [Hpr' Hs3]]].
    destruct (completion_store E (usable_photo (photo rq))
                (outfit_prompt (dict_get f "gender" "Not specified")
                   (dict_get f "age" "25") (dict_get f "size" "M")
                   (dict_get f "culture_style" "Universal")
                   (dict_get f "dress_style" "Casual")
                   (usable_photo (photo rq)))
                (photo_path_of E (photo rq)) s3) as [txt [s4 [Hc [Hs4 _]]]].
    pose proof (get_recommendation_body_run E rq f st s2 s3 s4 _ pid txt Hf
                  Hph Hpr' Hc) as Hb.
    apply get_recommendation_of_body in Hb.
    rewrite save_rec_cases, Hrec, Hs in Hb. cbn [snd fst] in Hb.
    exists txt, (Some (usable_photo (photo rq))). rewrite Hb.
    split; [reflexivity|]. cbn [snd]. apply Hgen.
    apply same_recs_of_store in Hs4. destruct Hs4 as [A1 A2].
    destruct Hs3 as [B1 B2]. split; congruence.
Qed.

Lemma new_recommendation_heads_history_witness :
  exists item rest,
    fst (api_history (pitch_request (Some 7%Z) "silk scarf")
           (snd (generate_pitch helpful_env
                   (pitch_request (Some 7%Z) "silk scarf")
                   state_with_history)))
    = Ok (ok (JHistory (item :: rest))) /\
    h_request_type item = "pitch" /\ h_id item = 5%Z.
Proof.
  assert (Hold : Forall (fun r => rec_user_id r = Some 7%Z ->
                                  (rec_created_at r < now helpful_env)%Z)
                        (ai_recommendations state_with_history)).
  { repeat constructor; intros _; reflexivity. }
  destruct (proj1 (proj1 (new_recommendation_heads_history helpful_env
                            (pitch_request (Some 7%Z) "silk scarf")
                            [("product", "silk scarf")] 7%Z state_with_history
                            eq_refl eq_refl ltac:(discriminate) eq_refl Hold)
                     ltac:(discriminate)))
    as [txt [_ [item [rest [H1 [H2 [_ [H3 _]]]]]]]].
  exists item, rest. split; [exact H1|]. split; [exact H2|exact H3].
Defined.

(** ** Accounts: signup, login and the current user *)

Lemma truthy_nonempty (s : string) : Py.truthy s = true <-> s <> EmptyString.
Proof. destruct s; simpl; split; congruence. Qed.

Lemma existsb_collision (c : option string) (col : user_row -> option string)
    (us : list user_row) :
  existsb (fun u => collide c (col u)) us = false ->
  Forall (fun u => collide c (col u) = false) us.
Proof.
  induction us as [|u us IH]; simpl; [constructor|].
  intros H. apply orb_false_iff in H as [H1 H2]. constructor; auto.
Qed.

Lemma signup_no_contact (E : env) (rq : request) (st : state) :
  signup_phone rq = EmptyString -> signup_email rq = EmptyString ->
  signup E rq st
  = (Ok (Response 400%Z (JFailure "Phone or email required"), None), st).
Proof.
  intros Hp He. unfold signup.
  fold (signup_name rq) (signup_phone rq) (signup_email rq)
       (signup_password rq).
  rewrite Hp, He. reflexivity.
Qed.

Lemma signup_no_password (E : env) (rq : request) (st : state) :
  signup_phone rq <> EmptyString \/ signup_email rq <> EmptyString ->
  signup_password rq = EmptyString ->
  signup E rq st
  = (Ok (Response 400%Z (JFailure "Password required"), None), st).
Proof.
  intros Hc Hw. unfold signup.
  fold (signup_name rq) (signup_phone rq) (signup_email rq)
       (signup_password rq).
  rewrite Hw. unfold Py.str_or.
  destruct (signup_phone rq); [|reflexivity].
  destruct (signup_email rq); [destruct Hc; congruence|reflexivity].
Qed.

(** The four ways a signup ends. *)
Lemma signup_cases (E : env) (rq : request) (st : state) :
  (signup_phone rq = EmptyString /\ signup_email rq = EmptyString /\
   signup E rq st
   = (Ok (Response 400%Z (JFailure "Phone or email required"), None), st)) \/
  ((signup_phone rq <> EmptyString \/ signup_email rq <> EmptyString) /\
   signup_password rq = EmptyString /\
   signup E rq st
   = (Ok (Response 400%Z (JFailure "Password required"), None), st)) \/
  ((signup_phone rq <> EmptyString \/ signup_email rq <> EmptyString) /\
   signup_password rq <> EmptyString /\
   (exists u, In u (users st) /\
      (collide (or_none (signup_phone rq)) (user_phone u) = true \/
       collide (or_none (signup_email rq)) (user_email u) = true)) /\
   signup E rq st
   = (Ok (Response 400%Z (JFailure "Phone/email already registered"), None),
      st)) \/
  ((signup_phone rq <> EmptyString \/ signup_email rq <> EmptyString) /\
   signup_password rq <> EmptyString /\ unregistered st rq /\
   signup E rq st
   = (welcome (users_seq st) rq,
      set_users st (users st ++ [row_of E (users_seq st) rq])%list
                (users_seq st + 1)%Z)).
Proof.
  assert (Hdec : (signup_phone rq = EmptyString /\
                  signup_email rq = EmptyString) \/
                 (signup_phone rq <> EmptyString \/
                  signup_email rq <> EmptyString)).
  { destruct (string_dec (signup_phone rq) EmptyString);
      destruct (string_dec (signup_email rq) EmptyString); auto. }
  destruct Hdec as [[Hp He]|Hc].
  { left. split; [exact Hp|]. split; [exact He|].
    now apply signup_no_contact. }
  destruct (string_dec (signup_password rq) EmptyString) as [Hw|Hpw].
  { right; left. split; [exact Hc|]. split; [exact Hw|].
    now apply signup_no_password. }
  destruct (existsb (fun u => collide (or_none (signup_phone rq))
                                      (user_phone u)) (users st)) eqn:H1.
  { right; right; left. apply existsb_exists in H1 as [u [Hin Hu]].
    assert (Hex : exists u, In u (users st) /\
              (collide (or_none (signup_phone rq)) (user_phone u) = true \/
               collide (or_none (signup_email rq)) (user_email u) = true))
      by (exists u; split; [exact Hin|now left]).
    split; [exact Hc|]. split; [exact Hpw|]. split; [exact Hex|].
    now apply signup_conflict. }
  destruct (existsb (fun u => collide (or_none (signup_email rq))
                                      (user_email u)) (users st)) eqn:H2.
  { right; right; left. apply existsb_exists in H2 as [u [Hin Hu]].
    assert (Hex : exists u, In u (users st) /\
              (collide (or_none (signup_phone rq)) (user_phone u) = true \/
               collide (or_none (signup_email rq)) (user_email u) = true))
      by (exists u; split; [exact Hin|now right]).
    split; [exact Hc|]. split; [exact Hpw|]. split; [exact Hex|].
    now apply signup_conflict. }
  right; right; right.
  assert (Hun : unregistered st rq).
  { unfold unregistered. apply existsb_collision in H1, H2.
    rewrite Forall_forall in H1, H2 |- *. intros u Hu. split; auto. }
  split; [exact Hc|]. split; [exact Hpw|]. split; [exact Hun|].
  now apply signup_creates.
Qed.


(** *** The users table under signup *)

Lemma NoDup_snoc {A : Type} (l : list A) (x : A) :
  NoDup l -> ~ In x l -> NoDup (l ++ [x]).
Proof.
  induction 1 as [|y l Hy Hl IH]; intros Hx; simpl.
  - constructor; [intros []|constructor].
  - constructor.
    + intros Hin. apply in_app_or in Hin as [Hin|[->|[]]]; [now apply Hy|].
      apply Hx. now left.
    + apply IH. intros Hin. apply Hx. now right.
Qed.

Lemma present_app (a b : list (option string)) :
  present (a ++ b) = (present a ++ present b)%list.
Proof.
  induction a as [|[x|] a IH]; simpl; [reflexivity| |exact IH].
  now rewrite IH.
Qed.

Lemma in_present (col : user_row -> option string) (us : list user_row)
    (x : string) :
  In x (present (map col us)) -> exists u, In u us /\ col u = Some x.
Proof.
  induction us as [|u us IH]; simpl; [intros []|].
  destruct (col u) as [y|] eqn:Hc.
  - intros [->|H]; [exists u; split; [now left|exact Hc]|].
    destruct (IH H) as [v [Hv Hx]]. exists v. split; [now right|exact Hx].
  - intros H. destruct (IH H) as [v [Hv Hx]]. exists v.
    split; [now right|exact Hx].
Qed.

Lemma present_snoc_fresh (col : user_row -> option string)
    (us : list user_row) (c : option string) :
  NoDup (present (map col us)) ->
  Forall (fun u => collide c (col u) = false) us ->
  NoDup (present (map col us) ++ present [c]).
Proof.
  intros Hnd Hf. destruct c as [x|]; simpl; [|now rewrite app_nil_r].
  apply NoDup_snoc; [exact Hnd|]. intros Hin.
  apply in_present in Hin as [u [Hu Hx]]. rewrite Forall_forall in Hf.
  specialize (Hf u Hu). rewrite Hx in Hf. simpl in Hf.
  rewrite String.eqb_refl in Hf. discriminate.
Qed.

Lemma or_none_normal (s : string) : normal_contact (or_none (Py.strip s)).
Proof.
  unfold or_none. destruct (Py.truthy (Py.strip s)) eqn:Ht; [|exact I].
  simpl. split; [now apply truthy_nonempty|apply strip_idem].
Qed.

Lemma users_ok_empty (fs : list (string * string)) (log : list http_request) :
  users_ok (State nil 0%Z nil 0%Z nil 0%Z fs log).
Proof. constructor; simpl; try constructor; lia. Qed.

Lemma users_ok_same (st st' : state) :
  users st' = users st -> users_seq st' = users_seq st ->
  users_ok st -> users_ok st'.
Proof.
  intros Hu Hs [H1 H2 H3 H4 H5 H6].
  constructor; rewrite ?Hu, ?Hs; assumption.
Qed.

Lemma users_ok_created (E : env) (rq : request) (st : state) :
  users_ok st ->
  signup_phone rq <> EmptyString \/ signup_email rq <> EmptyString ->
  unregistered st rq ->
  users_ok (set_users st (users st ++ [row_of E (users_seq st) rq])%list
                      (users_seq st + 1)%Z).
Proof.
  intros [H1 H2 H3 H4 H5 H6] Hc Hun.
  unfold unregistered in Hun.
  constructor; cbn [users users_seq set_users].
  - lia.
  - apply Forall_app. split.
    + eapply Forall_impl; [|exact H2]. cbv beta. intros u Hu. lia.
    + constructor; [|constructor]. cbn. lia.
  - rewrite map_app. cbn [map]. apply NoDup_snoc; [exact H3|].
    intros Hin. apply in_map_iff in Hin as [u [Hid Hu]].
    rewrite Forall_forall in H2. specialize (H2 u Hu).
    cbn in Hid. lia.
  - rewrite map_app, present_app. cbn [map].
    apply present_snoc_fresh; [exact H4|].
    eapply Forall_impl; [|exact Hun]. cbv beta. now intros u [Hp _].
  - rewrite map_app, present_app. cbn [map].
    apply present_snoc_fresh; [exact H5|].
    eapply Forall_impl; [|exact Hun]. cbv beta. now intros u [_ He].
  - apply Forall_app. split; [exact H6|]. constructor; [|constructor].
    cbn [row_of user_phone user_email].
    split; [apply or_none_normal|]. split; [apply or_none_normal|].
    destruct Hc as [Hc|Hc]; [left|right]; rewrite (or_none_given _ Hc);
      discriminate.
Qed.

Lemma signup_keeps_users_ok (E : env) (rq : request) (st : state) :
  users_ok st -> users_ok (snd (signup E rq st)).
Proof.
  intros Hok.
  destruct (signup_cases E rq st)
    as [(_ & _ & H)|[(_ & _ & H)|[(_ & _ & _ & H)|(Hc & _ & Hun & H)]]];
    rewrite H; cbn [snd]; try exact Hok.
  now apply users_ok_created.
Qed.

(** *** Login *)

Lemma find_app_fresh {A : Type} (p : A -> bool) (l : list A) (x : A) :
  Forall (fun y => p y = false) l -> p x = true ->
  find p (l ++ [x]) = Some x.
Proof.
  induction 1 as [|y l Hy _ IH]; intros Hx; simpl; [now rewrite Hx|].
  rewrite Hy. now apply IH.
Qed.

(** X11: signing up and then logging in.  After a successful signup, a login
    giving the registered phone or email (surrounding blanks allowed) and the
    same password is answered 200 with the name given at signup, and the
    session holds the id of the new user, provided no other user holds that
    identifier as phone or as email.  The store is not changed by the
    login. *)
Theorem signup_then_login (E : env) (rq login_rq : request) (st : state) :
  (signup_phone rq <> EmptyString \/ signup_email rq <> EmptyString) ->
  signup_password rq <> EmptyString ->
  unregistered st rq ->
  let ident := Py.strip (dict_get (json login_rq) "identifier" "") in
  ident <> EmptyString ->
  (ident = signup_phone rq \/ ident = signup_email rq) ->
  dict_get (json login_rq) "password" "" = signup_password rq ->
  Forall (fun u => user_phone u <> Some ident /\ user_email u <> Some ident)
         (users st) ->
  let st' := snd (signup E rq st) in
  login E login_rq st'
  = (Ok (ok (JSignedUp (signup_name rq)),
         Some ((users_seq st + 1)%Z, Py.str_or (signup_name rq) ident)), st').
Proof.
  intros Hc Hpw Hun ident Hne Hid Hsame Hfree st'.
  unfold st'. rewrite (signup_creates E rq st Hc Hpw Hun). cbn [snd].
  unfold login. fold ident. rewrite Hsame.
  unfold select_user_by_login. cbn [users set_users].
  rewrite (find_app_fresh _ (users st) (row_of E (users_seq st) rq)).
  - reflexivity.
  - eapply Forall_impl; [|exact Hfree]. cbv beta. intros u [Hp He].
    unfold credentials_match.
    rewrite (collide_given ident (user_phone u) Hp),
            (collide_given ident (user_email u) He). reflexivity.
  - unfold credentials_match, row_of, hashpw.
    cbn [user_phone user_email user_password].
    rewrite String.eqb_refl, andb_true_r.
    destruct Hid as [Hid|Hid].
    + rewrite <- Hid, (or_none_given _ Hne). cbn [collide].
      now rewrite String.eqb_refl.
    + rewrite <- Hid, (or_none_given _ Hne). cbn [collide].
      rewrite String.eqb_refl. apply orb_true_r.
Qed.

Lemma signup_then_login_witness :
  fst (login sample_env (login_request "  asha@example.com " "pw1")
         (snd (signup sample_env
                 (signup_request "Asha" "" "asha@example.com" "pw1")
                 empty_state)))
  = Ok (ok (JSignedUp "Asha"), Some (1%Z, "Asha")).
Proof.
  assert (H : login sample_env (login_request "  asha@example.com " "pw1")
                (snd (signup sample_env
                        (signup_request "Asha" "" "asha@example.com" "pw1")
                        empty_state))
              = (Ok (ok (JSignedUp "Asha"), Some (1%Z, "Asha")),
                 snd (signup sample_env
                        (signup_request "Asha" "" "asha@example.com" "pw1")
                        empty_state))).
  { apply (signup_then_login sample_env
             (signup_request "Asha" "" "asha@example.com" "pw1")
             (login_request "  asha@example.com " "pw1") empty_state).
    - right. discriminate.
    - discriminate.
    - constructor.
    - discriminate.
    - right. reflexivity.
    - reflexivity.
    - constructor. }
  rewrite H. reflexivity.
Defined.



(** *** The current user *)

Lemma find_id_app_fresh (us : list user_row) (x : user_row) (seq : Z) :
  Forall (fun u => (0 < user_id u <= seq)%Z) us ->
  user_id x = (seq + 1)%Z ->
  find (fun u => Z.eqb (user_id u) (seq + 1)) (us ++ [x]) = Some x.
Proof.
  intros Hb Hx. apply find_app_fresh.
  - eapply Forall_impl; [|exact Hb]. cbv beta. intros u Hu.
    apply Z.eqb_neq. lia.
  - apply Z.eqb_eq. exact Hx.
Qed.

(** X13: the session opened by a successful signup identifies the new user:
    called with the user id that [signup] put in the session, [api_me]
    answers logged-in with that id, the trimmed name, and the phone and
    email as stored (NULL for a blank one).  A session whose user id matches
    no row is answered as not logged in, as is a request without session. *)
Theorem api_me_after_signup (E : env) (rq me_rq : request) (st : state) :
  users_ok st ->
  (signup_phone rq <> EmptyString \/ signup_email rq <> EmptyString) ->
  signup_password rq <> EmptyString ->
  unregistered st rq ->
  (exists uid,
     fst (signup E rq st)
     = Ok (ok (JSignedUp (signup_name rq)), Some (uid, signup_name rq)) /\
     (session_user_id me_rq = Some uid ->
      api_me me_rq (snd (signup E rq st))
      = (Ok (LoggedIn uid (signup_name rq) (or_none (signup_phone rq))
                      (or_none (signup_email rq)) (now E)),
         snd (signup E rq st)))) /\
  (forall uid, session_user_id me_rq = Some uid ->
     (forall u, In u (users st) -> user_id u <> uid) ->
     api_me me_rq st = (Ok NotLoggedIn, st)) /\
  (session_user_id me_rq = None -> api_me me_rq st = (Ok NotLoggedIn, st)).
Proof.
  intros Hok Hc Hpw Hun. split; [|split].
  - exists (users_seq st + 1)%Z.
    rewrite (signup_creates E rq st Hc Hpw Hun). cbn [fst snd].
    split; [reflexivity|]. intros Hs.
    unfold api_me. rewrite Hs. cbn [uid_truthy].
    pose proof (seq_nonneg st Hok) as Hseq.
    assert (Hnz : (users_seq st + 1 =? 0)%Z = false)
      by (apply Z.eqb_neq; lia).
    rewrite Hnz. cbn [negb]. unfold select_user_by_id.
    cbn [users set_users].
    rewrite (find_id_app_fresh (users st) (row_of E (users_seq st) rq)
               (users_seq st) (ids_bounded st Hok) eq_refl).
    reflexivity.
  - intros uid Hs Hfree. unfold api_me. rewrite Hs.
    destruct (negb (uid_truthy (Some uid))); [reflexivity|].
    unfold select_user_by_id.
    assert (Hnone : find (fun u => Z.eqb (user_id u) uid) (users st) = None).
    { induction (users st) as [|u us IH]; [reflexivity|].
      cbn [find].
      assert (Hu : Z.eqb (user_id u) uid = false)
        by (apply Z.eqb_neq, Hfree; now left).
      rewrite Hu. apply IH. intros v Hv. apply Hfree. now right. }
    now rewrite Hnone.
  - intros Hs. unfold api_me. now rewrite Hs.
Qed.

Lemma api_me_after_signup_witness :
  api_me (Request (Some 1%Z) (inr nil) None nil)
         (snd (signup sample_env
                 (signup_request "Asha" "" " asha@example.com" "pw1")
                 empty_state))
  = (Ok (LoggedIn 1%Z "Asha" None (Some "asha@example.com") 1700000000%Z),
     snd (signup sample_env
            (signup_request "Asha" "" " asha@example.com" "pw1")
            empty_state)).
Proof.
  destruct (proj1 (api_me_after_signup sample_env
                     (signup_request "Asha" "" " asha@example.com" "pw1")
                     (Request (Some 1%Z) (inr nil) None nil) empty_state
                     (users_ok_empty nil nil)
                     ltac:(right; discriminate) ltac:(discriminate)
                     ltac:(constructor)))
    as [uid [Hs Hme]].
  injection Hs as <-. apply Hme. reflexivity.
Defined.

(** ** What the application maintains on its store *)

Lemma same_store_sym (a b : state) : same_store a b -> same_store b a.
Proof. intros (H1 & H2 & H3 & H4 & H5 & H6). repeat split; congruence. Qed.

Lemma profile_effect_refl (uid : option Z) (kind : string) (st s : state) :
  same_store st s -> profile_effect uid kind None st s.
Proof.
  intros (H1 & H2 & H3 & H4 & H5 & H6).
  repeat split; try assumption. left. now repeat split.
Qed.

Lemma table_effect_same (E : env) (uid : option Z) (kind : string)
    (st st' : state) :
  same_store st st' -> table_effect E uid kind st st'.
Proof.
  intros H. exists None, st. split.
  - apply profile_effect_refl, same_store_refl.
  - now left.
Qed.

Lemma table_effect_save_rec (E : env) (uid pid : option Z) (kind : string)
    (idata : list (string * pyval)) (txt : string) (st s s1 : state) :
  profile_effect uid kind pid st s -> same_store s s1 ->
  table_effect E uid kind st (snd (save_rec E uid pid kind idata txt s1)).
Proof.
  intros Hp Hs. exists pid, s. split; [exact Hp|].
  rewrite save_rec_cases. cbn [snd].
  destruct (store_fault E AiRecommendations); [now left|].
  right. exists idata, txt. unfold with_rec.
  destruct Hs as (H1 & H2 & H3 & H4 & H5 & H6).
  repeat split; cbn; congruence.
Qed.

Lemma generate_pitch_effect (E : env) (rq : request) (st : state) :
  table_effect E (session_user_id rq) "pitch" st
               (snd (generate_pitch E rq st)).
Proof.
  destruct (form rq) as [e|f] eqn:Hf.
  - unfold generate_pitch.
    rewrite !(form_get_raises rq e _ _ Hf), !bind_raise.
    apply table_effect_same, same_store_refl.
  - destruct (Py.truthy (Py.strip (dict_get f "product" ""))) eqn:Hp.
    + destruct (generate_pitch_run E rq f st Hf Hp) as [txt [s1 [Hc Hr]]].
      rewrite Hr. cbn [snd].
      apply table_effect_save_rec with st.
      * apply profile_effect_refl, same_store_refl.
      * match type of Hc with call_text _ ?p _ = _ =>
          pose proof (call_text_store E p st) as [Hst _] end.
        now rewrite Hc in Hst.
    + unfold generate_pitch. rewrite !(form_get_ok rq f _ _ Hf).
      repeat (rewrite bind_ret; cbv beta zeta). rewrite Hp.
      apply table_effect_same, same_store_refl.
Qed.

Lemma lead_score_effect (E : env) (rq : request) (st : state) :
  table_effect E (session_user_id rq) "lead_score" st
               (snd (lead_score E rq st)).
Proof.
  destruct (form rq) as [e|f] eqn:Hf.
  - unfold lead_score.
    rewrite !(form_get_raises rq e _ _ Hf), !bind_raise.
    apply table_effect_same, same_store_refl.
  - destruct (lead_score_run E rq f st Hf) as [txt [s1 [Hc Hr]]].
    rewrite Hr. cbn [snd].
    apply table_effect_save_rec with st.
    + apply profile_effect_refl, same_store_refl.
    + match type of Hc with call_text _ ?p _ = _ =>
        pose proof (call_text_store E p st) as [Hst _] end.
      now rewrite Hc in Hst.
Qed.

Lemma generate_campaign_effect (E : env) (rq : request) (st : state) :
  table_effect E (session_user_id rq) "campaign" st
               (snd (generate_campaign E rq st)).
Proof.
  destruct (form rq) as [e|f] eqn:Hf.
  - unfold generate_campaign.
    rewrite !(form_get_raises rq e _ _ Hf), !bind_raise.
    apply table_effect_same, same_store_refl.
  - destruct (Py.truthy (Py.strip (dict_get f "product" ""))) eqn:Hp.
    + destruct (generate_campaign_run E rq f st Hf Hp) as [txt [s1 [Hc Hr]]].
      rewrite Hr. cbn [snd].
      apply table_effect_save_rec with st.
      * apply profile_effect_refl, same_store_refl.
      * match type of Hc with call_text _ ?p _ = _ =>
          pose proof (call_text_store E p st) as [Hst _] end.
        now rewrite Hc in Hst.
    + unfold generate_campaign. rewrite !(form_get_ok rq f _ _ Hf).
      repeat (rewrite bind_ret; cbv beta zeta). rewrite Hp.
      apply table_effect_same, same_store_refl.
Qed.

Lemma photo_step_store (E : env) (ph : option upload) (st : state) :
  same_store st (snd (photo_step E ph st)).
Proof.
  unfold photo_step, save_file. destruct ph as [p|]; [|apply same_store_refl].
  destruct (usable_photo (Some p)); [|apply same_store_refl].
  unfold_monad. destruct (save_fault E _); repeat split.
Qed.

(** The profile step: it fails and leaves the state, or returns no id and
    leaves the state, or adds one row and returns its id. *)
Lemma profile_step_effect (E : env) (uid : option Z)
    (gender age size culture_style dress_style photo_path : string)
    (st s2 : state) :
  same_store st s2 ->
  match profile_step E uid gender age size culture_style dress_style
                     photo_path s2 with
  | (Ok pid, s3) => profile_effect uid "outfit" pid st s3
  | (Raise _, s3) => same_store st s3
  end.
Proof.
  intros Hs. unfold profile_step.
  destruct (uid_truthy uid) eqn:Hu.
  - unfold bind, insert_profile, ret.
    destruct (store_fault E FashionProfiles); [exact Hs|].
    destruct Hs as (H1 & H2 & H3 & H4 & H5 & H6).
    repeat split; cbn; try assumption.
    right. rewrite H4. split; [reflexivity|]. split; [reflexivity|].
    split; [exact Hu|]. eexists. rewrite H3.
    split; [reflexivity|]. now repeat split.
  - now apply profile_effect_refl.
Qed.

Lemma get_recommendation_effect (E : env) (rq : request) (st : state) :
  table_effect E (session_user_id rq) "outfit" st
               (snd (get_recommendation E rq st)).
Proof.
  rewrite get_recommendation_state.
  destruct (form rq) as [e|f] eqn:Hf.
  - rewrite (get_recommendation_body_form_raises E rq st e Hf).
    apply table_effect_same, same_store_refl.
  - pose proof (photo_step_store E (photo rq) st) as Hs2.
    destruct (photo_step E (photo rq) st) as [[pp|e] s2] eqn:Hph.
    + cbn [snd] in Hs2.
      pose proof (profile_step_effect E (session_user_id rq)
                    (dict_get f "gender" "Not specified")
                    (dict_get f "age" "25") (dict_get f "size" "M")
                    (dict_get f "culture_style" "Universal")
                    (dict_get f "dress_style" "Casual") (fst pp) st s2 Hs2)
        as Hpe.
      destruct (profile_step E (session_user_id rq)
                  (dict_get f "gender" "Not specified") (dict_get f "age" "25")
                  (dict_get f "size" "M")
                  (dict_get f "culture_style" "Universal")
                  (dict_get f "dress_style" "Casual") (fst pp) s2)
        as [[pid|e] s3] eqn:Hpr.
      * destruct (completion_store E (snd pp)
                    (outfit_prompt (dict_get f "gender" "Not specified")
                       (dict_get f "age" "25") (dict_get f "size" "M")
                       (dict_get f "culture_style" "Universal")
                       (dict_get f "dress_style" "Casual") (snd pp))
                    (fst pp) s3) as [txt [s4 [Hc [Hs4 _]]]].
        rewrite (get_recommendation_body_run E rq f st s2 s3 s4 pp pid txt
                   Hf Hph Hpr Hc). cbn [snd].
        now apply table_effect_save_rec with s3.
      * rewrite (get_recommendation_body_profile_raises E rq f st s2 s3 pp e
                   Hf Hph Hpr).
        now apply table_effect_same.
    + rewrite (get_recommendation_body_photo_raises E rq f st s2 e Hf Hph).
      now apply table_effect_same.
Qed.

(** *** The invariant of profiles and recommendations *)

Lemma history_ok_same (st st' : state) :
  same_store st st' -> history_ok st -> history_ok st'.
Proof.
  intros (_ & _ & P1 & P2 & R1 & R2) [H1 H2 H3 H4 H5 H6 H7 H8 H9].
  constructor; rewrite ?P1, ?P2, ?R1, ?R2; try assumption.
  eapply Forall_impl; [|exact H9]. intros r. unfold linked.
  destruct (rec_profile_id r); [|trivial]. now rewrite P1.
Qed.

Lemma history_ok_tables (st st' : state) :
  fashion_profiles st' = fashion_profiles st ->
  fashion_profiles_seq st' = fashion_profiles_seq st ->
  ai_recommendations st' = ai_recommendations st ->
  ai_recommendations_seq st' = ai_recommendations_seq st ->
  history_ok st -> history_ok st'.
Proof.
  intros P1 P2 R1 R2 [H1 H2 H3 H4 H5 H6 H7 H8 H9].
  constructor; rewrite ?P1, ?P2, ?R1, ?R2; try assumption.
  eapply Forall_impl; [|exact H9]. intros r. unfold linked.
  destruct (rec_profile_id r); [|trivial]. now rewrite P1.
Qed.

Lemma history_ok_profile_effect (uid : option Z) (kind : string)
    (pid : option Z) (st s : state) :
  history_ok st -> profile_effect uid kind pid st s ->
  history_ok s /\
  (forall p, pid = Some p ->
     kind = "outfit" /\
     exists row, In row (fashion_profiles s) /\ prof_id row = p /\
                 prof_user_id row = uid).
Proof.
  intros Hok (U1 & U2 & R1 & R2 & Hp).
  destruct Hp as [(-> & P1 & P2)|(-> & Hk & Hu & row & P1 & Hid & Hrow & P2)].
  - split; [now apply (history_ok_tables st)|]. intros p H. discriminate.
  - destruct Hok as [H1 H2 H3 H4 H5 H6 H7 H8 H9]. split.
    + constructor; rewrite ?P1, ?P2, ?R1, ?R2; try assumption.
      * lia.
      * apply Forall_app. split.
        -- eapply Forall_impl; [|exact H2]. cbv beta. intros p Hb. lia.
        -- constructor; [|constructor]. lia.
      * rewrite map_app. cbn [map]. apply NoDup_snoc; [exact H3|].
        intros Hin. apply in_map_iff in Hin as [p [Hpid Hin]].
        rewrite Forall_forall in H2. specialize (H2 p Hin). lia.
      * apply Forall_app. split; [exact H4|]. constructor; [|constructor].
        now rewrite Hrow.
      * eapply Forall_impl; [|exact H9]. intros r. unfold linked.
        destruct (rec_profile_id r); [|trivial].
        intros [Ht [p [Hin Hp]]]. split; [exact Ht|]. exists p.
        split; [rewrite P1; apply in_or_app; now left|exact Hp].
    + intros p Hp. injection Hp as <-. split; [exact Hk|]. exists row.
      split; [rewrite P1; apply in_or_app; right; now left|]. now split.
Qed.

Lemma history_ok_with_rec (E : env) (uid pid : option Z) (kind : string)
    (idata : list (string * pyval)) (txt : string) (s : state) :
  history_ok s -> In kind REQUEST_TYPES ->
  (forall p, pid = Some p ->
     kind = "outfit" /\
     exists row, In row (fashion_profiles s) /\ prof_id row = p /\
                 prof_user_id row = uid) ->
  history_ok (with_rec E uid pid kind idata txt s).
Proof.
  intros [H1 H2 H3 H4 H5 H6 H7 H8 H9] Hk Hlink.
  constructor; unfold with_rec;
    cbn [fashion_profiles fashion_profiles_seq ai_recommendations
         ai_recommendations_seq set_ai_recommendations]; try assumption.
  - lia.
  - apply Forall_app. split.
    + eapply Forall_impl; [|exact H6]. cbv beta. intros r Hb. lia.
    + constructor; [|constructor]. cbn. lia.
  - rewrite map_app. cbn [map]. apply NoDup_snoc; [exact H7|].
    intros Hin. apply in_map_iff in Hin as [r [Hid Hin]].
    rewrite Forall_forall in H6. specialize (H6 r Hin). cbn in Hid. lia.
  - apply Forall_app. split; [exact H8|]. constructor; [|constructor].
    exact Hk.
  - apply Forall_app. split.
    + eapply Forall_impl; [|exact H9]. intros r Hr. exact Hr.
    + constructor; [|constructor]. unfold linked. cbn [rec_profile_id].
      destruct pid as [p|]; [|trivial].
      cbn [rec_request_type rec_user_id fashion_profiles].
      now apply Hlink.
Qed.

Lemma history_ok_table_effect (E : env) (uid : option Z) (kind : string)
    (st st' : state) :
  In kind REQUEST_TYPES ->
  history_ok st -> table_effect E uid kind st st' -> history_ok st'.
Proof.
  intros Hk Hok [pid [s [Hp Hs]]].
  destruct (history_ok_profile_effect uid kind pid st s Hok Hp) as [Hoks Hl].
  destruct Hs as [Hs|[idata [txt Hs]]].
  - now apply (history_ok_same s).
  - apply (history_ok_same _ _ Hs). now apply history_ok_with_rec.
Qed.

Lemma table_effect_users (E : env) (uid : option Z) (kind : string)
    (st st' : state) :
  table_effect E uid kind st st' ->
  users st' = users st /\ users_seq st' = users_seq st.
Proof.
  intros [pid [s [(U1 & U2 & _) Hs]]].
  destruct Hs as [(V1 & V2 & _)|[idata [txt (V1 & V2 & _)]]];
    cbn in V1, V2; split; congruence.
Qed.

Lemma served_invariant (st st' : state) :
  served st st' ->
  (users_ok st -> users_ok st') /\ (history_ok st -> history_ok st').
Proof.
  intros Hs. destruct Hs.
  - split; [apply signup_keeps_users_ok|].
    destruct (signup_cases E rq st)
      as [(_ & _ & H)|[(_ & _ & H)|[(_ & _ & _ & H)|(_ & _ & _ & H)]]];
      rewrite H; cbn [snd]; try tauto.
    now apply history_ok_tables.
  - unfold login.
    destruct (select_user_by_login _ _ st); cbn [snd]; tauto.
  - unfold api_me. destruct (negb (uid_truthy (session_user_id rq)));
      [cbn; tauto|].
    destruct (select_user_by_id (session_user_id rq) st); cbn [snd]; tauto.
  - unfold api_history. destruct (negb (uid_truthy (session_user_id rq)));
      cbn; tauto.
  - pose proof (get_recommendation_effect E rq st) as He. split.
    + destruct (table_effect_users _ _ _ _ _ He) as [U1 U2].
      now apply users_ok_same.
    + intros Hok. eapply history_ok_table_effect; [|exact Hok|exact He].
      unfold REQUEST_TYPES; simpl; tauto.
  - pose proof (generate_pitch_effect E rq st) as He. split.
    + destruct (table_effect_users _ _ _ _ _ He) as [U1 U2].
      now apply users_ok_same.
    + intros Hok. eapply history_ok_table_effect; [|exact Hok|exact He].
      unfold REQUEST_TYPES; simpl; tauto.
  - pose proof (lead_score_effect E rq st) as He. split.
    + destruct (table_effect_users _ _ _ _ _ He) as [U1 U2].
      now apply users_ok_same.
    + intros Hok. eapply history_ok_table_effect; [|exact Hok|exact He].
      unfold REQUEST_TYPES; simpl; tauto.
  - pose proof (generate_campaign_effect E rq st) as He. split.
    + destruct (table_effect_users _ _ _ _ _ He) as [U1 U2].
      now apply users_ok_same.
    + intros Hok. eapply history_ok_table_effect; [|exact Hok|exact He].
      unfold REQUEST_TYPES; simpl; tauto.
Qed.

Lemma history_ok_empty (fs : list (string * string)) (log : list http_request) :
  history_ok (State nil 0%Z nil 0%Z nil 0%Z fs log).
Proof. constructor; simpl; try constructor; lia. Qed.

Lemma reachable_invariant (st : state) :
  reachable st -> users_ok st /\ history_ok st.
Proof.
  induction 1 as [fs log|st st' _ [IH1 IH2] Hs].
  - split; [apply users_ok_empty|apply history_ok_empty].
  - destruct (served_invariant st st' Hs) as [H1 H2]. split; auto.
Qed.

(** X14: in every state the application reaches from an empty database,
    whatever requests it serves: user ids are positive, distinct and bounded
    by the counter; no two users share a phone, no two share an email (NULL
    apart); every stored phone or email is non-empty and trimmed, and every
    user has at least one of the two. *)
Theorem users_table_invariant (st : state) : reachable st -> users_ok st.
Proof. intros H. exact (proj1 (reachable_invariant st H)). Qed.

(** X15: in every state the application reaches from an empty database:
    ids of profiles and of recommendations are positive, distinct and bounded
    by their counters; every profile row belongs to a signed-in user (no NULL
    user); every recommendation is of one of the four kinds; and a
    recommendation that names a profile is an outfit recommendation whose
    profile row exists and belongs to the same user. *)
Theorem history_tables_invariant (st : state) : reachable st -> history_ok st.
Proof. intros H. exact (proj2 (reachable_invariant st H)). Qed.

Lemma users_table_invariant_witness :
  users_ok (snd (generate_pitch helpful_env (pitch_request (Some 1%Z) "scarf")
                   (snd (signup sample_env
                           (signup_request "Asha" "" "asha@example.com" "pw1")
                           empty_state)))).
Proof.
  apply users_table_invariant.
  eapply reachable_step; [|apply served_generate_pitch].
  eapply reachable_step; [|apply served_signup].
  apply (reachable_init nil nil).
Defined.

Lemma history_tables_invariant_witness :
  history_ok (snd (get_recommendation helpful_env member_outfit_request
                     (snd (generate_pitch helpful_env
                             (pitch_request None "scarf") empty_state)))).
Proof.
  apply history_tables_invariant.
  eapply reachable_step; [|apply served_get_recommendation].
  eapply reachable_step; [|apply served_generate_pitch].
  apply (reachable_init nil nil).
Defined.

(** ** Statistics of database.py *)








(** ** The user accessors of database.py *)

Lemma create_user_creates (E : env) (st : state)
    (name phone email password : string) :
  Forall (fun u => collide (or_none phone) (user_phone u) = false /\
                   collide (or_none email) (user_email u) = false) (users st) ->
  Database.create_user E name phone email password st
  = (Ok (Database.Created (users_seq st + 1)%Z),
     set_users st
       (users st ++
          [UserRow (users_seq st + 1)%Z name (or_none phone) (or_none email)
                   (Database.hash_password E password) (now E)])%list
       (users_seq st + 1)%Z).
Proof.
  intros Hun. unfold Database.create_user, try_except_if, bind, insert_user.
  destruct (no_collision _ _ _ Hun) as [H1 H2]. now rewrite H1, H2.
Qed.

(** X18: what [create_user] stores can be read back.  After a successful
    [create_user] with a non-empty phone, [get_user_by_id] with the returned
    id and [get_user_by_login] with that phone and the same password both
    return the new row, provided the ids in the table do not exceed the
    counter and no other user holds that phone as phone or as email; with
    another password whose hash differs [get_user_by_login] does not return
    the new row. *)
Theorem create_user_read_back (E : env) (st : state)
    (name phone email password : string) :
  phone <> EmptyString ->
  Forall (fun u => (user_id u <= users_seq st)%Z) (users st) ->
  Forall (fun u => user_phone u <> Some phone /\ user_email u <> Some phone)
         (users st) ->
  Forall (fun u => collide (or_none email) (user_email u) = false) (users st) ->
  let row := UserRow (users_seq st + 1)%Z name (Some phone) (or_none email)
                     (Database.hash_password E password) (now E) in
  let st' := snd (Database.create_user E name phone email password st) in
  fst (Database.create_user E name phone email password st)
    = Ok (Database.Created (users_seq st + 1)%Z) /\
  Database.get_user_by_id (Some (users_seq st + 1)%Z) st' = (Ok (Some row), st')
  /\
  Database.get_user_by_login E phone password st' = (Ok (Some row), st') /\
  (forall other,
     Database.hash_password E other <> Database.hash_password E password ->
     match fst (Database.get_user_by_login E phone other st') with
     | Ok (Some u) => u <> row
     | _ => True
     end).
Proof.
  intros Hne Hids Hfree Hmail row st'.
  assert (Hun : Forall (fun u => collide (or_none phone) (user_phone u) = false
                                 /\ collide (or_none email) (user_email u)
                                    = false) (users st)).
  { rewrite Forall_forall in Hfree, Hmail |- *. intros u Hu.
    split; [|now apply Hmail]. rewrite (or_none_given _ Hne).
    apply collide_given. now apply Hfree. }
  assert (Hrun := create_user_creates E st name phone email password Hun).
  rewrite (or_none_given _ Hne) in Hrun. fold row in Hrun.
  unfold st'. rewrite Hrun. cbn [fst snd].
  split; [reflexivity|]. split; [|split].
  - unfold Database.get_user_by_id, select_user_by_id. cbn [users set_users].
    rewrite (find_app_fresh _ (users st) row); [reflexivity| |].
    + eapply Forall_impl; [|exact Hids]. cbv beta. intros u Hu.
      apply Z.eqb_neq. lia.
    + apply Z.eqb_refl.
  - unfold Database.get_user_by_login, select_user_by_login.
    cbn [users set_users].
    rewrite (find_app_fresh _ (users st) row); [reflexivity| |].
    + eapply Forall_impl; [|exact Hfree]. cbv beta. intros u [Hp He].
      unfold credentials_match.
      now rewrite (collide_given phone _ Hp), (collide_given phone _ He).
    + unfold credentials_match, row. cbn [user_phone user_password collide].
      now rewrite !String.eqb_refl.
  - intros other Hh. unfold Database.get_user_by_login, select_user_by_login.
    cbn [fst users set_users].
    destruct (find (credentials_match phone (Database.hash_password E other))
                   (users st ++ [row])%list) as [u|] eqn:Hfind; [|exact I].
    intros ->. apply find_some in Hfind as [_ Hm].
    unfold credentials_match, row in Hm. cbn [user_password] in Hm.
    apply andb_true_iff in Hm as [_ Hm]. apply String.eqb_eq in Hm.
    now apply Hh.
Qed.

Lemma create_user_read_back_witness :
  fst (Database.get_user_by_login sample_env "5550100" "pw"
         (snd (Database.create_user sample_env "Di" "5550100" "" "pw"
                                    empty_state)))
  = Ok (Some (UserRow 1%Z "Di" (Some "5550100") None "sha256:pw"
                      1700000000%Z)).
Proof.
  destruct (create_user_read_back sample_env empty_state "Di" "5550100" "" "pw"
              ltac:(discriminate) ltac:(constructor) ltac:(constructor)
              ltac:(constructor)) as [_ [_ [H _]]].
  rewrite H. reflexivity.
Defined.

(** ** The profile and the recommendation of an outfit request *)

Lemma integer_affinity_digits (E : env) (s : string) (z : Z) :
  s <> EmptyString -> digits_value 0%Z s = Some z -> (z < 2 ^ 63)%Z ->
  integer_affinity E s = SqlInteger z.
Proof.
  intros Hs Hd Hz. unfold integer_affinity.
  destruct s as [|c s]; [congruence|].
  rewrite Hd. apply Z.ltb_lt in Hz. now rewrite Hz.
Qed.

(** What an outfit request of an anonymous caller does to the two tables:
    no profile row, and at most one recommendation row, without profile. *)
Lemma anonymous_table_effect (E : env) (uid : option Z) (st st' : state) :
  uid_truthy uid = false ->
  table_effect E uid "outfit" st st' ->
  fashion_profiles st' = fashion_profiles st /\
  exists added,
    ai_recommendations st' = (ai_recommendations st ++ added)%list /\
    length added <= 1 /\
    Forall (fun r => rec_profile_id r = None /\ rec_user_id r = uid /\
                     rec_request_type r = "outfit") added.
Proof.
  intros Hu [pid [s [(U1 & U2 & R1 & R2 & Hp) Hs]]].
  destruct Hp as [(-> & P1 & P2)|(_ & _ & Hu' & _)]; [|congruence].
  destruct Hs as [(V1 & V2 & Q1 & Q2 & T1 & T2)
                 |[idata [txt (V1 & V2 & Q1 & Q2 & T1 & T2)]]].
  - split; [congruence|]. exists nil. rewrite app_nil_r.
    split; [congruence|]. split; [cbn; lia|constructor].
  - cbn [with_rec fashion_profiles ai_recommendations set_ai_recommendations]
      in Q1, T1.
    split; [congruence|].
    eexists. split; [rewrite T1, R1; reflexivity|].
    split; [cbn; lia|]. constructor; [|constructor]. now repeat split.
Qed.

(** C2 (amended): an outfit request of a signed-in caller creates exactly one
    profile row, carrying the caller's user id, the submitted fields (or
    their defaults) and the photo path, provided the form can be read and
    neither saving the photo nor the insertion fails; the age is stored as
    the INTEGER column coerces the submitted text, a text of digits as that
    number.  An outfit request of an anonymous caller creates no profile
    row, and the recommendation it stores, if any, has no profile id; when
    no step fails that recommendation is stored, with the answer returned. *)
Theorem profile_row_per_signed_in_request (E : env) (rq : request) (st : state) :
  (uid_truthy (session_user_id rq) = false ->
   fashion_profiles (snd (get_recommendation E rq st)) = fashion_profiles st /\
   exists added,
     ai_recommendations (snd (get_recommendation E rq st))
       = (ai_recommendations st ++ added)%list /\
     length added <= 1 /\
     Forall (fun r => rec_profile_id r = None /\
                      rec_user_id r = session_user_id rq /\
                      rec_request_type r = "outfit") added) /\
  (forall f,
     uid_truthy (session_user_id rq) = false ->
     form rq = inr f ->
     (usable_photo (photo rq) = true ->
      save_fault E (photo_path_of E (photo rq)) = None) ->
     store_fault E AiRecommendations = None ->
     exists txt,
       fst (get_recommendation E rq st)
         = Ok (ok (JResult txt (Some (usable_photo (photo rq))))) /\
       ai_recommendations (snd (get_recommendation E rq st))
         = (ai_recommendations st ++
            [RecRow (ai_recommendations_seq st + 1)%Z (session_user_id rq)
                    None "outfit"
                    [("gender", PStr (dict_get f "gender" "Not specified"));
                     ("age", PStr (dict_get f "age" "25"));
                     ("size", PStr (dict_get f "size" "M"));
                     ("style", PStr (dict_get f "dress_style" "Casual"));
                     ("photo", PBool (usable_photo (photo rq)))]
                    txt (now E)])%list) /\
  (forall f,
     uid_truthy (session_user_id rq) = true ->
     form rq = inr f ->
     store_fault E FashionProfiles = None ->
     (usable_photo (photo rq) = true ->
      save_fault E (photo_path_of E (photo rq)) = None) ->
     fashion_profiles (snd (get_recommendation E rq st))
     = (fashion_profiles st ++
        [ProfileRow (fashion_profiles_seq st + 1)%Z (session_user_id rq)
           (dict_get f "gender" "Not specified")
           (integer_affinity E (dict_get f "age" "25"))
           (dict_get f "size" "M") (dict_get f "culture_style" "Universal")
           (dict_get f "dress_style" "Casual")
           (photo_path_of E (photo rq)) (now E)])%list) /\
  (forall age z,
     age <> EmptyString -> digits_value 0%Z age = Some z -> (z < 2 ^ 63)%Z ->
     integer_affinity E age = SqlInteger z).
Proof.
  split; [|split; [|split]].
  - intros Hu. apply (anonymous_table_effect E _ st _ Hu).
    apply get_recommendation_effect.
  - intros f Hu Hf Hsave Hrec.
    destruct (get_recommendation_run E rq f st Hf Hsave
                ltac:(intros H; congruence) Hrec)
      as [txt [st' [H1 [H2 _]]]].
    exists txt. rewrite H1. cbn [fst snd]. split; [reflexivity|].
    rewrite H2, Hu. reflexivity.
  - intros f Hu Hf Hfault Hsave. rewrite get_recommendation_state.
    unfold get_recommendation_body.
    rewrite !(form_get_ok rq f _ _ Hf).
    repeat (rewrite bind_ret; cbv beta zeta).
    unfold files_get_photo. rewrite Hf.
    rewrite bind_ret. cbv beta zeta.
    unfold bind at 1.
    destruct (photo_step_run E (photo rq) st Hsave) as [s2 [Hp [Hp1 Hp2]]].
    rewrite Hp. cbn [fst snd].
    unfold profile_step. rewrite Hu.
    unfold bind at 1. unfold bind at 1. unfold insert_profile at 1.
    rewrite Hfault. unfold ret at 1.
    match goal with |- fashion_profiles (snd (bind _ _ ?s)) = _ =>
      pose proof (after_profile_step E (session_user_id rq)
                    (Some (fashion_profiles_seq s2 + 1)%Z)
                    (usable_photo (photo rq))
                    (outfit_prompt (dict_get f "gender" "Not specified")
                       (dict_get f "age" "25") (dict_get f "size" "M")
                       (dict_get f "culture_style" "Universal")
                       (dict_get f "dress_style" "Casual")
                       (usable_photo (photo rq)))
                    (photo_path_of E (photo rq))
                    [("gender", PStr (dict_get f "gender" "Not specified"));
                     ("age", PStr (dict_get f "age" "25"));
                     ("size", PStr (dict_get f "size" "M"));
                     ("style", PStr (dict_get f "dress_style" "Casual"));
                     ("photo", PBool (usable_photo (photo rq)))] s) as [Ha _]
    end.
    rewrite Ha. cbn [fashion_profiles set_fashion_profiles].
    now rewrite Hp1, Hp2.
  - intros age z. apply integer_affinity_digits.
Qed.

Lemma profile_row_per_signed_in_request_witness :
  fashion_profiles
    (snd (get_recommendation sample_env member_outfit_request empty_state))
  = [ProfileRow 1%Z (Some 7%Z) "Female" (SqlInteger 28) "M" "Western" "Formal"
                "" 1700000000%Z] /\
  exists txt,
    fst (get_recommendation sample_env anonymous_outfit_request empty_state)
      = Ok (ok (JResult txt (Some false))) /\
    map rec_profile_id
        (ai_recommendations
           (snd (get_recommendation sample_env anonymous_outfit_request
                                    empty_state)))
      = [None].
Proof.
  split.
  - refine (proj1 (proj2 (proj2 (profile_row_per_signed_in_request sample_env
                     member_outfit_request empty_state)))
              outfit_form eq_refl eq_refl eq_refl _).
    intros H. discriminate H.
  - destruct (proj1 (proj2 (profile_row_per_signed_in_request sample_env
                       anonymous_outfit_request empty_state))
                outfit_form eq_refl eq_refl
                ltac:(intros H; discriminate H) eq_refl) as [txt [H1 H2]].
    exists txt. split; [exact H1|]. rewrite H2. reflexivity.
Defined.

(** ** What the history endpoint returns *)

Lemma item_shows_row (rows : list rec_row) :
  Forall2 shows (map item_of_row rows) rows.
Proof.
  induction rows as [|r rows IH]; constructor; [|exact IH].
  repeat split.
Qed.

Lemma items_sorted (rows : list rec_row) :
  StronglySorted newer_first rows ->
  StronglySorted newer_item_first (map item_of_row rows).
Proof.
  induction 1 as [|r rows Hs IH Hall]; cbn [map]; constructor; [exact IH|].
  apply Forall_forall. intros it Hit. apply in_map_iff in Hit.
  destruct Hit as [r' [<- Hr']].
  rewrite Forall_forall in Hall. exact (Hall r' Hr').
Qed.

(** C7: without a session (or with a user id that counts as false) the
    history endpoint answers 401 and touches nothing.  With a session it
    answers 200 with a list of items, each showing the id, type, input,
    answer and time of a stored recommendation of that user: at most 20
    items, the most recent first; a recommendation of the user that is not
    shown is no more recent than any that is, and none is left out when the
    user has 20 recommendations or fewer. *)
Theorem history_endpoint (rq : request) (st : state) :
  (uid_truthy (session_user_id rq) = false ->
   api_history rq st = (Ok (Response 401%Z (JFailure "Not logged in")), st)) /\
  (forall u, session_user_id rq = Some u -> u <> 0%Z ->
   exists rows items,
     api_history rq st = (Ok (ok (JHistory items)), st) /\
     Forall2 shows items rows /\
     rows = select_recommendations (Some u) 20%Z st /\
     length items <= 20 /\
     length items
       = Nat.min 20 (length (filter (owned_by (Some u)) (ai_recommendations st))) /\
     (forall it, In it items ->
        exists r, In r (ai_recommendations st) /\ rec_user_id r = Some u /\
                  shows it r) /\
     StronglySorted newer_item_first items /\
     (forall it r', In it items -> In r' (ai_recommendations st) ->
                    rec_user_id r' = Some u ->
                    (forall it', In it' items -> h_id it' <> rec_id r') ->
                    (rec_created_at r' <= h_created_at it)%Z) /\
     (forall r, In r rows ->
                In r (ai_recommendations st) /\ rec_user_id r = Some u) /\
     StronglySorted newer_first rows /\
     (forall r r', In r rows -> In r' (ai_recommendations st) ->
                   rec_user_id r' = Some u -> ~ In r' rows ->
                   (rec_created_at r' <= rec_created_at r)%Z)).
Proof.
  split.
  - intros Hu. unfold api_history. now rewrite Hu.
  - intros u Hs Hu.
    exists (select_recommendations (Some u) 20%Z st).
    exists (map item_of_row (select_recommendations (Some u) 20%Z st)).
    destruct (select_recommendations_spec u 20 st) as [Hlen [Hown [Hsort Htop]]].
    change (Z.of_nat 20) with 20%Z in *.
    split.
    { unfold api_history. rewrite Hs. cbn [uid_truthy].
      apply Z.eqb_neq in Hu. rewrite Hu. reflexivity. }
    split; [apply item_shows_row|]. split; [reflexivity|].
    rewrite length_map.
    split; [rewrite Hlen; lia|]. split; [exact Hlen|].
    split.
    { intros it Hit. apply in_map_iff in Hit. destruct Hit as [r [<- Hr]].
      exists r. destruct (Hown r Hr) as [H1 H2].
      split; [exact H1|]. split; [exact H2|]. repeat split. }
    split; [apply items_sorted, Hsort|].
    split.
    { intros it r' Hit Hr' Hu' Hout. apply in_map_iff in Hit.
      destruct Hit as [r [<- Hr]]. cbn [item_of_row h_created_at].
      apply (Htop r r' Hr Hr' Hu'). intros Hin.
      apply (Hout (item_of_row r')); [now apply in_map|reflexivity]. }
    split; [exact Hown|]. split; [exact Hsort|exact Htop].
Qed.

Lemma history_endpoint_witness :
  api_history (Request None (inr nil) None nil) state_with_history
    = (Ok (Response 401%Z (JFailure "Not logged in")), state_with_history) /\
  exists items,
    api_history history_request state_with_history
      = (Ok (ok (JHistory items)), state_with_history) /\
    Forall2 shows items
      [rec_at 3 (Some 7%Z) 300; rec_at 4 (Some 7%Z) 200;
       rec_at 1 (Some 7%Z) 100].
Proof.
  split.
  - exact (proj1 (history_endpoint (Request None (inr nil) None nil)
                    state_with_history) eq_refl).
  - destruct (proj2 (history_endpoint history_request state_with_history)
                7%Z eq_refl ltac:(discriminate))
      as [rows [items [H1 [H2 [H3 _]]]]].
    exists items. split; [exact H1|]. rewrite H3 in H2. exact H2.
Defined.

(** ** Upload acceptance *)

(** An outfit request with a file, when saving and the profile insertion do
    not fail: the answer tells whether the file was accepted, and the file
    is stored exactly when it was. *)
Lemma photo_outcome (E : env) (rq : request) (f : list (string * string))
    (st : state) (p : upload) :
  form rq = inr f -> photo rq = Some p ->
  (ok_file (filename p) = true ->
   save_fault E (path_join E (UPLOAD_FOLDER E)
                           (secure_filename E (filename p))) = None) ->
  (uid_truthy (session_user_id rq) = true ->
   store_fault E FashionProfiles = None) ->
  exists txt,
    fst (get_recommendation E rq st)
      = Ok (ok (JResult txt (Some (ok_file (filename p))))) /\
    files (snd (get_recommendation E rq st))
      = if ok_file (filename p)
        then (path_join E (UPLOAD_FOLDER E) (secure_filename E (filename p)),
              data p) :: files st
        else files st.
Proof.
  intros Hf Hp Hsave Hprof.
  assert (Hus : usable_photo (photo rq) = ok_file (filename p)).
  { rewrite Hp. apply usable_photo_ok_file. }
  assert (Hsave' : usable_photo (photo rq) = true ->
                   save_fault E (photo_path_of E (photo rq)) = None).
  { intros Hu. unfold photo_path_of. rewrite Hp in *. rewrite Hu.
    apply Hsave. now rewrite <- usable_photo_ok_file. }
  pose proof (photo_step_state E (photo rq) st Hsave') as Hph.
  match type of Hph with _ = (_, ?s) => set (s2 := s) in Hph end.
  assert (Hfiles2 : files s2
                    = if ok_file (filename p)
                      then (path_join E (UPLOAD_FOLDER E)
                              (secure_filename E (filename p)), data p)
                           :: files st
                      else files st).
  { unfold s2. rewrite Hp. rewrite usable_photo_ok_file.
    unfold photo_path_of. rewrite usable_photo_ok_file.
    destruct (ok_file (filename p)); reflexivity. }
  pose proof (profile_step_state E (session_user_id rq)
                (dict_get f "gender" "Not specified") (dict_get f "age" "25")
                (dict_get f "size" "M")
                (dict_get f "culture_style" "Universal")
                (dict_get f "dress_style" "Casual")
                (photo_path_of E (photo rq)) s2 Hprof) as Hpr.
  assert (Hs3 : exists pid s3,
            profile_step E (session_user_id rq)
              (dict_get f "gender" "Not specified") (dict_get f "age" "25")
              (dict_get f "size" "M")
              (dict_get f "culture_style" "Universal")
              (dict_get f "dress_style" "Casual")
              (photo_path_of E (photo rq)) s2 = (Ok pid, s3)
            /\ files s3 = files s2).
  { destruct (uid_truthy (session_user_id rq)); eexists; eexists;
      (split; [exact Hpr|reflexivity]). }
  destruct Hs3 as [pid [s3 [Hpr3 Hfiles3]]].
  destruct (completion_store E (usable_photo (photo rq))
              (outfit_prompt (dict_get f "gender" "Not specified")
                 (dict_get f "age" "25") (dict_get f "size" "M")
                 (dict_get f "culture_style" "Universal")
                 (dict_get f "dress_style" "Casual")
                 (usable_photo (photo rq)))
              (photo_path_of E (photo rq)) s3)
    as [txt [s4 [Hc [_ Hfiles4]]]].
  pose proof (get_recommendation_body_run E rq f st s2 s3 s4 _ pid txt Hf
                Hph Hpr3 Hc) as Hb.
  apply get_recommendation_of_body in Hb.
  exists txt. rewrite Hb. cbn [fst snd]. rewrite Hus.
  split; [reflexivity|].
  rewrite save_rec_cases. cbn [snd].
  rewrite <- Hfiles2, <- Hfiles3, <- Hfiles4.
  destruct (store_fault E AiRecommendations); reflexivity.
Qed.

(** C8: a file is accepted exactly when its name has a dot and the text
    after the last dot, lowercased, is one of png, jpg, jpeg, webp, gif; the
    check itself never fails.  The outfit handler takes an accepted file: it
    stores it under the upload folder and answers with photo_analyzed true.
    A file that is not accepted is not stored and the answer says
    photo_analyzed false; the request is handled as the same request
    without photo: same answer, same effects. *)
Theorem upload_acceptance :
  (forall name, ok_file_checked name = Some (ok_file name)) /\
  (forall name, ok_file name = true <-> recognized_extension name) /\
  (forall p, usable_photo (Some p) = true <-> recognized_extension (filename p)) /\
  (ok_file "photo.png" = true /\ ok_file "IMG.JPEG" = true /\
   ok_file "virus.exe" = false /\ ok_file "noext" = false) /\
  (forall E rq f st p,
     form rq = inr f -> photo rq = Some p ->
     (ok_file (filename p) = true ->
      save_fault E (path_join E (UPLOAD_FOLDER E)
                              (secure_filename E (filename p))) = None) ->
     (uid_truthy (session_user_id rq) = true ->
      store_fault E FashionProfiles = None) ->
     exists txt,
       fst (get_recommendation E rq st)
         = Ok (ok (JResult txt (Some (ok_file (filename p))))) /\
       files (snd (get_recommendation E rq st))
         = if ok_file (filename p)
           then (path_join E (UPLOAD_FOLDER E)
                           (secure_filename E (filename p)), data p)
                :: files st
           else files st) /\
  (forall E rq st p,
     photo rq = Some p -> ok_file (filename p) = false ->
     get_recommendation E rq st = get_recommendation E (without_photo rq) st).
Proof.
  split; [exact ok_file_checked_total|].
  split; [exact ok_file_iff|].
  split; [intros p; rewrite usable_photo_ok_file; apply ok_file_iff|].
  split; [repeat split; reflexivity|].
  split; [exact photo_outcome|].
  exact rejected_photo_ignored.
Qed.

Lemma upload_acceptance_witness :
  (exists txt,
     fst (get_recommendation helpful_env photo_request empty_state)
       = Ok (ok (JResult txt (Some true))) /\
     files (snd (get_recommendation helpful_env photo_request empty_state))
       = [("/app/static/uploads/me.png", "PNGDATA")]) /\
  (exists txt,
     fst (get_recommendation helpful_env exe_upload_request empty_state)
       = Ok (ok (JResult txt (Some false))) /\
     files (snd (get_recommendation helpful_env exe_upload_request empty_state))
       = nil) /\
  get_recommendation sample_env exe_upload_request empty_state
  = get_recommendation sample_env (without_photo exe_upload_request)
                       empty_state.
Proof.
  split; [|split].
  - exact (proj1 (proj2 (proj2 (proj2 (proj2 upload_acceptance))))
             helpful_env photo_request outfit_form empty_state
             (Upload "me.png" "PNGDATA") eq_refl eq_refl
             (fun _ => eq_refl)
             (fun H => False_ind _ (Bool.diff_false_true H))).
  - exact (proj1 (proj2 (proj2 (proj2 (proj2 upload_acceptance))))
             helpful_env exe_upload_request outfit_form empty_state
             (Upload "virus.exe" "MZ") eq_refl eq_refl
             (fun _ => eq_refl)
             (fun H => False_ind _ (Bool.diff_false_true H))).
  - exact (proj2 (proj2 (proj2 (proj2 (proj2 upload_acceptance))))
             sample_env exe_upload_request empty_state (Upload "virus.exe" "MZ")
             eq_refl eq_refl).
Defined.

(** ** The MIME type of the image sent to the vision model *)

Lemma mime_of_by_extension (ext : string) :
  mime_of ext = mime_by_extension ext.
Proof.
  unfold mime_of, mime_by_extension, ALLOWED.
  unfold Py.str_in. cbn [assoc existsb].
  destruct (String.eqb ext "jpg") eqn:H1.
  { apply String.eqb_eq in H1. subst ext. reflexivity. }
  destruct (String.eqb ext "jpeg") eqn:H2.
  { apply String.eqb_eq in H2. subst ext. reflexivity. }
  destruct (String.eqb ext "png") eqn:H3.
  { apply String.eqb_eq in H3. subst ext. reflexivity. }
  destruct (String.eqb ext "webp") eqn:H4.
  { apply String.eqb_eq in H4. subst ext. reflexivity. }
  destruct (String.eqb ext "gif") eqn:H5.
  { apply String.eqb_eq in H5. subst ext. reflexivity. }
  reflexivity.
Qed.

(** X2: with a credential configured and the image readable, the first call
    [call_vision] makes is the vision request whose data URL announces the
    MIME type of the extension of the path it was given, the text after that
    path's last dot, lowercased: "image/jpeg" for jpg and jpeg, "image/"
    followed by the extension for png, webp and gif, and the default
    "image/jpeg" for anything else.  The path is the one the handler built
    from the upload folder and the sanitized name, not the uploaded name: for
    a path that [ok_file] would accept the table decides, while a stored
    path without extension, such as the one of an upload named ".png" once
    sanitized to "png", gets the default. *)
Theorem vision_request_mime (E : env) (prompt img_path bytes : string)
    (st : state) :
  Py.truthy (GROQ_KEY E) = true ->
  read_fault E img_path = None -> assoc img_path (files st) = Some bytes ->
  (exists tail,
     http_log (snd (call_vision E prompt img_path st))
     = (http_log st ++
        vision_request E prompt (mime_by_extension (path_extension img_path))
                       (b64encode E bytes) :: tail)%list) /\
  (ok_file img_path = true ->
   mime_by_extension (path_extension img_path)
   = "image/" ++ (if String.eqb (path_extension img_path) "jpg" then "jpeg"
                  else path_extension img_path)) /\
  (Py.str_in (path_extension img_path) ALLOWED = false ->
   mime_by_extension (path_extension img_path) = "image/jpeg") /\
  (mime_by_extension (path_extension "/app/static/uploads/me.PNG")
     = "image/png" /\
   mime_by_extension (path_extension "/app/static/uploads/look.jpg")
     = "image/jpeg" /\
   ok_file ".png" = true /\
   mime_by_extension (path_extension "/app/static/uploads/png")
     = "image/jpeg").
Proof.
  intros Hk Hrf Hf. split; [|split; [|split]].
  - destruct (call_vision_log E prompt img_path bytes st Hk Hrf Hf)
      as [tail [Hlog _]].
    exists tail. rewrite Hlog. unfold path_extension.
    now rewrite mime_of_by_extension.
  - intros Hok. destruct (recognized_extension_mime img_path Hok) as [_ Hm].
    unfold path_extension. now rewrite <- mime_of_by_extension.
  - intros Hno. unfold mime_by_extension. now rewrite Hno.
  - repeat split; reflexivity.
Qed.

Lemma vision_request_mime_witness :
  exists tail,
    http_log (snd (call_vision helpful_env "What to wear?"
                     "/app/static/uploads/me.png" state_with_photo))
    = vision_request helpful_env "What to wear?" "image/png" "PNGDATA" :: tail.
Proof.
  exact (proj1 (vision_request_mime helpful_env "What to wear?"
                  "/app/static/uploads/me.png" "PNGDATA" state_with_photo
                  eq_refl eq_refl eq_refl)).
Defined.

(** ** The account writers on any body, with a store that may fail *)

Lemma insert_user_run (E : env) (name : string) (phone email : option string)
    (password : string) (st : state) :
  (Forall (fun u => collide phone (user_phone u) = false /\
                    collide email (user_email u) = false) (users st) /\
   insert_user E name phone email password st
   = (Ok (users_seq st + 1)%Z,
      set_users st
        (users st ++ [UserRow (users_seq st + 1)%Z name phone email password
                              (now E)])%list (users_seq st + 1)%Z)) \/
  ((exists u, In u (users st) /\
              (collide phone (user_phone u) = true \/
               collide email (user_email u) = true)) /\
   exists e, is_integrity e = true /\
             insert_user E name phone email password st = (Raise e, st)).
Proof.
  unfold insert_user.
  destruct (existsb (fun u => collide phone (user_phone u)) (users st)) eqn:H1.
  { right. apply existsb_exists in H1 as [u [Hin Hu]].
    split; [exists u; split; [exact Hin|now left]|].
    eexists. split; [|reflexivity]. reflexivity. }
  destruct (existsb (fun u => collide email (user_email u)) (users st)) eqn:H2.
  { right. apply existsb_exists in H2 as [u [Hin Hu]].
    split; [exists u; split; [exact Hin|now right]|].
    eexists. split; [|reflexivity]. reflexivity. }
  left. split; [|reflexivity].
  apply existsb_collision in H1, H2.
  rewrite Forall_forall in H1, H2 |- *. intros u Hu. split; auto.
Qed.

(** The ways the write ends: the row is added and its id returned, or an
    exception is raised and the store is as before. *)
Lemma write_user_cases (E : env) (W : Raw.write_faults) (name : string)
    (phone email : option string) (password : exn + string) (st : state) :
  (exists hash,
     password = inr hash /\ W = Raw.no_fault /\
     Forall (fun u => collide phone (user_phone u) = false /\
                      collide email (user_email u) = false) (users st) /\
     Raw.write_user E W name phone email password st
     = (Ok (users_seq st + 1)%Z,
        set_users st
          (users st ++ [UserRow (users_seq st + 1)%Z name phone email hash
                                (now E)])%list (users_seq st + 1)%Z)) \/
  (exists e,
     Raw.write_user E W name phone email password st = (Raise e, st) /\
     (Raw.store_fails W e \/ password = inl e \/
      (is_integrity e = true /\
       exists u, In u (users st) /\
                 (collide phone (user_phone u) = true \/
                  collide email (user_email u) = true)))).
Proof.
  unfold Raw.write_user, Raw.execute_insert_user, Raw.commit, Raw.attempt,
    Raw.of_sum, Raw.get_state, Raw.store_fails.
  destruct W as [c x m]. cbn [Raw.on_connect Raw.on_execute Raw.on_commit].
  unfold_monad.
  destruct c as [e|]; [right; exists e; split; [reflexivity|auto]|].
  destruct password as [e|hash]; [right; exists e; split; [reflexivity|auto]|].
  destruct x as [e|]; [right; exists e; split; [reflexivity|auto]|].
  destruct (insert_user_run E name phone email hash st)
    as [[Hfree Hrun]|[Htaken [e [He Hrun]]]]; rewrite Hrun.
  - destruct m as [e|]; [right; exists e; split; [reflexivity|auto]|].
    left. exists hash. repeat split. exact Hfree.
  - right. exists e. split; [reflexivity|]. right; right. now split.
Qed.

Lemma write_user_no_fault (E : env) (name : string)
    (phone email : option string) (hash : string) (st : state) :
  Raw.write_user E Raw.no_fault name phone email (inr hash) st
  = insert_user E name phone email hash st.
Proof.
  unfold Raw.write_user, Raw.execute_insert_user, Raw.commit, Raw.attempt,
    Raw.of_sum, Raw.get_state. cbn [Raw.no_fault Raw.on_connect
    Raw.on_execute Raw.on_commit]. unfold_monad.
  destruct (insert_user E name phone email hash st) as [[uid|e] s];
    reflexivity.
Qed.

Lemma write_user_connect_fails (E : env) (W : Raw.write_faults) (name : string)
    (phone email : option string) (password : exn + string) (st : state)
    (e : exn) :
  Raw.on_connect W = Some e ->
  Raw.write_user E W name phone email password st = (Raise e, st).
Proof.
  intros H. unfold Raw.write_user, Raw.attempt, Raw.get_state. unfold_monad.
  now rewrite H.
Qed.

Lemma assoc_strings (k : string) (d : list (string * string)) :
  assoc k (map (fun kv => (fst kv, Raw.JStr (snd kv))) d)
  = option_map Raw.JStr (assoc k d).
Proof.
  induction d as [|[k' v] d IH]; [reflexivity|].
  cbn [map assoc fst snd]. destruct (String.eqb k k'); [reflexivity|exact IH].
Qed.

Lemma json_or_empty_strings (d : list (string * string)) :
  Raw.json_or_empty (Some (Raw.strings d)) = Raw.strings d.
Proof. destruct d; reflexivity. Qed.

Lemma py_get_strings (d : list (string * string)) (k : string) :
  Raw.py_get (Raw.strings d) k = inr (Raw.JStr (dict_get d k EmptyString)).
Proof.
  unfold Raw.py_get, Raw.strings, dict_get. rewrite assoc_strings.
  destruct (assoc k d); reflexivity.
Qed.

Lemma fields_strings (d : list (string * string)) :
  Raw.fields (inr (Some (Raw.strings d)))
  = inr (Py.strip (dict_get d "name" EmptyString),
         Py.strip (dict_get d "phone" EmptyString),
         Py.strip (dict_get d "email" EmptyString),
         Raw.JStr (dict_get d "password" EmptyString)).
Proof.
  unfold Raw.fields, Raw.get_strip. rewrite json_or_empty_strings.
  rewrite !py_get_strings. reflexivity.
Qed.

(** [signup] in terms of the fields it reads. *)
Lemma signup_run (E : env) (W : Raw.write_faults)
    (body : exn + option Raw.jvalue) (st : state) :
  Raw.signup E W body st
  = match Raw.fields body with
    | inl e => (Raise e, st)
    | inr (name, phone, email, pw) =>
        if negb (Py.truthy (Py.str_or phone email)) then
          (Ok (Response 400%Z (JFailure "Phone or email required"), None), st)
        else if negb (Raw.jtruthy pw) then
          (Ok (Response 400%Z (JFailure "Password required"), None), st)
        else
          match Raw.write_user E W name (or_none phone) (or_none email)
                               (Raw.hash_value E pw) st with
          | (Ok uid, st') => (Ok (ok (JSignedUp name), Some (uid, name)), st')
          | (Raise e, st') =>
              if is_integrity e
              then (Ok (Response 400%Z
                          (JFailure "Phone/email already registered"), None),
                    st')
              else (Raise e, st')
          end
    end.
Proof.
  unfold Raw.signup, Raw.fields, Raw.of_sum.
  destruct body as [e|parsed]; [reflexivity|].
  unfold bind at 1. unfold ret at 1. cbv zeta.
  destruct (Raw.get_strip (Raw.json_or_empty parsed) "name") as [e|name];
    [reflexivity|].
  unfold bind at 1. unfold ret at 1.
  destruct (Raw.get_strip (Raw.json_or_empty parsed) "phone") as [e|phone];
    [reflexivity|].
  unfold bind at 1. unfold ret at 1.
  destruct (Raw.get_strip (Raw.json_or_empty parsed) "email") as [e|email];
    [reflexivity|].
  unfold bind at 1. unfold ret at 1.
  destruct (Raw.py_get (Raw.json_or_empty parsed) "password") as [e|pw];
    [reflexivity|].
  unfold bind at 1. unfold ret at 1.
  destruct (negb (Py.truthy (Py.str_or phone email))); [reflexivity|].
  destruct (negb (Raw.jtruthy pw)); [reflexivity|].
  unfold_monad.
  destruct (Raw.write_user E W name (or_none phone) (or_none email)
              (Raw.hash_value E pw) st) as [[uid|e] s]; reflexivity.
Qed.

Lemma contact_given (phone email : string) :
  negb (Py.truthy (Py.str_or phone email)) = false <->
  (phone <> EmptyString \/ email <> EmptyString).
Proof.
  unfold Py.str_or. destruct phone as [|c p]; destruct email as [|c' q];
    cbn; split; intros H; try reflexivity; try discriminate;
    try (left; discriminate); try (right; discriminate).
  destruct H as [H|H]; congruence.
Qed.

Lemma no_contact_given (phone email : string) :
  negb (Py.truthy (Py.str_or phone email)) = true <->
  (phone = EmptyString /\ email = EmptyString).
Proof.
  unfold Py.str_or. destruct phone as [|c p]; destruct email as [|c' q];
    cbn; split; intros H; try (split; reflexivity); try discriminate;
    try reflexivity; destruct H; discriminate.
Qed.

Lemma hash_value_error (E : env) (pw : Raw.jvalue) (e : exn) :
  Raw.hash_value E pw = inl e -> is_integrity e = false.
Proof.
  destruct pw; cbn; intros H; try discriminate; injection H as <-;
    reflexivity.
Qed.

Lemma hash_value_string (E : env) (pw : Raw.jvalue) (hash : string) :
  Raw.hash_value E pw = inr hash ->
  exists s, pw = Raw.JStr s /\ hash = hashpw E s.
Proof.
  destruct pw; cbn; intros H; try discriminate. injection H as <-.
  eexists. split; reflexivity.
Qed.

(** X10: [signup] ends in exactly one of three ways.  It answers 200, adds
    exactly one user row (the next id, the trimmed name, phone and email,
    the hash of the password) and puts that id and name in the session:
    this needs a body whose four fields are strings, a contact, a password,
    a store that does not fail and contacts no user holds.  Or it answers
    400, opens no session and leaves the state as it was: no phone and no
    email, then no password (any false value), then a phone or email
    already held, or an IntegrityError of the store.  Or it raises and
    leaves the state as it was: the body cannot be read, the parsed body is
    not an object, a name, phone or email is not a string (AttributeError),
    the password is a true value that is not a string (AttributeError), or
    a call to the store fails with an error that is not an IntegrityError,
    the only class caught; a failed commit leaves no row.  On a body of
    strings with a store that answers it is the run of [signup] above, which
    never raises. *)
Theorem signup_outcomes (E : env) (W : Raw.write_faults)
    (body : exn + option Raw.jvalue) (st : state) :
  ((exists name phone email pw,
      Raw.fields body = inr (name, phone, email, Raw.JStr pw) /\
      (phone <> EmptyString \/ email <> EmptyString) /\
      pw <> EmptyString /\
      W = Raw.no_fault /\ Raw.free_contacts st phone email /\
      Raw.signup E W body st
      = (Ok (ok (JSignedUp name), Some ((users_seq st + 1)%Z, name)),
         set_users st
           (users st ++
              [Raw.new_user E st name phone email (hashpw E pw)])%list
           (users_seq st + 1)%Z)) \/
   (exists name phone email pw message,
      Raw.fields body = inr (name, phone, email, pw) /\
      Raw.signup E W body st
      = (Ok (Response 400%Z (JFailure message), None), st) /\
      ((message = "Phone or email required" /\
        phone = EmptyString /\ email = EmptyString) \/
       (message = "Password required" /\
        (phone <> EmptyString \/ email <> EmptyString) /\
        Raw.jtruthy pw = false) \/
       (message = "Phone/email already registered" /\
        (phone <> EmptyString \/ email <> EmptyString) /\
        Raw.jtruthy pw = true /\
        (Raw.taken_contact st phone email \/
         exists e, is_integrity e = true /\ Raw.store_fails W e)))) \/
   (exists e,
      Raw.signup E W body st = (Raise e, st) /\
      (Raw.fields body = inl e \/
       (is_integrity e = false /\
        exists name phone email pw,
          Raw.fields body = inr (name, phone, email, pw) /\
          (phone <> EmptyString \/ email <> EmptyString) /\
          Raw.jtruthy pw = true /\
          (Raw.store_fails W e \/ Raw.hash_value E pw = inl e))))) /\
  (forall name phone email pw e,
     Raw.fields body = inr (name, phone, email, pw) ->
     (phone <> EmptyString \/ email <> EmptyString) ->
     Raw.jtruthy pw = true ->
     Raw.on_connect W = Some e -> is_integrity e = false ->
     Raw.signup E W body st = (Raise e, st)) /\
  (forall s f p d,
     Raw.signup E Raw.no_fault (inr (Some (Raw.strings d))) st
     = signup E (Request s f p d) st) /\
  (Raw.signup sample_env Raw.locked
     (inr (Some (Raw.strings [("email", "asha@example.com");
                              ("password", "pw1")]))) empty_state
   = (Raise (Exn OtherError "database is locked"), empty_state) /\
   Raw.signup sample_env Raw.no_fault
     (inr (Some (Raw.JObj [("name", Raw.JInt 5);
                           ("email", Raw.JStr "asha@example.com");
                           ("password", Raw.JStr "pw1")]))) empty_state
   = (Raise (Exn OtherError "'int' object has no attribute 'strip'"),
      empty_state) /\
   Raw.signup sample_env Raw.no_fault (inr (Some (Raw.JArr [Raw.JNull])))
              empty_state
   = (Raise (Exn OtherError "'list' object has no attribute 'get'"),
      empty_state)).
Proof.
  split; [|split; [|split]].
  - rewrite signup_run.
    destruct (Raw.fields body) as [e|[[[name phone] email] pw]] eqn:Hf.
    { right; right. exists e. split; [reflexivity|now left]. }
    destruct (negb (Py.truthy (Py.str_or phone email))) eqn:Hc.
    { right; left. exists name, phone, email, pw. eexists.
      split; [reflexivity|]. split; [reflexivity|]. left.
      apply no_contact_given in Hc. now repeat split. }
    apply contact_given in Hc.
    destruct (Raw.jtruthy pw) eqn:Hw; cbn [negb].
    2:{ right; left. exists name, phone, email, pw. eexists.
        split; [reflexivity|]. split; [reflexivity|]. right; left.
        now repeat split. }
    destruct (write_user_cases E W name (or_none phone) (or_none email)
                (Raw.hash_value E pw) st)
      as [[hash [Hh [HW [Hfree Hrun]]]]|[e [Hrun Hcause]]]; rewrite Hrun.
    + left. destruct (hash_value_string E pw hash Hh) as [s [-> ->]].
      exists name, phone, email, s. split; [reflexivity|].
      split; [exact Hc|]. split; [now apply truthy_nonempty|].
      split; [exact HW|]. split; [exact Hfree|reflexivity].
    + destruct (is_integrity e) eqn:He.
      * right; left. exists name, phone, email, pw. eexists.
        split; [reflexivity|]. split; [reflexivity|]. right; right.
        split; [reflexivity|]. split; [exact Hc|]. split; [exact Hw|].
        destruct Hcause as [Hs|[Hh|[_ Ht]]].
        -- right. exists e. split; [exact He|exact Hs].
        -- apply hash_value_error in Hh. congruence.
        -- left. exact Ht.
      * right; right. exists e. split; [reflexivity|]. right.
        split; [exact He|]. exists name, phone, email, pw.
        split; [reflexivity|]. split; [exact Hc|]. split; [exact Hw|].
        destruct Hcause as [Hs|[Hh|[Hi _]]]; [now left|now right|congruence].
  - intros name phone email pw e Hf Hc Hw Hcon He.
    rewrite signup_run, Hf.
    apply contact_given in Hc. rewrite Hc, Hw. cbn [negb].
    rewrite (write_user_connect_fails E W _ _ _ _ st e Hcon).
    now rewrite He.
  - intros s f p d. rewrite signup_run, fields_strings.
    unfold signup. cbn [json Raw.jtruthy Raw.hash_value].
    destruct (negb (Py.truthy (Py.str_or (Py.strip (dict_get d "phone" ""))
                                 (Py.strip (dict_get d "email" "")))));
      [reflexivity|].
    destruct (negb (Py.truthy (dict_get d "password" ""))); [reflexivity|].
    rewrite write_user_no_fault. unfold_monad.
    destruct (insert_user E _ _ _ _ st) as [[uid|e] s']; reflexivity.
  - repeat split; reflexivity.
Qed.

Lemma create_user_run (E : env) (W : Raw.write_faults)
    (name phone email password : string) (st : state) :
  Raw.create_user E W name phone email password st
  = match Raw.write_user E W name (or_none phone) (or_none email)
                         (inr (Database.hash_password E password)) st with
    | (Ok uid, st') => (Ok (Database.Created uid), st')
    | (Raise e, st') =>
        if is_integrity e
        then (Ok (Database.NotCreated "Phone or email already registered."),
              st')
        else (Raise e, st')
    end.
Proof.
  unfold Raw.create_user. unfold_monad.
  destruct (Raw.write_user E W name (or_none phone) (or_none email)
              (inr (Database.hash_password E password)) st) as [[uid|e] s];
    reflexivity.
Qed.

(** X17: [create_user], on [str] arguments, ends in exactly one of three
    ways.  It returns (True, next id) and adds one row with the values as
    given (an empty string stored as NULL, a blank one kept: nothing is
    trimmed here) and the hash of the password: this needs a store that
    does not fail and contacts no user holds.  Or it returns (False,
    "Phone or email already registered.") and leaves the store as it was: a
    user holds the phone or the email, or the store raised an
    IntegrityError.  Or it raises and leaves the store as it was: a call to
    the store failed with an error that is not an IntegrityError, the only
    class caught; this happens whenever opening the connection fails so.
    With a store that answers it is the run of [Database.create_user]
    above, which never raises. *)
Theorem create_user_outcomes (E : env) (W : Raw.write_faults) (st : state)
    (name phone email password : string) :
  ((W = Raw.no_fault /\ Raw.free_contacts st phone email /\
    Raw.create_user E W name phone email password st
    = (Ok (Database.Created (users_seq st + 1)%Z),
       set_users st
         (users st ++
            [Raw.new_user E st name phone email
                          (Database.hash_password E password)])%list
         (users_seq st + 1)%Z)) \/
   (Raw.create_user E W name phone email password st
    = (Ok (Database.NotCreated "Phone or email already registered."), st) /\
    (Raw.taken_contact st phone email \/
     exists e, is_integrity e = true /\ Raw.store_fails W e)) \/
   (exists e,
      Raw.create_user E W name phone email password st = (Raise e, st) /\
      is_integrity e = false /\ Raw.store_fails W e)) /\
  (forall e,
     Raw.on_connect W = Some e -> is_integrity e = false ->
     Raw.create_user E W name phone email password st = (Raise e, st)) /\
  Raw.create_user E Raw.no_fault name phone email password st
  = Database.create_user E name phone email password st /\
  Raw.create_user sample_env Raw.locked "Asha" "" "asha@example.com" "pw1"
                  empty_state
  = (Raise (Exn OtherError "database is locked"), empty_state).
Proof.
  split; [|split; [|split]].
  - rewrite create_user_run.
    destruct (write_user_cases E W name (or_none phone) (or_none email)
                (inr (Database.hash_password E password)) st)
      as [[hash [Hh [HW [Hfree Hrun]]]]|[e [Hrun Hcause]]]; rewrite Hrun.
    + left. injection Hh as <-. now repeat split.
    + destruct (is_integrity e) eqn:He.
      * right; left. split; [reflexivity|].
        destruct Hcause as [Hs|[Hh|[_ Ht]]];
          [right; exists e; split; [exact He|exact Hs]|discriminate Hh
          |left; exact Ht].
      * right; right. exists e. split; [reflexivity|]. split; [exact He|].
        destruct Hcause as [Hs|[Hh|[Hi _]]];
          [exact Hs|discriminate Hh|congruence].
  - intros e Hcon He. rewrite create_user_run.
    rewrite (write_user_connect_fails E W _ _ _ _ st e Hcon).
    now rewrite He.
  - rewrite create_user_run, write_user_no_fault.
    unfold Database.create_user. unfold_monad.
    destruct (insert_user E _ _ _ _ st) as [[uid|e] s']; reflexivity.
  - reflexivity.
Qed.
